(** * Workflow automation engine: a shallow embedding and its properties

    The development follows these source files:
    - [packages/api/src/services/workflow/workflow-engine.ts]
      (class [WorkflowEngine]: the worker handler of [initialize],
      [executeNodes], [executeNode], [evaluateCondition], [execute]);
    - the Anti-Ban service ([AntiBanService]: [recordMessage],
      [calculateScore], [checkRateLimit]);
    - the workflow routes ([POST /:id/activate]);
    - the database and queue plugins ([insert], [queryOne], [addJob]).

    Asynchronous code is embedded as a state-and-exception monad over a
    [World] that holds the database tables the engine touches, the job
    queues, the logger output, the process-local reputation map and a
    logical clock in milliseconds. *)

From Stdlib Require Import ZArith QArith Qminmax String List Lia.
From Stdlib Require Import Lqa Ascii.
From stdpp Require Import base gmap strings list.
From stdpp Require Import pretty.
Import ListNotations.

Local Open Scope string_scope.
Local Open Scope Z_scope.

(** ** JavaScript values

    Workflow definitions, trigger payloads and node results are loosely
    typed ([any]) in the source.  Numbers are restricted to integers. *)

#[warnings="-register-all"]
Inductive JsVal : Type :=
| JUndefined
| JNull
| JBool (b : bool)
| JNum (n : Z)
| JStr (s : string)
| JObj (fields : list (string * JsVal)).

(** [v ? a : b], [v || d], [if (v)] : JavaScript truthiness. *)
Definition truthy (v : JsVal) : bool :=
  match v with
  | JUndefined | JNull => false
  | JBool b => b
  | JNum n => negb (n =? 0)
  | JStr s => negb (String.eqb s "")
  | JObj _ => true
  end.

(** [a || b] *)
Definition js_or (a b : JsVal) : JsVal := if truthy a then a else b.

Fixpoint assoc_get (k : string) (fs : list (string * JsVal)) : JsVal :=
  match fs with
  | [] => JUndefined
  | (k', v) :: rest => if String.eqb k k' then v else assoc_get k rest
  end.

(** An optional string argument ([leadId] may be [undefined]). *)
Definition js_of_opt (o : option string) : JsVal :=
  match o with Some s => JStr s | None => JUndefined end.

(** ** Data model *)

Record Node := { id : string; type : string; data : JsVal }.

Record Edge := { source : string; target : string; condition : JsVal }.

(** One element of the [results] array: [{ nodeId, result }]. *)
Record ResultEntry := { nodeId : string; result : JsVal }.

(** What the driver hands over for a JSONB column of [workflows].  A
    column that holds a JSON array (what the create route stores for a
    graph sent as an array, and the column default ['[]']) comes back
    as a JavaScript array; a column that holds a JSON string with the
    JSON text of the graph in it (what the route stores for a graph
    sent as a string) comes back as that string. *)
Inductive Stored : Type := AsArray | AsText.

(** [wf_nodes] and [wf_edges] are the graph the columns describe;
    [wf_nodes_stored] and [wf_edges_stored] say in which of the two
    forms each column comes back. *)
Record WorkflowRow := {
  wf_id : string;
  wf_tenant_id : string;
  wf_status : string;
  wf_run_once_per_lead : bool;
  wf_nodes : list Node;
  wf_edges : list Edge;
  wf_nodes_stored : Stored;
  wf_edges_stored : Stored
}.

Record ExecutionRow := {
  ex_id : nat;
  ex_workflow_id : string;
  ex_tenant_id : string;
  ex_lead_id : option string;
  ex_status : string;
  ex_context : JsVal;
  ex_node_results : list ResultEntry;
  ex_started_at : Z;
  ex_completed_at : option Z
}.

Record MessageRow := {
  msg_tenant_id : string;
  msg_channel : string;
  msg_created_at : Z
}.

(** A job as stored by [queue.add(jobName, data, opts)]; [job_attempts]
    is the [attempts] option the job was added with. *)
Record Job := {
  job_id : nat;
  job_queue : string;
  job_name : string;
  job_data : JsVal;
  job_attempts : Z
}.

Record ReputationScore := {
  rs_tenantId : string;
  rs_channel : string;
  score : Q;
  messagesSent : Z;
  messagesFailed : Z;
  lastMessageAt : Z
}.

(** Statements the engine issues against tables whose contents no
    property below depends on; they are journalled, not interpreted. *)
Inductive Statement : Type :=
| LeadsArrayAppend (tag : JsVal) (leadId : option string) (tenantId : string)
| LeadsArrayRemove (tag : JsVal) (leadId : option string) (tenantId : string)
| LeadsUpdate (leadId : option string) (updates : JsVal)
| TasksInsert (row : list (string * JsVal)).

Inductive LogEntry : Type :=
| LogExecutingWorkflow (workflowId : string) (leadId : option string)
| LogExecutingNode (nodeType nodeId : string)
| LogWorkflowFailed (error : string) (workflowId : string)
| LogJobAdded (queue : string) (jobId : nat) (jobName : string).

Record World := {
  clock : Z;
  next_id : nat;
  workflows : list WorkflowRow;
  workflow_executions : list ExecutionRow;
  messages : list MessageRow;
  issued : list Statement;
  jobs : list Job;
  log : list LogEntry;
  reputationScores : gmap string ReputationScore
}.

(** Calls that leave the process (PostgreSQL, Redis). *)
Inductive Call : Type :=
| CallSelectWorkflow (workflowId tenantId : string)
| CallInsertExecution (workflowId tenantId : string) (leadId : option string)
| CallCompleteExecution (executionId : nat)
| CallActivateWorkflow (workflowId tenantId : string)
| CallStatement (s : Statement)
| CallCountMessages (tenantId channel : string)
| CallQueueAdd (queue jobName : string) (payload : JsVal).

(** ** The monad of asynchronous code

    A computation either resolves with a value or rejects with an error
    message; both carry the world reached so far, since effects
    performed before a rejection persist.  The [while] loop of
    [executeNodes] is run with a bound on its number of iterations;
    [OutOfFuel] says the bound was too small, and is shown below never
    to happen for a bound above the number of edges. *)

Inductive Outcome (A : Type) : Type :=
| Ok (a : A) (w : World)
| Throw (e : string) (w : World)
| OutOfFuel.
Arguments Ok {A} a w.
Arguments Throw {A} e w.
Arguments OutOfFuel {A}.

Definition M (A : Type) : Type := World -> Outcome A.

Definition ret {A} (a : A) : M A := fun w => Ok a w.
Definition throw {A} (e : string) : M A := fun w => Throw e w.
Definition bind {A B} (m : M A) (k : A -> M B) : M B :=
  fun w => match m w with
           | Ok a w' => k a w'
           | Throw e w' => Throw e w'
           | OutOfFuel => OutOfFuel
           end.

(** [try { body } catch (error) { handler }] *)
Definition try_catch {A} (body : M A) (handler : string -> M A) : M A :=
  fun w => match body w with
           | Throw e w' => handler e w'
           | o => o
           end.

Declare Scope engine_scope.
Delimit Scope engine_scope with engine.
Notation "x <- m ;; k" := (bind m (fun x => k))
  (at level 100, m at next level, right associativity) : engine_scope.
Notation "m ;; k" := (bind m (fun _ => k))
  (at level 100, right associativity) : engine_scope.
Local Open Scope engine_scope.

(** The world an outcome leaves behind. *)
Definition world_of {A} (o : Outcome A) : option World :=
  match o with Ok _ w => Some w | Throw _ w => Some w | OutOfFuel => None end.

Definition get_world : M World := fun w => Ok w w.
Definition modify (f : World -> World) : M unit := fun w => Ok tt (f w).

Definition set_clock (t : Z) (w : World) : World :=
  {| clock := t; next_id := next_id w; workflows := workflows w;
     workflow_executions := workflow_executions w; messages := messages w;
     issued := issued w; jobs := jobs w; log := log w;
     reputationScores := reputationScores w |}.

Definition set_next_id (n : nat) (w : World) : World :=
  {| clock := clock w; next_id := n; workflows := workflows w;
     workflow_executions := workflow_executions w; messages := messages w;
     issued := issued w; jobs := jobs w; log := log w;
     reputationScores := reputationScores w |}.

Definition set_workflows (l : list WorkflowRow) (w : World) : World :=
  {| clock := clock w; next_id := next_id w; workflows := l;
     workflow_executions := workflow_executions w; messages := messages w;
     issued := issued w; jobs := jobs w; log := log w;
     reputationScores := reputationScores w |}.

Definition set_executions (l : list ExecutionRow) (w : World) : World :=
  {| clock := clock w; next_id := next_id w; workflows := workflows w;
     workflow_executions := l; messages := messages w;
     issued := issued w; jobs := jobs w; log := log w;
     reputationScores := reputationScores w |}.

Definition set_issued (l : list Statement) (w : World) : World :=
  {| clock := clock w; next_id := next_id w; workflows := workflows w;
     workflow_executions := workflow_executions w; messages := messages w;
     issued := l; jobs := jobs w; log := log w;
     reputationScores := reputationScores w |}.

Definition set_jobs (l : list Job) (w : World) : World :=
  {| clock := clock w; next_id := next_id w; workflows := workflows w;
     workflow_executions := workflow_executions w; messages := messages w;
     issued := issued w; jobs := l; log := log w;
     reputationScores := reputationScores w |}.

Definition set_log (l : list LogEntry) (w : World) : World :=
  {| clock := clock w; next_id := next_id w; workflows := workflows w;
     workflow_executions := workflow_executions w; messages := messages w;
     issued := issued w; jobs := jobs w; log := l;
     reputationScores := reputationScores w |}.

Definition set_reputationScores (m : gmap string ReputationScore) (w : World) : World :=
  {| clock := clock w; next_id := next_id w; workflows := workflows w;
     workflow_executions := workflow_executions w; messages := messages w;
     issued := issued w; jobs := jobs w; log := log w;
     reputationScores := m |}.

(** [queueLogger.debug / error / info] *)
Definition logger (e : LogEntry) : M unit :=
  modify (fun w => set_log (log w ++ [e]) w).

(** [obj.key] : reading a property of [undefined] or [null] is a
    [TypeError]; a primitive has none of the properties read here. *)
Definition prop (obj : JsVal) (key : string) : M JsVal :=
  match obj with
  | JUndefined =>
      throw ("Cannot read properties of undefined (reading '" ++ key ++ "')")
  | JNull =>
      throw ("Cannot read properties of null (reading '" ++ key ++ "')")
  | JObj fs => ret (assoc_get key fs)
  | _ => ret JUndefined
  end.

(** ['key' in obj], for the records the engine returns. *)
Definition has_field (key : string) (v : JsVal) : bool :=
  match v with
  | JObj fs => existsb (fun kv => String.eqb key (fst kv)) fs
  | _ => false
  end.

(** [{ ...fs, key: v }] : a later property replaces an earlier one of
    the same name and keeps its position. *)
Fixpoint assoc_set (key : string) (v : JsVal) (fs : list (string * JsVal))
  : list (string * JsVal) :=
  match fs with
  | [] => [(key, v)]
  | (k', v') :: rest =>
      if String.eqb key k' then (k', v) :: rest
      else (k', v') :: assoc_set key v rest
  end.

(** [{ ...base, ...extra }] *)
Definition spread (base extra : list (string * JsVal)) : list (string * JsVal) :=
  fold_left (fun acc kv => assoc_set (fst kv) (snd kv) acc) extra base.

(** [l.join(sep)] *)
Fixpoint join (sep : string) (l : list string) : string :=
  match l with
  | [] => ""
  | [x] => x
  | x :: rest => x ++ sep ++ join sep rest
  end.

(** [String(array)] for an array of plain objects: the elements, each
    ['[object Object]'], joined by commas. *)
Definition array_toString {A : Type} (items : list A) : string :=
  join "," (map (fun _ => "[object Object]") items).

(** ** Node types of the [switch] in [executeNode] *)

Inductive NodeKind : Type :=
| KTrigger | KSendMessage | KSendEmail | KAddTag | KRemoveTag | KUpdateLead
| KCreateTask | KDelay | KCondition | KWebhook | KAiAgent | KEnd | KDefault.


Definition node_kind (t : string) : NodeKind :=
  if String.eqb t "trigger" then KTrigger
  else if String.eqb t "send_message" then KSendMessage
  else if String.eqb t "send_email" then KSendEmail
  else if String.eqb t "add_tag" then KAddTag
  else if String.eqb t "remove_tag" then KRemoveTag
  else if String.eqb t "update_lead" then KUpdateLead
  else if String.eqb t "create_task" then KCreateTask
  else if String.eqb t "delay" then KDelay
  else if String.eqb t "condition" then KCondition
  else if String.eqb t "webhook" then KWebhook
  else if String.eqb t "ai_agent" then KAiAgent
  else if String.eqb t "end" then KEnd
  else KDefault.

(** The queues of the queue plugin ([queues] object). *)
Definition queue_names : list string :=
  ["messages"; "workflows"; "voice"; "analytics"; "exports"; "imports"; "ai"].

(** [config.queue.defaultJobOptions.attempts] *)
Definition defaultJobOptions_attempts : Z := 3.

(** Data of a job on the [workflows] queue, as the handler destructures
    it: [const { workflowId, tenantId, leadId, triggerData } = job.data]. *)
Record JobData := {
  jd_workflowId : string;
  jd_tenantId : string;
  jd_leadId : option string;
  jd_triggerData : JsVal
}.

(** Reply of a route handler: [reply.status(c).send(body)]. *)
Record Reply := { statusCode : Z; body : JsVal }.

(** Result of [checkRateLimit]. *)
Record RateLimit := { allowed : bool; retryAfter : option Z }.

(** ** The engine and its collaborators *)

Section Engine.

(** The runtime's conversion of a string to a number ([None] is NaN);
    only [setTimeout] on a string-valued [delayMs] consults it. *)
Variable StringToNumber : string -> option Z.

(** The rounding of an arithmetic result to a double; the identity
    gives exact rational arithmetic.  Only [calculateScore] computes
    with fractions. *)
Variable fround : Q -> Q.

(** Failures of the external services: [rejects c w = Some e] when
    call [c], made in world [w], rejects with error [e] (connection
    lost, constraint violated, malformed statement). *)
Variable rejects : Call -> World -> option string.

(** The message of the [SyntaxError] that the runtime's [JSON.parse]
    throws for a text that is not JSON; it differs between versions of
    the runtime. *)
Variable syntax_error : string -> string.

Definition external (c : Call) : M unit :=
  fun w => match rejects c w with
           | Some e => Throw e w
           | None => Ok tt w
           end.

(** [JSON.parse(column)].  The argument is converted to a string
    first.  A column that came back as a string holds the JSON text of
    the graph, and parsing gives the graph.  A column that came back as
    an array of objects converts to [''] or to ['[object Object],...'],
    neither of which is JSON: parsing throws. *)
Definition JSON_parse {A : Type} (stored : Stored) (items : list A) : M (list A) :=
  match stored with
  | AsText => ret items
  | AsArray => throw (syntax_error (array_toString items))
  end.

(** *** Database plugin *)

(** [queryOne('SELECT nodes, edges FROM workflows WHERE id = $1 AND
    tenant_id = $2', [workflowId, tenantId])] *)
Definition select_workflow (workflowId tenantId : string) : M (option WorkflowRow) :=
  external (CallSelectWorkflow workflowId tenantId);;
  w <- get_world;;
  ret (List.find
         (fun r => String.eqb (wf_id r) workflowId
                   && String.eqb (wf_tenant_id r) tenantId)
         (workflows w)).

(** [insert('workflow_executions', { workflow_id, tenant_id, lead_id,
    status: 'running', context, node_results: '[]' })] *)
Definition insert_execution (workflowId tenantId : string)
    (leadId : option string) (context : JsVal) : M ExecutionRow :=
  external (CallInsertExecution workflowId tenantId leadId);;
  w <- get_world;;
  let row := {| ex_id := next_id w;
                ex_workflow_id := workflowId;
                ex_tenant_id := tenantId;
                ex_lead_id := leadId;
                ex_status := "running";
                ex_context := context;
                ex_node_results := [];
                ex_started_at := clock w;
                ex_completed_at := None |} in
  modify (fun w => set_executions (workflow_executions w ++ [row])
                     (set_next_id (S (next_id w)) w));;
  ret row.

Definition complete_row (results : list ResultEntry) (now : Z)
    (r : ExecutionRow) : ExecutionRow :=
  {| ex_id := ex_id r;
     ex_workflow_id := ex_workflow_id r;
     ex_tenant_id := ex_tenant_id r;
     ex_lead_id := ex_lead_id r;
     ex_status := "completed";
     ex_context := ex_context r;
     ex_node_results := results;
     ex_started_at := ex_started_at r;
     ex_completed_at := Some now |}.

(** [query("UPDATE workflow_executions SET status = 'completed',
    completed_at = NOW(), node_results = $1 WHERE id = $2")] *)
Definition complete_execution (results : list ResultEntry)
    (executionId : nat) : M unit :=
  external (CallCompleteExecution executionId);;
  modify (fun w =>
    set_executions
      (map (fun r => if Nat.eqb (ex_id r) executionId
                     then complete_row results (clock w) r else r)
           (workflow_executions w)) w).

(** A statement against [leads] or [tasks]. *)
Definition run_statement (s : Statement) : M unit :=
  external (CallStatement s);;
  modify (fun w => set_issued (issued w ++ [s]) w).

(** [update('leads', id, data)] : [Object.keys(data)] comes first. *)
Definition db_update_leads (leadId : option string) (updates : JsVal) : M unit :=
  match updates with
  | JUndefined | JNull => throw "Cannot convert undefined or null to object"
  | _ => run_statement (LeadsUpdate leadId updates)
  end.

(** *** Queue plugin: [addJob] *)

Definition addJob (queueName jobName : string) (payload : JsVal) : M Job :=
  if existsb (String.eqb queueName) queue_names then
    external (CallQueueAdd queueName jobName payload);;
    w <- get_world;;
    let job := {| job_id := next_id w;
                  job_queue := queueName;
                  job_name := jobName;
                  job_data := payload;
                  job_attempts := defaultJobOptions_attempts |} in
    modify (fun w => set_jobs (jobs w ++ [job]) (set_next_id (S (next_id w)) w));;
    logger (LogJobAdded queueName (job_id job) jobName);;
    ret job
  else throw ("Queue " ++ queueName ++ " not found").

(** *** Timers *)

Definition ToNumber (v : JsVal) : option Z :=
  match v with
  | JUndefined => None
  | JNull => Some 0
  | JBool b => Some (if b then 1 else 0)
  | JNum n => Some n
  | JStr s => StringToNumber s
  | JObj _ => None
  end.

(** The delay [setTimeout] arms: a value below 1, above 2147483647 or
    NaN is replaced by 1. *)
Definition timer_duration (v : JsVal) : Z :=
  match ToNumber v with
  | Some n => if (1 <=? n) && (n <=? 2147483647) then n else 1
  | None => 1
  end.

(** [await new Promise((resolve) => setTimeout(resolve, ms))] : the
    caller continues when the timer has fired. *)
Definition sleep (ms : JsVal) : M unit :=
  modify (fun w => set_clock (clock w + timer_duration ms) w).

(** *** [WorkflowEngine.executeNode] *)

Definition flag (name : string) : JsVal := JObj [(name, JBool true)].

Definition executeNode (node : Node) (tenantId : string)
    (leadId : option string) (context : JsVal) : M JsVal :=
  logger (LogExecutingNode (type node) (id node));;
  match node_kind (type node) with
  | KTrigger => ret (flag "triggered")
  | KSendMessage =>
      channel <- prop (data node) "channel";;
      content <- prop (data node) "content";;
      addJob "messages" "send-message"
        (JObj [("tenantId", JStr tenantId); ("leadId", js_of_opt leadId);
               ("channel", channel); ("content", content)]);;
      ret (flag "sent")
  | KSendEmail =>
      content <- prop (data node) "content";;
      subject <- prop (data node) "subject";;
      addJob "messages" "send-message"
        (JObj [("tenantId", JStr tenantId); ("leadId", js_of_opt leadId);
               ("channel", JStr "email"); ("content", content);
               ("subject", subject)]);;
      ret (flag "sent")
  | KAddTag =>
      tag <- prop (data node) "tag";;
      run_statement (LeadsArrayAppend tag leadId tenantId);;
      ret (flag "tagged")
  | KRemoveTag =>
      tag <- prop (data node) "tag";;
      run_statement (LeadsArrayRemove tag leadId tenantId);;
      ret (flag "untagged")
  | KUpdateLead =>
      updates <- prop (data node) "updates";;
      db_update_leads leadId updates;;
      ret (flag "updated")
  | KCreateTask =>
      title <- prop (data node) "title";;
      description <- prop (data node) "description";;
      assignedTo <- prop (data node) "assignedTo";;
      priority <- prop (data node) "priority";;
      run_statement
        (TasksInsert [("tenant_id", JStr tenantId); ("title", title);
                      ("description", description);
                      ("assigned_to", assignedTo);
                      ("lead_id", js_of_opt leadId);
                      ("priority", js_or priority (JStr "medium"))]);;
      ret (flag "created")
  | KDelay =>
      delayMs <- prop (data node) "delayMs";;
      sleep (js_or delayMs (JNum 1000));;
      ret (flag "delayed")
  | KCondition =>
      c <- prop (data node) "condition";;
      ret (JObj [("condition", c)])
  | KWebhook =>
      url <- prop (data node) "url";;
      addJob "messages" "send-webhook"
        (JObj [("tenantId", JStr tenantId); ("url", url);
               ("payload", JObj [("leadId", js_of_opt leadId);
                                 ("context", context)])]);;
      ret (flag "webhookSent")
  | KAiAgent => ret (flag "aiTriggered")
  | KEnd => ret (flag "ended")
  | KDefault => ret (flag "unknown")
  end.

(** *** [WorkflowEngine.evaluateCondition]

    [try { return true; } catch { return false; }] *)
Definition evaluateCondition (condition : JsVal) (result : JsVal) : bool :=
  true.

(** *** [WorkflowEngine.executeNodes] *)

(** [edges.filter((e) => e.source === nodeId)] *)
Definition outgoingEdges (edges : list Edge) (nodeId : string) : list Edge :=
  List.filter (fun e => String.eqb (source e) nodeId) edges.

(** The [for (const edge of outgoingEdges)] loop. *)
Fixpoint push_targets (outgoing : list Edge) (result : JsVal)
    (queue : list string) : list string :=
  match outgoing with
  | [] => queue
  | edge :: rest =>
      if truthy (condition edge) then
        if evaluateCondition (condition edge) result
        then push_targets rest result (queue ++ [target edge])
        else push_targets rest result queue
      else push_targets rest result (queue ++ [target edge])
  end.

(** [nodes.find((n) => n.id === nodeId)] *)
Definition find_node (nodes : list Node) (nodeId : string) : option Node :=
  List.find (fun n => String.eqb (id n) nodeId) nodes.

(** The [while (queue.length > 0)] loop; [fuel] bounds the number of
    iterations. *)
Fixpoint bfs (fuel : nat) (nodes : list Node) (edges : list Edge)
    (tenantId : string) (leadId : option string) (context : JsVal)
    (queue : list string) (executedNodes : gset string)
    (results : list ResultEntry) : M (list ResultEntry) :=
  match queue with
  | [] => ret results
  | nodeId :: queue' =>
      match fuel with
      | O => fun _ => OutOfFuel
      | S fuel' =>
          if decide (nodeId ∈ executedNodes) then
            bfs fuel' nodes edges tenantId leadId context
                queue' executedNodes results
          else
            match find_node nodes nodeId with
            | None =>
                bfs fuel' nodes edges tenantId leadId context
                    queue' executedNodes results
            | Some node =>
                result <- executeNode node tenantId leadId context;;
                bfs fuel' nodes edges tenantId leadId context
                    (push_targets (outgoingEdges edges nodeId) result queue')
                    ({[nodeId]} ∪ executedNodes)
                    (results ++ [{| nodeId := nodeId; result := result |}])
            end
      end
  end.

Definition executeNodes (fuel : nat) (nodes : list Node) (edges : list Edge)
    (executionId : nat) (tenantId : string) (leadId : option string)
    (context : JsVal) : M (list ResultEntry) :=
  match List.find (fun n => String.eqb (type n) "trigger") nodes with
  | None => throw "No trigger node found"
  | Some triggerNode =>
      bfs fuel nodes edges tenantId leadId context [id triggerNode] ∅ []
  end.

(** *** The worker handler of [WorkflowEngine.initialize] *)

Definition worker_handler (fuel : nat) (job : JobData) : M (nat * list ResultEntry) :=
  let workflowId := jd_workflowId job in
  let tenantId := jd_tenantId job in
  let leadId := jd_leadId job in
  let triggerData := jd_triggerData job in
  logger (LogExecutingWorkflow workflowId leadId);;
  try_catch
    (workflow <- select_workflow workflowId tenantId;;
     match workflow with
     | None => throw "Workflow not found"
     | Some workflow =>
         nodes <- JSON_parse (wf_nodes_stored workflow) (wf_nodes workflow);;
         edges <- JSON_parse (wf_edges_stored workflow) (wf_edges workflow);;
         execution <- insert_execution workflowId tenantId leadId
                        (js_or triggerData (JObj []));;
         results <- executeNodes fuel nodes edges (ex_id execution)
                      tenantId leadId triggerData;;
         complete_execution results (ex_id execution);;
         ret (ex_id execution, results)
     end)
    (fun error =>
       logger (LogWorkflowFailed error workflowId);;
       throw error).

(** *** [WorkflowEngine.execute] *)

Definition execute (workflowId : string) (data : list (string * JsVal)) : M JsVal :=
  job <- addJob "workflows" "execute-workflow"
           (JObj (spread [("workflowId", JStr workflowId)] data));;
  ret (JObj [("jobId", JNum (Z.of_nat (job_id job)));
             ("status", JStr "queued")]).

(** *** Workflow routes: [POST /:id/activate]

    [tenantId] is [request.user.tenantId]. *)

Definition activate_row (r : WorkflowRow) : WorkflowRow :=
  {| wf_id := wf_id r;
     wf_tenant_id := wf_tenant_id r;
     wf_status := "active";
     wf_run_once_per_lead := wf_run_once_per_lead r;
     wf_nodes := wf_nodes r;
     wf_edges := wf_edges r;
     wf_nodes_stored := wf_nodes_stored r;
     wf_edges_stored := wf_edges_stored r |}.

Definition activate_route (workflowId tenantId : string) : M Reply :=
  external (CallActivateWorkflow workflowId tenantId);;
  modify (fun w =>
    set_workflows
      (map (fun r => if String.eqb (wf_id r) workflowId
                        && String.eqb (wf_tenant_id r) tenantId
                     then activate_row r else r)
           (workflows w)) w);;
  ret {| statusCode := 200;
         body := JObj [("success", JBool true);
                       ("data", JObj [("message", JStr "Workflow activated")])] |}.

(** *** Anti-Ban service *)

(** The map key [`${tenantId}:${channel}`]. *)
Definition reputation_key (tenantId channel : string) : string :=
  tenantId ++ ":" ++ channel.

(** [calculateScore]; [now] is the [new Date()] it takes. *)
Definition calculateScore (now : Z) (reputation : ReputationScore) : Q :=
  let failureRate :=
    fround (inject_Z (messagesFailed reputation) / inject_Z (messagesSent reputation))%Q in
  let score := fround (100 - fround (failureRate * 50))%Q in
  let timeSinceLastMessage := now - lastMessageAt reputation in
  let score := if timeSinceLastMessage <? 1000 then fround (score - 10)%Q else score in
  Qmax 0 (Qmin 100 score).

Definition recordMessage (tenantId channel : string) (success : bool) : M unit :=
  let key := reputation_key tenantId channel in
  w <- get_world;;
  match reputationScores w !! key with
  | Some existing =>
      let existing :=
        {| rs_tenantId := rs_tenantId existing;
           rs_channel := rs_channel existing;
           score := score existing;
           messagesSent := messagesSent existing + 1;
           messagesFailed := if success then messagesFailed existing
                             else messagesFailed existing + 1;
           lastMessageAt := clock w |} in
      let existing :=
        {| rs_tenantId := rs_tenantId existing;
           rs_channel := rs_channel existing;
           score := calculateScore (clock w) existing;
           messagesSent := messagesSent existing;
           messagesFailed := messagesFailed existing;
           lastMessageAt := lastMessageAt existing |} in
      modify (fun w => set_reputationScores (<[key := existing]> (reputationScores w)) w)
  | None =>
      modify (fun w =>
        set_reputationScores
          (<[key := {| rs_tenantId := tenantId;
                       rs_channel := channel;
                       score := if success then 100%Q else 90%Q;
                       messagesSent := 1;
                       messagesFailed := if success then 0 else 1;
                       lastMessageAt := clock w |}]> (reputationScores w)) w)
  end.

(** [SELECT COUNT( * ) FROM messages WHERE tenant_id = $1 AND channel = $2
    AND created_at >= NOW() - INTERVAL '1 hour'] *)
Definition count_messages (tenantId channel : string) : M Z :=
  external (CallCountMessages tenantId channel);;
  w <- get_world;;
  ret (Z.of_nat (length (List.filter
         (fun m => String.eqb (msg_tenant_id m) tenantId
                   && String.eqb (msg_channel m) channel
                   && (clock w - 3600000 <=? msg_created_at m))
         (messages w)))).

Definition checkRateLimit (tenantId channel : string) : M RateLimit :=
  let key := reputation_key tenantId channel in
  w <- get_world;;
  match reputationScores w !! key with
  | None => ret {| allowed := true; retryAfter := None |}
  | Some reputation =>
      if negb (Qle_bool 30 (score reputation)) then
        ret {| allowed := false; retryAfter := Some 3600 |}
      else
        messagesInLastHour <- count_messages tenantId channel;;
        let hourlyLimit := 100 in
        if messagesInLastHour >=? hourlyLimit then
          ret {| allowed := false; retryAfter := Some 3600 |}
        else ret {| allowed := true; retryAfter := None |}
  end.

End Engine.

Arguments executeNode StringToNumber rejects node tenantId leadId context w : simpl never.
Arguments executeNodes StringToNumber rejects fuel nodes edges executionId tenantId leadId context w : simpl never.

(** ** Routes around the engine *)

(** Database calls of the routes below. *)
Inductive RouteCall : Type :=
| RouteSelectActiveWorkflow (workflowId tenantId : string)
| RouteSelectWorkflow (workflowId tenantId : string)
| RouteDeleteWorkflow (workflowId tenantId : string)
| RouteUpdateWorkflow (workflowId : string) (updates : JsVal).

(** What [GET /:id] replies. *)
Inductive WorkflowReply : Type :=
| ReplyNotFound (code message : string)
| ReplyWorkflow (data : WorkflowRow).

Section Routes.

Variable rejects : Call -> World -> option string.
Variable route_rejects : RouteCall -> World -> option string.

Definition route_external (c : RouteCall) : M unit :=
  fun w => match route_rejects c w with
           | Some e => Throw e w
           | None => Ok tt w
           end.

(** Public API, [POST /workflows/:id/trigger]; [tenantId] is
    [request.tenant.id], [leadId] and [data] come from the body. *)
Definition trigger_route (workflowId tenantId : string) (leadId data : JsVal)
  : M Reply :=
  route_external (RouteSelectActiveWorkflow workflowId tenantId);;
  w <- get_world;;
  match List.find
          (fun r => String.eqb (wf_id r) workflowId
                    && String.eqb (wf_tenant_id r) tenantId
                    && String.eqb (wf_status r) "active")
          (workflows w) with
  | None =>
      ret {| statusCode := 404;
             body := JObj [("success", JBool false);
                           ("error",
                            JObj [("code", JStr "NOT_FOUND");
                                  ("message",
                                   JStr "Workflow not found or not active")])] |}
  | Some _ =>
      execution <- execute rejects workflowId
                     [("tenantId", JStr tenantId); ("leadId", leadId);
                      ("triggerData", data)];;
      executionId <- prop execution "id";;
      status <- prop execution "status";;
      ret {| statusCode := 200;
             body := JObj [("success", JBool true);
                           ("data", JObj [("executionId", executionId);
                                          ("status", status)])] |}
  end.

(** Workflow routes, [POST /:id/test]. *)
Definition test_route (workflowId tenantId : string) (leadId testData : JsVal)
  : M Reply :=
  execution <- execute rejects workflowId
                 [("tenantId", JStr tenantId); ("leadId", leadId);
                  ("testData", testData)];;
  ret {| statusCode := 200;
         body := JObj [("success", JBool true); ("data", execution)] |}.

(** Workflow routes, [GET /:id]. *)
Definition get_route (workflowId tenantId : string) : M WorkflowReply :=
  route_external (RouteSelectWorkflow workflowId tenantId);;
  w <- get_world;;
  match List.find
          (fun r => String.eqb (wf_id r) workflowId
                    && String.eqb (wf_tenant_id r) tenantId)
          (workflows w) with
  | None => ret (ReplyNotFound "NOT_FOUND" "Workflow not found")
  | Some workflow => ret (ReplyWorkflow workflow)
  end.

(** Workflow routes, [DELETE /:id]. *)
Definition delete_route (workflowId tenantId : string) : M Reply :=
  route_external (RouteDeleteWorkflow workflowId tenantId);;
  modify (fun w =>
    set_workflows
      (List.filter (fun r => negb (String.eqb (wf_id r) workflowId
                                   && String.eqb (wf_tenant_id r) tenantId))
                   (workflows w)) w);;
  ret {| statusCode := 200;
         body := JObj [("success", JBool true);
                       ("data", JObj [("message", JStr "Workflow deleted")])] |}.

(** Workflow routes, [PATCH /:id].  [JSON_stringify] is
    [JSON.stringify]; [set_columns updates row] is [row] after
    [UPDATE workflows SET k1 = $1, ..., updated_at = NOW()] with the
    keys and values of [updates]. *)
Variable JSON_stringify : JsVal -> string.
Variable set_columns : JsVal -> WorkflowRow -> WorkflowRow.

(** [if (updates.key) updates.key = JSON.stringify(updates.key);] *)
Definition stringify_field (key : string) (updates : JsVal) : M JsVal :=
  v <- prop updates key;;
  if truthy v then
    match updates with
    | JObj fs => ret (JObj (assoc_set key (JStr (JSON_stringify v)) fs))
    | _ => ret updates
    end
  else ret updates.

(** [db.update('workflows', id, updates)] : [WHERE id = $n], and the
    first of the rows that [RETURNING *] gives, or [null]. *)
Definition db_update_workflows (workflowId : string) (updates : JsVal)
  : M (option WorkflowRow) :=
  route_external (RouteUpdateWorkflow workflowId updates);;
  w <- get_world;;
  let updated :=
    map (set_columns updates)
        (List.filter (fun r => String.eqb (wf_id r) workflowId) (workflows w)) in
  modify (fun w =>
    set_workflows
      (map (fun r => if String.eqb (wf_id r) workflowId
                     then set_columns updates r else r)
           (workflows w)) w);;
  ret (hd_error updated).

Definition patch_route (workflowId tenantId : string) (updates : JsVal)
  : M WorkflowReply :=
  updates <- stringify_field "trigger" updates;;
  updates <- stringify_field "nodes" updates;;
  updates <- stringify_field "edges" updates;;
  workflow <- db_update_workflows workflowId updates;;
  match workflow with
  | None => ret (ReplyNotFound "NOT_FOUND" "Workflow not found")
  | Some workflow => ret (ReplyWorkflow workflow)
  end.

End Routes.

(** ** Utilities: masking and pagination

    Strings are taken to hold ASCII characters, one per code unit. *)

(** A synchronous function that returns or throws a [RangeError]. *)
Inductive Thrown (A : Type) : Type :=
| Returned (a : A)
| RangeError (message : string).
Arguments Returned {A} a.
Arguments RangeError {A} message.

Fixpoint stars (n : nat) : string :=
  match n with
  | O => ""
  | S n' => String "*"%char (stars n')
  end.

(** ['*'.repeat(count)] : a negative count is a [RangeError]. *)
Definition repeat_star (count : Z) : Thrown string :=
  if count <? 0 then RangeError ("Invalid count value: " ++ pretty count)
  else Returned (stars (Z.to_nat count)).

Fixpoint string_drop (n : nat) (s : string) : string :=
  match n, s with
  | O, _ => s
  | S n', String _ s' => string_drop n' s'
  | S _, EmptyString => ""
  end.

(** [s.slice(start)] : a negative [start] counts from the end. *)
Definition slice_from (s : string) (start : Z) : string :=
  let len := Z.of_nat (String.length s) in
  let from := if start <? 0 then Z.max (len + start) 0 else Z.min start len in
  string_drop (Z.to_nat from) s.

(** [maskValue(value, visibleChars)] *)
Definition maskValue (value : string) (visibleChars : Z) : Thrown string :=
  if String.eqb value "" || (Z.of_nat (String.length value) <=? visibleChars) then
    Returned "****"
  else
    match repeat_star (Z.of_nat (String.length value) - visibleChars) with
    | RangeError m => RangeError m
    | Returned masked => Returned (masked ++ slice_from value (- visibleChars))
    end.

(** [\D] : anything but a decimal digit. *)
Definition is_digit (c : ascii) : bool :=
  (48 <=? nat_of_ascii c)%nat && (nat_of_ascii c <=? 57)%nat.

(** [phone.replace(/\D/g, '')] *)
Fixpoint digits_only (s : string) : string :=
  match s with
  | EmptyString => ""
  | String c s' => if is_digit c then String c (digits_only s') else digits_only s'
  end.

(** [maskPhone(phone)] *)
Definition maskPhone (phone : string) : Thrown string :=
  if String.eqb phone "" || (String.length phone <? 4)%nat then Returned "****"
  else
    let cleaned := digits_only phone in
    match repeat_star (Z.of_nat (String.length cleaned) - 4) with
    | RangeError m => RangeError m
    | Returned masked => Returned (masked ++ slice_from cleaned (-4))
    end.

(** [[a-z]] under the [i] flag. *)
Definition is_letter (c : ascii) : bool :=
  let n := nat_of_ascii c in
  ((97 <=? n)%nat && (n <=? 122)%nat) || ((65 <=? n)%nat && (n <=? 90)%nat).

(** The longest run of letters at the start of a string, and the rest. *)
Fixpoint span_letters (s : string) : string * string :=
  match s with
  | EmptyString => ("", "")
  | String c s' =>
      if is_letter c then
        let (run, rest) := span_letters s' in (String c run, rest)
      else ("", s)
  end.

(** [key.match(/^[a-z]+_[a-z]+_/i)] : the matched text, or [''] when
    there is no match.  Letters and ['_'] being disjoint, each run of
    letters is matched whole. *)
Definition key_prefix (key : string) : string :=
  let (run1, rest1) := span_letters key in
  match run1, rest1 with
  | String _ _, String "_"%char rest1' =>
      let (run2, rest2) := span_letters rest1' in
      match run2, rest2 with
      | String _ _, String "_"%char _ => run1 ++ "_" ++ run2 ++ "_"
      | _, _ => ""
      end
  | _, _ => ""
  end.

(** [maskApiKey(key)] *)
Definition maskApiKey (key : string) : Thrown string :=
  if String.eqb key "" || (String.length key <? 8)%nat then Returned "****"
  else
    let prefix := key_prefix key in
    let remaining := slice_from key (Z.of_nat (String.length prefix)) in
    if (String.length remaining <=? 4)%nat then Returned (prefix ++ "****")
    else
      match repeat_star (Z.of_nat (String.length remaining) - 4) with
      | RangeError m => RangeError m
      | Returned masked => Returned (prefix ++ masked ++ slice_from remaining (-4))
      end.

(** [s.split(sep)] for a one-character separator. *)
Fixpoint split_on (sep : ascii) (s : string) : list string :=
  match s with
  | EmptyString => [""]
  | String c s' =>
      if Ascii.eqb c sep then "" :: split_on sep s'
      else match split_on sep s' with
           | [] => [String c ""]
           | first :: rest => String c first :: rest
           end
  end.

(** [s.includes(c)] for a one-character [c]. *)
Fixpoint includes_char (c : ascii) (s : string) : bool :=
  match s with
  | EmptyString => false
  | String x s' => Ascii.eqb x c || includes_char c s'
  end.

(** [part[0] + '*'.repeat(part.length - 2) + part.slice(-1)] for a part
    longer than two characters, ['*'.repeat(part.length)] otherwise. *)
Definition mask_middle (part : string) : Thrown string :=
  if (2 <? String.length part)%nat then
    match repeat_star (Z.of_nat (String.length part) - 2) with
    | RangeError m => RangeError m
    | Returned masked =>
        Returned (match part with
                  | String c _ => String c ""
                  | EmptyString => ""
                  end ++ masked ++ slice_from part (-1))
    end
  else repeat_star (Z.of_nat (String.length part)).

(** [maskEmail(email)] *)
Definition maskEmail (email : string) : Thrown string :=
  if String.eqb email "" || negb (includes_char "@" email) then
    Returned "****@****.com"
  else
    let parts := split_on "@" email in
    let localPart := nth 0 parts "" in
    let domain := nth 1 parts "" in
    match mask_middle localPart with
    | RangeError m => RangeError m
    | Returned maskedLocal =>
        let domainParts := split_on "." domain in
        let domainName := nth 0 domainParts "" in
        match mask_middle domainName with
        | RangeError m => RangeError m
        | Returned maskedDomain =>
            Returned (maskedLocal ++ "@" ++ maskedDomain ++ "."
                      ++ join "." (tl domainParts))
        end
    end.

(** The result of an arithmetic operation on integer-valued numbers:
    numbers are doubles, so a result that needs more than 53
    significant bits is rounded, and one beyond the largest double is
    an infinity. *)
Inductive Double : Type := Finite (n : Z) | PlusInfinity | MinusInfinity.

(** The integer with a 53-bit significand nearest to [n], ties going to
    the even significand. *)
Definition round_to_double (n : Z) : Z :=
  let a := Z.abs n in
  if a <? 2 ^ 53 then n
  else
    let d := 2 ^ (Z.log2 a - 52) in
    let q := a / d in
    let r := a mod d in
    let q' := if 2 * r <? d then q
              else if d <? 2 * r then q + 1
              else if Z.even q then q else q + 1 in
    Z.sgn n * (q' * d).

Definition to_double (n : Z) : Double :=
  let r := round_to_double n in
  if 2 ^ 1024 <=? r then PlusInfinity
  else if r <=? - 2 ^ 1024 then MinusInfinity
  else Finite r.

(** [x * y] for a positive integer [y]. *)
Definition double_mul (x : Double) (y : Z) : Double :=
  match x with
  | Finite m => to_double (m * y)
  | PlusInfinity => PlusInfinity
  | MinusInfinity => MinusInfinity
  end.

(** The options of [buildPaginatedQuery]; an absent field is [None],
    and the numbers are integer-valued. *)
Record PaginationOptions := {
  po_page : option Z;
  po_limit : option Z;
  po_orderBy : option string;
  po_orderDirection : option string
}.

(** A query parameter: one the caller gave, or a number computed
    here. *)
Inductive Param : Type := Given (v : JsVal) | Computed (n : Double).

Record PaginatedQuery := {
  pq_query : string;
  pq_countQuery : string;
  pq_params : list Param
}.

(** [n || d] for an optional number *)
Definition number_or (n : option Z) (d : Z) : Z :=
  match n with
  | Some v => if v =? 0 then d else v
  | None => d
  end.

(** [s || d] for an optional string *)
Definition string_or (s : option string) (d : string) : string :=
  match s with
  | Some v => if String.eqb v "" then d else v
  | None => d
  end.

Definition buildPaginatedQuery (baseQuery : string) (options : PaginationOptions)
    (params : list JsVal) : PaginatedQuery :=
  let page := Z.max 1 (number_or (po_page options) 1) in
  let limit := Z.min 100 (Z.max 1 (number_or (po_limit options) 20)) in
  let offset := double_mul (to_double (page - 1)) limit in
  let orderBy := string_or (po_orderBy options) "created_at" in
  let orderDirection := string_or (po_orderDirection options) "DESC" in
  {| pq_query :=
       baseQuery ++ " ORDER BY " ++ orderBy ++ " " ++ orderDirection
       ++ " LIMIT $" ++ pretty (length params + 1)%nat
       ++ " OFFSET $" ++ pretty (length params + 2)%nat;
     pq_countQuery := "SELECT COUNT(*) FROM (" ++ baseQuery ++ ") AS count_query";
     pq_params :=
       (map Given params ++ [Computed (Finite limit); Computed offset])%list |}.

(** ** Configuration: [validateConfig]

    [env] is [process.env]; of [config], the fields on the required
    paths are kept. *)

Definition placeholder_secret : string :=
  "your-super-secret-jwt-key-change-in-production".

(** [process.env.NAME || default] *)
Definition env_or (env : string -> option string) (name default : string) : JsVal :=
  JStr (string_or (env name) default).

Definition config (env : string -> option string) : JsVal :=
  JObj [("jwtSecret", env_or env "JWT_SECRET" placeholder_secret);
        ("database",
         JObj [("host", env_or env "DB_HOST" "localhost");
               ("name", env_or env "DB_NAME" "beecastly");
               ("user", env_or env "DB_USER" "postgres");
               ("password", env_or env "DB_PASSWORD" "postgres")]);
        ("redis",
         JObj [("host", env_or env "REDIS_HOST" "localhost");
               ("password", js_of_opt (env "REDIS_PASSWORD"))])].

Definition required_keys : list string :=
  ["jwtSecret"; "database.host"; "database.name"; "database.user";
   "database.password"; "redis.host"].

(** [key.split('.').reduce((obj, k) => obj?.[k], config)] *)
Definition config_value (cfg : JsVal) (key : string) : JsVal :=
  fold_left (fun obj k => match obj with
                          | JObj fs => assoc_get k fs
                          | _ => JUndefined
                          end)
            (split_on "." key) cfg.

(** The [missing] list of [validateConfig]; the warning is printed when
    it is not empty. *)
Definition validateConfig (env : string -> option string) : list string :=
  List.filter
    (fun key =>
       let value := config_value (config env) key in
       negb (truthy value)
       || match value with
          | JStr s => String.eqb s placeholder_secret
          | _ => false
          end)
    required_keys.

(** ** Lead scoring service: [scoreLead]

    The service has its own tables; [now] is [Date.now()]. *)

Record LeadRow := {
  lead_id : string;
  lead_tenant_id : string;
  lead_score_total : Z
}.

Record LeadMessage := { lm_lead_id : string; lm_created_at : Z }.

Record ScoringDb := {
  sd_leads : list LeadRow;
  sd_messages : list LeadMessage;
  sd_conversations : list string
}.

(** The object [scoreLead] returns. *)
Record LeadScore := {
  ls_leadId : string;
  ls_total : Z;
  ls_behavior : Z;
  ls_engagement : Z;
  ls_demographic : Z
}.

Inductive ScoringCall : Type :=
| ScoringSelectActivity (leadId : string)
| ScoringUpdateScore (total : Z) (leadId tenantId : string).

(** [SELECT MAX(created_at)] : [None] is [NULL]. *)
Fixpoint max_created_at (l : list LeadMessage) : option Z :=
  match l with
  | [] => None
  | m :: rest =>
      match max_created_at rest with
      | None => Some (lm_created_at m)
      | Some t => Some (Z.max (lm_created_at m) t)
      end
  end.

Definition messages_of_lead (leadId : string) (db : ScoringDb) : list LeadMessage :=
  List.filter (fun m => String.eqb (lm_lead_id m) leadId) (sd_messages db).

Section Scoring.

Variable scoring_rejects : ScoringCall -> ScoringDb -> option string.

Definition scoreLead (now : Z) (leadId tenantId : string) (db : ScoringDb)
  : (string + LeadScore) * ScoringDb :=
  match scoring_rejects (ScoringSelectActivity leadId) db with
  | Some e => (inl e, db)
  | None =>
      let message_count := Z.of_nat (length (messages_of_lead leadId db)) in
      let last_activity := max_created_at (messages_of_lead leadId db) in
      let behaviorScore := Z.min 40 (number_or (Some message_count) 0 * 5) in
      let engagementScore :=
        match last_activity with
        | Some t => Z.min 35 (((now - t) / (1000 * 60 * 60 * 24)) * 5)
        | None => 0
        end in
      let demographicScore := 25 in
      let totalScore := behaviorScore + engagementScore + demographicScore in
      match scoring_rejects (ScoringUpdateScore totalScore leadId tenantId) db with
      | Some e => (inl e, db)
      | None =>
          (inr {| ls_leadId := leadId;
                  ls_total := totalScore;
                  ls_behavior := behaviorScore;
                  ls_engagement := engagementScore;
                  ls_demographic := demographicScore |},
           {| sd_leads :=
                map (fun r => if String.eqb (lead_id r) leadId
                                 && String.eqb (lead_tenant_id r) tenantId
                              then {| lead_id := lead_id r;
                                      lead_tenant_id := lead_tenant_id r;
                                      lead_score_total := totalScore |}
                              else r)
                    (sd_leads db);
              sd_messages := sd_messages db;
              sd_conversations := sd_conversations db |})
      end
  end.

End Scoring.

(** ** Message queue service: the worker of the [messages] queue *)

Record MessageStatusRow := {
  m_id : string;
  m_status : string;
  m_fail_reason : option string;
  m_sent_at : option Z
}.

(** [broadcastToTenant(tenantId, event, payload)] *)
Record Broadcast := { b_tenantId : JsVal; b_event : string; b_payload : JsVal }.

Record Messaging := {
  ms_clock : Z;
  ms_rows : list MessageStatusRow;
  ms_broadcasts : list Broadcast;
  ms_log : list string
}.

Inductive MessagingCall : Type :=
| MessagingSetSending (messageId : JsVal)
| MessagingSetSent (messageId : JsVal)
| MessagingSetFailed (reason : string) (messageId : JsVal).

(** A value inside a template literal: [`${v}`]. *)
Definition js_to_string (v : JsVal) : string :=
  match v with
  | JUndefined => "undefined"
  | JNull => "null"
  | JBool true => "true"
  | JBool false => "false"
  | JNum n => pretty n
  | JStr s => s
  | JObj _ => "[object Object]"
  end.

(** [WHERE id = $1] *)
Definition is_message (messageId : JsVal) (r : MessageStatusRow) : bool :=
  match messageId with
  | JStr s => String.eqb (m_id r) s
  | _ => false
  end.

Definition update_messages (messageId : JsVal)
    (f : MessageStatusRow -> MessageStatusRow) (st : Messaging) : Messaging :=
  {| ms_clock := ms_clock st;
     ms_rows := map (fun r => if is_message messageId r then f r else r) (ms_rows st);
     ms_broadcasts := ms_broadcasts st;
     ms_log := ms_log st |}.

Definition messaging_log (line : string) (st : Messaging) : Messaging :=
  {| ms_clock := ms_clock st; ms_rows := ms_rows st;
     ms_broadcasts := ms_broadcasts st; ms_log := (ms_log st ++ [line])%list |}.

Definition messaging_broadcast (b : Broadcast) (st : Messaging) : Messaging :=
  {| ms_clock := ms_clock st; ms_rows := ms_rows st;
     ms_broadcasts := (ms_broadcasts st ++ [b])%list; ms_log := ms_log st |}.

(** The channels of the [switch], with the debug line of each sender. *)
Definition sender_line (channel : JsVal) : option string :=
  match channel with
  | JStr c =>
      if String.eqb c "whatsapp" then Some "Sending WhatsApp message"
      else if String.eqb c "sms" then Some "Sending SMS"
      else if String.eqb c "email" then Some "Sending Email"
      else if String.eqb c "telegram" then Some "Sending Telegram message"
      else None
  | _ => None
  end.

Section MessageWorker.

Variable messaging_rejects : MessagingCall -> Messaging -> option string.

(** The body of the [try] block. *)
Definition send_attempt (messageId tenantId channel : JsVal) (st : Messaging)
  : (string + JsVal) * Messaging :=
  match messaging_rejects (MessagingSetSending messageId) st with
  | Some e => (inl e, st)
  | None =>
      let st := update_messages messageId
                  (fun r => {| m_id := m_id r; m_status := "sending";
                               m_fail_reason := m_fail_reason r;
                               m_sent_at := m_sent_at r |}) st in
      match sender_line channel with
      | None => (inl ("Unsupported channel: " ++ js_to_string channel), st)
      | Some line =>
          let st := messaging_log line st in
          let result := JObj [("success", JBool true)] in
          match messaging_rejects (MessagingSetSent messageId) st with
          | Some e => (inl e, st)
          | None =>
              let st := update_messages messageId
                          (fun r => {| m_id := m_id r; m_status := "sent";
                                       m_fail_reason := m_fail_reason r;
                                       m_sent_at := Some (ms_clock st) |}) st in
              let st := messaging_broadcast
                          {| b_tenantId := tenantId;
                             b_event := "message:status";
                             b_payload := JObj [("messageId", messageId);
                                                ("status", JStr "sent")] |} st in
              (inr result, st)
          end
      end
  end.

(** The worker's handler; [data] is [job.data]. *)
Definition message_worker (data : JsVal) (st : Messaging)
  : (string + JsVal) * Messaging :=
  match data with
  | JUndefined =>
      (inl "Cannot destructure property 'messageId' of 'job.data' as it is undefined.", st)
  | JNull =>
      (inl "Cannot destructure property 'messageId' of 'job.data' as it is null.", st)
  | _ =>
      let field k := match data with JObj fs => assoc_get k fs | _ => JUndefined end in
      let messageId := field "messageId" in
      let tenantId := field "tenantId" in
      let channel := field "channel" in
      let st := messaging_log "Processing message" st in
      match send_attempt messageId tenantId channel st with
      | (inr result, st) => (inr result, st)
      | (inl error, st) =>
          let st := messaging_log "Failed to send message" st in
          match messaging_rejects (MessagingSetFailed error messageId) st with
          | Some e => (inl e, st)
          | None =>
              (inl error,
               update_messages messageId
                 (fun r => {| m_id := m_id r; m_status := "failed";
                              m_fail_reason := Some error;
                              m_sent_at := m_sent_at r |}) st)
          end
      end
  end.

End MessageWorker.

(** ** Observations on worlds and results *)

(** Node ids of the ['Executing node'] lines of a log, in order. *)
Fixpoint executed_ids (l : list LogEntry) : list string :=
  match l with
  | [] => []
  | LogExecutingNode _ nodeId :: rest => nodeId :: executed_ids rest
  | _ :: rest => executed_ids rest
  end.

(** What one node invocation may change: it leaves the workflow and
    execution tables, the message table and the reputation map alone,
    never moves the clock back, and logs exactly one ['Executing node']
    line, for this node. *)
Definition node_frame (node : Node) (w w' : World) : Prop :=
  workflows w' = workflows w /\
  workflow_executions w' = workflow_executions w /\
  messages w' = messages w /\
  reputationScores w' = reputationScores w /\
  clock w <= clock w' /\
  exists extra,
    log w' = (log w ++ LogExecutingNode (type node) (id node) :: extra)%list /\
    executed_ids extra = [].

(** What a traversal pass may change. *)
Definition pass_frame (w w' : World) : Prop :=
  workflows w' = workflows w /\
  workflow_executions w' = workflow_executions w /\
  messages w' = messages w /\
  reputationScores w' = reputationScores w /\
  clock w <= clock w'.

(** The row the handler inserts for a job taken in world [w]. *)
Definition inserted_row (job : JobData) (w : World) : ExecutionRow :=
  {| ex_id := next_id w;
     ex_workflow_id := jd_workflowId job;
     ex_tenant_id := jd_tenantId job;
     ex_lead_id := jd_leadId job;
     ex_status := "running";
     ex_context := js_or (jd_triggerData job) (JObj []);
     ex_node_results := [];
     ex_started_at := clock w;
     ex_completed_at := None |}.

(** The world in which the pass of a job taken in world [w] starts:
    the ['Executing workflow'] line is logged and the Execution is
    inserted. *)
Definition started_world (job : JobData) (w : World) : World :=
  set_executions (workflow_executions w ++ [inserted_row job w])
    (set_next_id (S (next_id w))
       (set_log (log w ++ [LogExecutingWorkflow (jd_workflowId job) (jd_leadId job)])
                w)).

(** The states the [while] loop of a pass goes through, from the state
    it starts in ([start] queued, nothing executed, world [w0]): an
    iteration drops a queued id that is executed already or names no
    node; otherwise it runs the node's executor and, if that returns,
    records the result and queues the targets of the outgoing edges.
    A state is the queue, [executedNodes], [results] and the world. *)
Inductive pass_reaches
    (StringToNumber : string -> option Z)
    (rejects : Call -> World -> option string)
    (nodes : list Node) (edges : list Edge)
    (tenantId : string) (leadId : option string) (context : JsVal)
    (start : string) (w0 : World)
  : list string -> gset string -> list ResultEntry -> World -> Prop :=
| reaches_start :
    pass_reaches StringToNumber rejects nodes edges tenantId leadId context
                 start w0 [start] ∅ [] w0
| reaches_skip nodeId queue executedNodes results w :
    pass_reaches StringToNumber rejects nodes edges tenantId leadId context
                 start w0 (nodeId :: queue) executedNodes results w ->
    nodeId ∈ executedNodes \/ find_node nodes nodeId = None ->
    pass_reaches StringToNumber rejects nodes edges tenantId leadId context
                 start w0 queue executedNodes results w
| reaches_run nodeId queue executedNodes results w node r w' :
    pass_reaches StringToNumber rejects nodes edges tenantId leadId context
                 start w0 (nodeId :: queue) executedNodes results w ->
    nodeId ∉ executedNodes ->
    find_node nodes nodeId = Some node ->
    executeNode StringToNumber rejects node tenantId leadId context w = Ok r w' ->
    pass_reaches StringToNumber rejects nodes edges tenantId leadId context
                 start w0
                 (push_targets (outgoingEdges edges nodeId) r queue)
                 ({[nodeId]} ∪ executedNodes)
                 (results ++ [{| nodeId := nodeId; result := r |}])%list
                 w'.

(** A workflow has a dangling edge when some edge's target is the id of
    none of its nodes. *)
Definition dangling_edge (nodes : list Node) (edges : list Edge) : bool :=
  existsb (fun e => negb (existsb (fun n => String.eqb (id n) (target e)) nodes))
          edges.

(** The trace of a traversal pass from [w] to [w']: the ['Executing
    node'] lines it logged name pairwise distinct nodes, none of which
    was in [executedNodes] before, and the result entries it added are
    those of the logged nodes, in order. *)
Definition pass_trace (executedNodes : gset string) (w w' : World)
    (added : option (list ResultEntry)) : Prop :=
  exists new,
    log w' = (log w ++ new)%list /\
    NoDup (executed_ids new) /\
    (forall x, x ∈ executed_ids new -> x ∉ executedNodes) /\
    match added with
    | Some a => map nodeId a = executed_ids new
    | None => True
    end.

(** Edges whose source has not been executed yet. *)
Definition pending_edges (edges : list Edge) (executedNodes : gset string) : list Edge :=
  List.filter (fun e => bool_decide (source e ∉ executedNodes)) edges.

(** Every stored reputation score lies in [[0, 100]]. *)
Definition scores_bounded (m : gmap string ReputationScore) : Prop :=
  forall key r, m !! key = Some r -> (0 <= score r)%Q /\ (score r <= 100)%Q.

(** Every entry has counted at least one message, and no more failed
    messages than messages: [calculateScore] never divides by zero. *)
Definition well_counted (m : gmap string ReputationScore) : Prop :=
  forall key r, m !! key = Some r ->
    1 <= messagesSent r /\ 0 <= messagesFailed r <= messagesSent r.

(** A fresh service: [reputationScores = new Map()]. *)
Definition fresh_service (w : World) : World := set_reputationScores ∅ w.

(** A sequence of [recordMessage] calls; before each call the clock
    advances by the given number of milliseconds. *)
Fixpoint recordMessages (fround : Q -> Q)
    (calls : list (Z * (string * string * bool))) : M unit :=
  match calls with
  | [] => ret tt
  | (elapsed, (tenantId, channel, success)) :: rest =>
      modify (fun w => set_clock (clock w + elapsed) w);;
      recordMessage fround tenantId channel success;;
      recordMessages fround rest
  end.

(** The handler stopped before it inserted an execution: a database
    call was rejected, the workflow was not found, or one of its
    columns came back as an array. *)
Definition not_started (rejects : Call -> World -> option string)
    (job : JobData) (w : World) : Prop :=
  (exists w0 e0, rejects (CallSelectWorkflow (jd_workflowId job) (jd_tenantId job)) w0
                 = Some e0) \/
  List.find (fun r => String.eqb (wf_id r) (jd_workflowId job)
                      && String.eqb (wf_tenant_id r) (jd_tenantId job))
            (workflows w) = None \/
  (exists workflow,
     List.find (fun r => String.eqb (wf_id r) (jd_workflowId job)
                         && String.eqb (wf_tenant_id r) (jd_tenantId job))
               (workflows w) = Some workflow /\
     (wf_nodes_stored workflow = AsArray \/ wf_edges_stored workflow = AsArray)) \/
  (exists w0 e0, rejects (CallInsertExecution (jd_workflowId job) (jd_tenantId job)
                                               (jd_leadId job)) w0 = Some e0).

(** ** Further observations *)

(** Node ids a pass can reach from [start]: [start] itself, and the
    target of an edge that leaves a reached id, as long as the target
    is the id of some node. *)
Inductive reachable (nodes : list Node) (edges : list Edge) (start : string)
  : string -> Prop :=
| reachable_start :
    find_node nodes start <> None -> reachable nodes edges start start
| reachable_step x e :
    reachable nodes edges start x ->
    In e edges -> source e = x ->
    find_node nodes (target e) <> None ->
    reachable nodes edges start (target e).

(** The loop invariant behind [reachable]: the executed set is the set
    of recorded ids, everything queued or executed is reachable (or
    names no node), the targets of the edges leaving an executed node
    are queued, executed or name no node, and [start] is queued or
    executed. *)
Definition reach_inv (nodes : list Node) (edges : list Edge) (start : string)
    (queue : list string) (executedNodes : gset string)
    (results : list ResultEntry) : Prop :=
  (forall x, x ∈ executedNodes <-> In x (map nodeId results)) /\
  (forall x, In x queue ->
             find_node nodes x = None \/ reachable nodes edges start x) /\
  (forall x, x ∈ executedNodes -> reachable nodes edges start x) /\
  (forall e, In e edges -> source e ∈ executedNodes ->
             In (target e) queue \/ target e ∈ executedNodes \/
             find_node nodes (target e) = None) /\
  (In start queue \/ start ∈ executedNodes).


(** The calls of a sequence that fall on the map key [key]. *)
Definition calls_for (key : string) (calls : list (Z * (string * string * bool)))
  : list (Z * (string * string * bool)) :=
  List.filter (fun c => String.eqb (reputation_key (fst (fst (snd c))) (snd (fst (snd c))))
                                   key) calls.

(** The failed ones among calls. *)
Definition failures (calls : list (Z * (string * string * bool)))
  : list (Z * (string * string * bool)) :=
  List.filter (fun c => negb (snd (snd c))) calls.

(** What a rounding of arithmetic results keeps: order, and integers. *)
Definition rounds_to_nearest (fround : Q -> Q) : Prop :=
  (forall p q, (p <= q)%Q -> (fround p <= fround q)%Q) /\
  (forall n : Z, (fround (inject_Z n) == inject_Z n)%Q).


(** The node types whose executor reads [node.data]. *)
Definition data_reading_types : list string :=
  ["send_message"; "send_email"; "add_tag"; "remove_tag"; "update_lead";
   "create_task"; "delay"; "condition"; "webhook"].

(** A node result of the form [{ name: true }] for one of [names]. *)
Definition reports (names : list string) (r : JsVal) : bool :=
  match r with
  | JObj [(name, JBool true)] => existsb (String.eqb name) names
  | _ => false
  end.

Definition count_reports (names : list string) (results : list ResultEntry) : nat :=
  length (List.filter (fun e => reports names (result e)) results).

Definition sending_reports : list string := ["sent"; "webhookSent"].

Definition writing_reports : list string := ["tagged"; "untagged"; "updated"; "created"].

(** What a returning node invocation adds to the queues and to the
    statements issued: one job on [messages] when it reports a send,
    one statement when it reports a write, and nothing otherwise. *)
Definition node_effects (r : JsVal) (w w' : World) : Prop :=
  match reports sending_reports r with
  | true => exists job, jobs w' = (jobs w ++ [job])%list /\ job_queue job = "messages"
  | false => jobs w' = jobs w
  end /\
  match reports writing_reports r with
  | true => exists statement, issued w' = (issued w ++ [statement])%list
  | false => issued w' = issued w
  end.

(** [JWT_SECRET] is unset, empty, or the placeholder itself. *)
Definition jwt_secret_is_default (env : string -> option string) : bool :=
  match env "JWT_SECRET" with
  | None => true
  | Some s => String.eqb s "" || String.eqb s placeholder_secret
  end.

(** The environment variables behind the other required keys. *)
Definition other_required_variables : list string :=
  ["DB_HOST"; "DB_NAME"; "DB_USER"; "DB_PASSWORD"; "REDIS_HOST"].

(** ** Sample inputs *)

(** A runtime whose [delayMs] strings are never numeric, exact
    arithmetic, and services that never fail. *)
Definition no_numeric_strings : string -> option Z := fun _ => None.
Definition exact : Q -> Q := fun q => q.
Definition reliable : Call -> World -> option string := fun _ _ => None.

Definition unconditional (s t : string) : Edge :=
  {| source := s; target := t; condition := JUndefined |}.

Definition trigger_node : Node :=
  {| id := "n1"; type := "trigger"; data := JObj [] |}.
Definition delay_node : Node :=
  {| id := "n2"; type := "delay"; data := JObj [("delayMs", JNum 5000)] |}.
Definition end_node : Node :=
  {| id := "n3"; type := "end"; data := JObj [] |}.
Definition month_delay_node : Node :=
  {| id := "n2"; type := "delay"; data := JObj [("delayMs", JNum 2592000000)] |}.
Definition send_node : Node :=
  {| id := "n4"; type := "send_message";
     data := JObj [("channel", JStr "whatsapp"); ("content", JStr "Welcome")] |}.
Definition broken_send_node : Node :=
  {| id := "n5"; type := "send_message"; data := JUndefined |}.
Definition wait_node : Node :=
  {| id := "n6"; type := "wait_for_reply"; data := JObj [] |}.

(** A workflow whose graph was sent, and is stored, as JSON text. *)
Definition sample_workflow (nodes : list Node) (edges : list Edge) : WorkflowRow :=
  {| wf_id := "wf-1"; wf_tenant_id := "tenant-1"; wf_status := "draft";
     wf_run_once_per_lead := true; wf_nodes := nodes; wf_edges := edges;
     wf_nodes_stored := AsText; wf_edges_stored := AsText |}.

(** The same workflow with its graph stored as JSON arrays. *)
Definition stored_as_arrays (r : WorkflowRow) : WorkflowRow :=
  {| wf_id := wf_id r; wf_tenant_id := wf_tenant_id r; wf_status := wf_status r;
     wf_run_once_per_lead := wf_run_once_per_lead r;
     wf_nodes := wf_nodes r; wf_edges := wf_edges r;
     wf_nodes_stored := AsArray; wf_edges_stored := AsArray |}.

(** Messages of an older runtime. *)
Definition sample_syntax_error (text : string) : string :=
  if String.eqb text "" then "Unexpected end of JSON input"
  else "Unexpected token o in JSON at position 1".

Definition sample_world (wfs : list WorkflowRow) : World :=
  {| clock := 1700000000000; next_id := 0%nat; workflows := wfs;
     workflow_executions := []; messages := []; issued := []; jobs := [];
     log := []; reputationScores := ∅ |}.

Definition sample_job : JobData :=
  {| jd_workflowId := "wf-1"; jd_tenantId := "tenant-1";
     jd_leadId := Some "lead-1"; jd_triggerData := JUndefined |}.

(** A world in which the handler has just inserted its execution. *)
Definition running_world : World :=
  set_next_id 1%nat
    (set_executions [inserted_row sample_job (sample_world [])] (sample_world [])).

(** trigger -> send "Welcome" -> delay (1 hour) -> send "Follow up" -> end *)
Definition welcome_workflow : WorkflowRow :=
  sample_workflow
    [trigger_node; send_node;
     {| id := "n7"; type := "delay"; data := JObj [("delayMs", JNum 3600000)] |};
     {| id := "n8"; type := "send_message";
        data := JObj [("channel", JStr "whatsapp"); ("content", JStr "Follow up")] |};
     end_node]
    [unconditional "n1" "n4"; unconditional "n4" "n7"; unconditional "n7" "n8";
     unconditional "n8" "n3"].

(** trigger -> send (no [data]) *)
Definition failing_workflow : WorkflowRow :=
  sample_workflow [trigger_node; broken_send_node] [unconditional "n1" "n5"].

(** trigger -> end, with an edge to a node that does not exist *)
Definition dangling_workflow : WorkflowRow :=
  sample_workflow [trigger_node; end_node]
    [unconditional "n1" "n3"; unconditional "n1" "ghost"].

(** trigger -> wait_for_reply -> end and back to the trigger *)
Definition cyclic_nodes : list Node := [trigger_node; wait_node; end_node].
Definition cyclic_edges : list Edge :=
  [unconditional "n1" "n6"; unconditional "n6" "n1"; unconditional "n6" "n3";
   unconditional "n3" "n6"].

(** trigger -> end, guarded by a condition on a variable the context
    does not have *)
Definition guarded_edges : list Edge :=
  [{| source := "n1"; target := "n3"; condition := JStr "context.score > 50" |}].

(** A tenant that has sent 100 WhatsApp messages in the last hour. *)
Definition throttled_world : World :=
  {| clock := 1700000000000; next_id := 0%nat; workflows := [];
     workflow_executions := [];
     messages := repeat {| msg_tenant_id := "tenant-1"; msg_channel := "whatsapp";
                           msg_created_at := 1699999000000 |} 100;
     issued := []; jobs := []; log := [];
     reputationScores :=
       {[ "tenant-1:whatsapp" :=
            {| rs_tenantId := "tenant-1"; rs_channel := "whatsapp";
               score := 100%Q; messagesSent := 1; messagesFailed := 0;
               lastMessageAt := 1699999000000 |} ]} |}.

(** A lead with one message, two days old at the sample time. *)
Definition sample_scoring_db : ScoringDb :=
  {| sd_leads := [{| lead_id := "lead-1"; lead_tenant_id := "tenant-1";
                     lead_score_total := 0 |}];
     sd_messages := [{| lm_lead_id := "lead-1"; lm_created_at := 1699800000000 |}];
     sd_conversations := [] |}.

(** An environment that sets a secret and an empty database password. *)
Definition sample_env (name : string) : option string :=
  if String.eqb name "JWT_SECRET" then Some "s3cr3t"
  else if String.eqb name "DB_PASSWORD" then Some ""
  else None.

(** [SET status = ...] when the update has a [status] string; the other
    columns of the model are left as they are. *)
Definition set_status_column (updates : JsVal) (r : WorkflowRow) : WorkflowRow :=
  match updates with
  | JObj fs =>
      match assoc_get "status" fs with
      | JStr s =>
          {| wf_id := wf_id r;
             wf_tenant_id := wf_tenant_id r;
             wf_status := s;
             wf_run_once_per_lead := wf_run_once_per_lead r;
             wf_nodes := wf_nodes r;
             wf_edges := wf_edges r;
             wf_nodes_stored := wf_nodes_stored r;
             wf_edges_stored := wf_edges_stored r |}
      | _ => r
      end
  | _ => r
  end.

(** ** Basic facts *)

Section Facts.

Variable StringToNumber : string -> option Z.
Variable rejects : Call -> World -> option string.

Lemma timer_duration_pos v : 1 <= timer_duration StringToNumber v.
Proof.
  unfold timer_duration.
  destruct (ToNumber StringToNumber v) as [n|]; [|lia].
  destruct (1 <=? n) eqn:H1; cbn; [|lia].
  destruct (n <=? 2147483647); lia.
Qed.


Lemma push_targets_all outgoing result queue :
  push_targets outgoing result queue = (queue ++ map target outgoing)%list.
Proof.
  revert queue. induction outgoing as [|e rest IH]; intros queue; cbn.
  - now rewrite app_nil_r.
  - unfold evaluateCondition.
    destruct (truthy (condition e)); rewrite IH, <- app_assoc; reflexivity.
Qed.

Lemma find_node_id nodes nodeId node :
  find_node nodes nodeId = Some node -> id node = nodeId.
Proof.
  unfold find_node. intros H. apply find_some in H as [_ H].
  now apply String.eqb_eq in H.
Qed.

Ltac frame_goal :=
  unfold node_frame; cbn;
  do 4 (split; [reflexivity|]); split;
  [ try match goal with
        | |- context [timer_duration StringToNumber ?v] =>
            pose proof (timer_duration_pos v)
        end; lia
  | rewrite <- ?app_assoc; cbn; eexists; split; reflexivity ].

Ltac run_node :=
  repeat first
    [ progress unfold bind, logger, modify, prop, addJob, run_statement,
                      db_update_leads, sleep, external, get_world, ret, throw
    | progress cbn
    | match goal with
      | |- context [match assoc_get ?k ?fs with _ => _ end] =>
          destruct (assoc_get k fs)
      | |- context [rejects ?c ?w0] => destruct (rejects c w0)
      end ].

Lemma executeNode_frame node tenantId leadId context w :
  match executeNode StringToNumber rejects node tenantId leadId context w with
  | Ok _ w' | Throw _ w' => node_frame node w w'
  | OutOfFuel => False
  end.
Proof.
  unfold executeNode.
  destruct (node_kind (type node)); destruct (data node);
    run_node; frame_goal.
Qed.

Lemma executed_ids_app l1 l2 :
  executed_ids (l1 ++ l2) = (executed_ids l1 ++ executed_ids l2)%list.
Proof.
  induction l1 as [|e l1 IH]; [reflexivity|].
  destruct e; cbn; now rewrite ?IH.
Qed.

Lemma pass_frame_refl w : pass_frame w w.
Proof. unfold pass_frame. repeat split; reflexivity. Qed.

Lemma pass_frame_trans w1 w2 w3 :
  pass_frame w1 w2 -> pass_frame w2 w3 -> pass_frame w1 w3.
Proof.
  unfold pass_frame.
  intros (A1 & A2 & A3 & A4 & A5) (B1 & B2 & B3 & B4 & B5).
  repeat split; try congruence. lia.
Qed.

Lemma node_frame_pass node w w' : node_frame node w w' -> pass_frame w w'.
Proof. unfold node_frame, pass_frame. tauto. Qed.

(** The measure that decreases at every iteration. *)
Lemma pending_edges_executed (edges : list Edge) nodeId executedNodes :
  nodeId ∉ executedNodes ->
  (length (outgoingEdges edges nodeId)
   + length (pending_edges edges ({[nodeId]} ∪ executedNodes))
   <= length (pending_edges edges executedNodes))%nat.
Proof.
  intros Hnew. unfold outgoingEdges, pending_edges.
  induction edges as [|e rest IH]; cbn; [lia|].
  destruct (String.eqb_spec (source e) nodeId) as [Heq|Hne].
  - rewrite (bool_decide_eq_false_2 (source e ∉ {[nodeId]} ∪ executedNodes))
      by set_solver.
    rewrite (bool_decide_eq_true_2 (source e ∉ executedNodes))
      by (rewrite Heq; exact Hnew).
    cbn. lia.
  - destruct (decide (source e ∈ executedNodes)) as [Hin|Hout].
    + rewrite (bool_decide_eq_false_2 (source e ∉ {[nodeId]} ∪ executedNodes))
        by set_solver.
      rewrite (bool_decide_eq_false_2 (source e ∉ executedNodes))
        by set_solver.
      lia.
    + rewrite (bool_decide_eq_true_2 (source e ∉ {[nodeId]} ∪ executedNodes))
        by (rewrite not_elem_of_union, not_elem_of_singleton; split; assumption).
      rewrite (bool_decide_eq_true_2 (source e ∉ executedNodes))
        by assumption.
      cbn. lia.
Qed.

Lemma pass_trace_nil executedNodes w : pass_trace executedNodes w w (Some []).
Proof.
  exists []. rewrite app_nil_r. cbn.
  split; [|split; [|split]].
  - reflexivity.
  - apply NoDup_nil_2.
  - intros x Hx. inversion Hx.
  - reflexivity.
Qed.

Lemma pass_trace_node node executedNodes w w1 :
  id node ∉ executedNodes ->
  node_frame node w w1 ->
  pass_trace executedNodes w w1 None.
Proof.
  intros Hnew (_ & _ & _ & _ & _ & extra & Hlog & Hids).
  exists (LogExecutingNode (type node) (id node) :: extra).
  cbn. rewrite Hids. split; [|split; [|split]].
  - assumption.
  - apply NoDup_singleton.
  - intros x Hx. apply list_elem_of_singleton in Hx. now subst x.
  - exact I.
Qed.

Lemma pass_trace_cons node r executedNodes w w1 w' added :
  id node ∉ executedNodes ->
  node_frame node w w1 ->
  pass_trace ({[id node]} ∪ executedNodes) w1 w' added ->
  pass_trace executedNodes w w'
    (option_map (cons {| nodeId := id node; result := r |}) added).
Proof.
  intros Hnew (_ & _ & _ & _ & _ & extra & Hlog & Hids)
         (new & Hlog' & Hnodup & Hfresh & Hadded).
  exists (LogExecutingNode (type node) (id node) :: extra ++ new).
  cbn. rewrite executed_ids_app, Hids. cbn.
  split; [|split; [|split]].
  - rewrite Hlog', Hlog, <- app_assoc. reflexivity.
  - apply NoDup_cons. split; [|assumption].
    intros Hin. apply (Hfresh _ Hin), elem_of_union_l, elem_of_singleton.
    reflexivity.
  - intros x Hx. apply elem_of_cons in Hx as [->|Hin]; [assumption|].
    intros Hx. apply (Hfresh _ Hin), elem_of_union_r, Hx.
  - destruct added as [a|]; cbn; [now rewrite Hadded | exact I].
Qed.

Section Traversal.

Variables (nodes : list Node) (edges : list Edge).
Variables (tenantId : string) (leadId : option string) (context : JsVal).

Local Abbreviation loop fuel :=
  (bfs StringToNumber rejects fuel nodes edges tenantId leadId context).
Local Abbreviation run node :=
  (executeNode StringToNumber rejects node tenantId leadId context).

(** One iteration of the [while] loop. *)
Lemma bfs_step fuel nodeId queue executedNodes results w :
  loop (S fuel) (nodeId :: queue) executedNodes results w =
  if decide (nodeId ∈ executedNodes) then
    loop fuel queue executedNodes results w
  else
    match find_node nodes nodeId with
    | None => loop fuel queue executedNodes results w
    | Some node =>
        match run node w with
        | Ok result w' =>
            loop fuel (queue ++ map target (outgoingEdges edges nodeId))
                 ({[nodeId]} ∪ executedNodes)
                 (results ++ [{| nodeId := nodeId; result := result |}]) w'
        | Throw e w' => Throw e w'
        | OutOfFuel => OutOfFuel
        end
    end.
Proof.
  cbn [bfs].
  destruct (decide (nodeId ∈ executedNodes)); [reflexivity|].
  destruct (find_node nodes nodeId) as [node|]; [|reflexivity].
  unfold bind.
  destruct (executeNode _ _ node tenantId leadId context w); try reflexivity.
  now rewrite push_targets_all.
Qed.

Lemma bfs_nil fuel executedNodes results w :
  loop fuel [] executedNodes results w = Ok results w.
Proof. destruct fuel; reflexivity. Qed.

Lemma bfs_fuel_enough fuel : forall queue executedNodes results w,
  (length queue + length (pending_edges edges executedNodes) <= fuel)%nat ->
  loop fuel queue executedNodes results w <> OutOfFuel.
Proof.
  induction fuel as [|fuel IH]; intros queue executedNodes results w Hfuel.
  - destruct queue; [now rewrite bfs_nil | cbn in Hfuel; lia].
  - destruct queue as [|nodeId queue]; [now rewrite bfs_nil|].
    rewrite bfs_step. cbn in Hfuel.
    destruct (decide (nodeId ∈ executedNodes)) as [Hin|Hnew].
    { apply IH. lia. }
    destruct (find_node nodes nodeId) as [node|]; [|apply IH; lia].
    pose proof (executeNode_frame node tenantId leadId context w) as Hframe.
    destruct (run node w) as [result w'|e w'|]; [|discriminate|contradiction].
    apply IH. rewrite length_app, length_map.
    pose proof (pending_edges_executed edges nodeId executedNodes Hnew). lia.
Qed.

Lemma bfs_fuel_mono fuel : forall fuel' queue executedNodes results w,
  (fuel <= fuel')%nat ->
  loop fuel queue executedNodes results w <> OutOfFuel ->
  loop fuel' queue executedNodes results w = loop fuel queue executedNodes results w.
Proof.
  induction fuel as [|fuel IH]; intros fuel' queue executedNodes results w Hle Hrun.
  - destruct queue; [now rewrite !bfs_nil|].
    exfalso. apply Hrun. reflexivity.
  - destruct queue as [|nodeId queue]; [now rewrite !bfs_nil|].
    destruct fuel' as [|fuel']; [lia|].
    rewrite bfs_step in Hrun. rewrite !bfs_step.
    destruct (decide (nodeId ∈ executedNodes)); [apply IH; [lia|assumption]|].
    destruct (find_node nodes nodeId); [|apply IH; [lia|assumption]].
    destruct (run n0 w); try reflexivity.
    apply IH; [lia|assumption].
Qed.

(** What a pass changes and what it records, whether it returns or
    throws. *)
Lemma bfs_trace fuel : forall queue executedNodes results w,
  match loop fuel queue executedNodes results w with
  | Ok res w' =>
      pass_frame w w' /\
      exists added, res = (results ++ added)%list /\
                    pass_trace executedNodes w w' (Some added)
  | Throw e w' => pass_frame w w' /\ pass_trace executedNodes w w' None
  | OutOfFuel => True
  end.
Proof.
  induction fuel as [|fuel IH]; intros queue executedNodes results w.
  - destruct queue; [|exact I]. rewrite bfs_nil.
    split; [apply pass_frame_refl|]. exists []. rewrite app_nil_r.
    split; [reflexivity | apply pass_trace_nil].
  - destruct queue as [|nodeId queue].
    { rewrite bfs_nil. split; [apply pass_frame_refl|].
      exists []. rewrite app_nil_r.
      split; [reflexivity | apply pass_trace_nil]. }
    rewrite bfs_step.
    destruct (decide (nodeId ∈ executedNodes)) as [Hin|Hnew]; [apply IH|].
    destruct (find_node nodes nodeId) as [node|] eqn:Hfind; [|apply IH].
    apply find_node_id in Hfind. subst nodeId.
    pose proof (executeNode_frame node tenantId leadId context w) as Hframe.
    destruct (run node w) as [r w1|e w1|]; [| |contradiction].
    + specialize (IH (queue ++ map target (outgoingEdges edges (id node)))%list
                     ({[id node]} ∪ executedNodes)
                     (results ++ [{| nodeId := id node; result := r |}])%list
                     w1).
      destruct (loop fuel _ _ _ w1) as [res w'|e w'|]; [| |exact I].
      * destruct IH as (Hpass & added & -> & Htrace). split.
        { eapply pass_frame_trans; [eapply node_frame_pass|]; eassumption. }
        exists ({| nodeId := id node; result := r |} :: added). split.
        { now rewrite <- app_assoc. }
        exact (pass_trace_cons node r _ _ _ _ (Some added) Hnew Hframe Htrace).
      * destruct IH as (Hpass & Htrace). split.
        { eapply pass_frame_trans; [eapply node_frame_pass|]; eassumption. }
        exact (pass_trace_cons node r _ _ _ _ None Hnew Hframe Htrace).
    + split; [eapply node_frame_pass; eassumption|].
      eapply pass_trace_node; eassumption.
Qed.

End Traversal.

Lemma executeNodes_fuel_enough fuel nodes edges executionId tenantId leadId context w :
  (length edges < fuel)%nat ->
  executeNodes StringToNumber rejects fuel nodes edges executionId
               tenantId leadId context w <> OutOfFuel.
Proof.
  intros Hfuel. unfold executeNodes.
  destruct (List.find _ nodes) as [triggerNode|]; [|discriminate].
  apply bfs_fuel_enough. cbn. unfold pending_edges.
  apply Nat.le_lt_trans with (length edges); [apply filter_length_le | assumption].
Qed.

Lemma executeNodes_fuel_mono fuel fuel' nodes edges executionId tenantId leadId context w :
  (length edges < fuel)%nat -> (length edges < fuel')%nat ->
  executeNodes StringToNumber rejects fuel' nodes edges executionId
               tenantId leadId context w
  = executeNodes StringToNumber rejects fuel nodes edges executionId
                 tenantId leadId context w.
Proof.
  intros Hfuel Hfuel'.
  pose proof (executeNodes_fuel_enough (S (length edges)) nodes edges executionId
                tenantId leadId context w (Nat.lt_succ_diag_r _)) as Hmin.
  revert Hmin. unfold executeNodes.
  destruct (List.find _ nodes) as [triggerNode|]; [|reflexivity].
  intros Hmin.
  rewrite (bfs_fuel_mono nodes edges tenantId leadId context
             (S (length edges)) fuel') by (assumption || lia).
  rewrite (bfs_fuel_mono nodes edges tenantId leadId context
             (S (length edges)) fuel) by (assumption || lia).
  reflexivity.
Qed.

Lemma executeNodes_trace fuel nodes edges executionId tenantId leadId context w :
  match executeNodes StringToNumber rejects fuel nodes edges executionId
                     tenantId leadId context w with
  | Ok res w' => pass_frame w w' /\ pass_trace ∅ w w' (Some res)
  | Throw e w' => pass_frame w w' /\ pass_trace ∅ w w' None
  | OutOfFuel => True
  end.
Proof.
  unfold executeNodes.
  destruct (List.find _ nodes) as [triggerNode|].
  - pose proof (bfs_trace nodes edges tenantId leadId context fuel
                  [id triggerNode] ∅ [] w) as H.
    destruct (bfs _ _ fuel nodes edges tenantId leadId context _ _ _ w);
      [|assumption|exact I].
    destruct H as (Hpass & added & -> & Htrace). now split.
  - split; [apply pass_frame_refl|].
    destruct (pass_trace_nil ∅ w) as (new & H1 & H2 & H3 & _).
    exists new. now repeat split.
Qed.

Variable syntax_error : string -> string.

(** The handler of a job whose workflow is found, with both columns
    holding JSON text and the database accepting the two calls: it
    inserts the Execution, runs the pass from there and completes the
    Execution if the pass returns; if the pass throws, it logs the
    failure and throws the error again, doing nothing else. *)
Lemma worker_handler_started fuel job workflow w :
  (forall w0, rejects (CallSelectWorkflow (jd_workflowId job) (jd_tenantId job)) w0
              = None) ->
  (forall w0, rejects (CallInsertExecution (jd_workflowId job) (jd_tenantId job)
                                           (jd_leadId job)) w0 = None) ->
  List.find (fun r => String.eqb (wf_id r) (jd_workflowId job)
                      && String.eqb (wf_tenant_id r) (jd_tenantId job))
            (workflows w) = Some workflow ->
  wf_nodes_stored workflow = AsText ->
  wf_edges_stored workflow = AsText ->
  worker_handler StringToNumber rejects syntax_error fuel job w =
  match executeNodes StringToNumber rejects fuel (wf_nodes workflow)
                     (wf_edges workflow) (next_id w) (jd_tenantId job)
                     (jd_leadId job) (jd_triggerData job) (started_world job w) with
  | Ok results w1 =>
      match rejects (CallCompleteExecution (next_id w)) w1 with
      | Some e =>
          Throw e (set_log (log w1 ++ [LogWorkflowFailed e (jd_workflowId job)]) w1)
      | None =>
          Ok (next_id w, results)
             (set_executions
                (map (fun r => if Nat.eqb (ex_id r) (next_id w)
                               then complete_row results (clock w1) r else r)
                     (workflow_executions w1)) w1)
      end
  | Throw e w1 =>
      Throw e (set_log (log w1 ++ [LogWorkflowFailed e (jd_workflowId job)]) w1)
  | OutOfFuel => OutOfFuel
  end.
Proof.
  intros Hselect Hinsert Hfind Hnodes Hedges.
  unfold worker_handler, try_catch, select_workflow, insert_execution,
         complete_execution, JSON_parse, started_world, inserted_row.
  repeat first
    [ progress unfold bind, logger, modify, external, get_world, ret, throw
    | progress cbn ].
  rewrite Hselect. cbn. rewrite Hfind. cbn. rewrite Hnodes, Hedges. cbn.
  rewrite Hinsert. cbn.
  match goal with
  | |- context [executeNodes _ _ fuel ?ns ?es ?x ?t ?l ?c ?w0] =>
      destruct (executeNodes _ _ fuel ns es x t l c w0) as [res w2|e w2|]
  end; cbn; try reflexivity.
  destruct (rejects (CallCompleteExecution _) _); reflexivity.
Qed.


(** The execution table after a job: a throwing run leaves the table
    as it was, or with the inserted row still ['running'] and with
    empty [node_results]; a returning run has marked the rows with the
    new id ['completed']. *)
Lemma worker_handler_executions fuel job w :
  match worker_handler StringToNumber rejects syntax_error fuel job w with
  | Ok (executionId, results) w' =>
      executionId = next_id w /\
      workflow_executions w' =
        map (fun r => if Nat.eqb (ex_id r) (next_id w)
                      then complete_row results (clock w') r else r)
            (workflow_executions w ++ [inserted_row job w]) /\
      NoDup (map nodeId results)
  | Throw e w' =>
      ((workflow_executions w' = workflow_executions w /\ not_started rejects job w) \/
       workflow_executions w' = (workflow_executions w ++ [inserted_row job w])%list) /\
      exists l, log w' = (l ++ [LogWorkflowFailed e (jd_workflowId job)])%list
  | OutOfFuel =>
      exists workflow,
        List.find (fun r => String.eqb (wf_id r) (jd_workflowId job)
                            && String.eqb (wf_tenant_id r) (jd_tenantId job))
                  (workflows w) = Some workflow /\
        (fuel <= length (wf_edges workflow))%nat
  end.
Proof.
  unfold worker_handler, try_catch, select_workflow, insert_execution,
         complete_execution, not_started, JSON_parse.
  repeat first
    [ progress unfold bind, logger, modify, external, get_world, ret, throw
    | progress cbn ].
  destruct (rejects (CallSelectWorkflow _ _) _) eqn:Hselect; cbn.
  { split; [left; split; [reflexivity | left; eauto] | eexists; reflexivity]. }
  destruct (List.find _ (workflows w)) as [workflow|] eqn:Hfind; cbn.
  2: { split; [left; split; [reflexivity | right; left; reflexivity]
              | eexists; reflexivity]. }
  destruct (wf_nodes_stored workflow) eqn:Hnodes; cbn.
  { split; [left; split; [reflexivity | right; right; left; eauto]
           | eexists; reflexivity]. }
  destruct (wf_edges_stored workflow) eqn:Hedges; cbn.
  { split; [left; split; [reflexivity | right; right; left; eauto]
           | eexists; reflexivity]. }
  destruct (rejects (CallInsertExecution _ _ _) _) eqn:Hinsert; cbn.
  { split; [left; split; [reflexivity | right; right; right; eauto]
           | eexists; reflexivity]. }
  match goal with
  | |- context [executeNodes _ _ fuel ?ns ?es ?x ?t ?l ?c ?w0] =>
      pose proof (executeNodes_trace fuel ns es x t l c w0) as Htrace;
      pose proof (executeNodes_fuel_enough fuel ns es x t l c w0) as Hfuel;
      destruct (executeNodes _ _ fuel ns es x t l c w0) as [res w2|e w2|]
  end; cbn.
  - destruct Htrace as ((_ & Hexec & _ & _ & _) & new & _ & Hnodup & _ & Hres).
    cbn in Hexec.
    destruct (rejects (CallCompleteExecution _) _); cbn.
    + split; [right; exact Hexec | eexists; reflexivity].
    + split; [reflexivity|]. split; [now rewrite Hexec|].
      now rewrite Hres.
  - destruct Htrace as ((_ & Hexec & _ & _ & _) & _). cbn in Hexec.
    split; [right; exact Hexec | eexists; reflexivity].
  - exists workflow. split; [reflexivity|].
    destruct (Nat.le_gt_cases fuel (length (wf_edges workflow))) as [Hle|Hlt];
      [assumption|].
    exfalso. now apply Hfuel.
Qed.

End Facts.

(** *** Reachability *)

Section Reach.

Variable StringToNumber : string -> option Z.
Variable rejects : Call -> World -> option string.
Variables (nodes : list Node) (edges : list Edge).
Variables (tenantId : string) (leadId : option string) (context : JsVal).
Variable start : string.
Hypothesis start_exists : find_node nodes start <> None.

Local Abbreviation reach_invariant := (reach_inv nodes edges start).

Lemma reach_invariant_skip nodeId queue executedNodes results :
  reach_invariant (nodeId :: queue) executedNodes results ->
  nodeId ∈ executedNodes \/ find_node nodes nodeId = None ->
  reach_invariant queue executedNodes results.
Proof.
  intros (I1 & I2 & I3 & I4 & I5) Hskip.
  split; [exact I1|]. split; [intros x Hx; apply I2; now right|].
  split; [exact I3|]. split.
  - intros e He Hsrc.
    destruct (I4 e He Hsrc) as [[Heq|Hin]|[Hin|Hnone]]; auto.
    rewrite <- Heq. destruct Hskip; auto.
  - destruct I5 as [[Heq|Hin]|Hin]; auto.
    subst nodeId. destruct Hskip as [Hin|Hnone]; [auto | contradiction].
Qed.

Lemma reach_invariant_run nodeId node r queue executedNodes results :
  reach_invariant (nodeId :: queue) executedNodes results ->
  nodeId ∉ executedNodes ->
  find_node nodes nodeId = Some node ->
  reach_invariant (queue ++ map target (outgoingEdges edges nodeId))
                  ({[nodeId]} ∪ executedNodes)
                  (results ++ [{| nodeId := nodeId; result := r |}]).
Proof.
  intros (I1 & I2 & I3 & I4 & I5) Hnew Hfind.
  assert (Hreach : reachable nodes edges start nodeId).
  { destruct (I2 nodeId (or_introl eq_refl)) as [Hnone|H]; [congruence | exact H]. }
  split; [|split; [|split; [|split]]].
  - intros x. rewrite map_app, in_app_iff, elem_of_union, elem_of_singleton, I1.
    cbn. intuition.
  - intros x Hx. apply in_app_or in Hx as [Hx|Hx]; [apply I2; now right|].
    apply in_map_iff in Hx as (e & <- & He).
    apply filter_In in He as (He & Hsrc). apply String.eqb_eq in Hsrc.
    destruct (find_node nodes (target e)) eqn:Htarget; [right | now left].
    apply (reachable_step nodes edges start nodeId e); congruence.
  - intros x Hx. apply elem_of_union in Hx as [Hx|Hx]; [|apply I3, Hx].
    apply elem_of_singleton in Hx. now subst x.
  - intros e He Hsrc. apply elem_of_union in Hsrc as [Hsrc|Hsrc].
    + apply elem_of_singleton in Hsrc. left. apply in_or_app. right.
      apply in_map. apply filter_In. split; [exact He|].
      now apply String.eqb_eq.
    + destruct (I4 e He Hsrc) as [[Heq|Hin]|[Hin|Hnone]].
      * right. left. apply elem_of_union_l, elem_of_singleton. now rewrite Heq.
      * left. apply in_or_app. now left.
      * right. left. now apply elem_of_union_r.
      * right. now right.
  - destruct I5 as [[Heq|Hin]|Hin].
    + right. apply elem_of_union_l, elem_of_singleton. now rewrite Heq.
    + left. apply in_or_app. now left.
    + right. now apply elem_of_union_r.
Qed.

Lemma reach_invariant_end executedNodes results :
  reach_invariant [] executedNodes results ->
  forall x, In x (map nodeId results) <-> reachable nodes edges start x.
Proof.
  intros (I1 & _ & I3 & I4 & I5) x. split.
  - intros Hx. apply I3, I1, Hx.
  - intros Hreach. apply I1. induction Hreach as [_|y e _ IH He Hsrc Hfind].
    + destruct I5 as [[]|Hin]; exact Hin.
    + subst y. destruct (I4 e He IH) as [[]|[Hin|Hnone]];
        [exact Hin | contradiction].
Qed.

Lemma bfs_reach fuel : forall queue executedNodes results w res w',
  reach_invariant queue executedNodes results ->
  bfs StringToNumber rejects fuel nodes edges tenantId leadId context
      queue executedNodes results w = Ok res w' ->
  forall x, In x (map nodeId res) <-> reachable nodes edges start x.
Proof.
  induction fuel as [|fuel IH]; intros queue executedNodes results w res w' Hinv Hrun.
  - destruct queue; [|discriminate].
    rewrite bfs_nil in Hrun. injection Hrun as <- _.
    now apply reach_invariant_end with executedNodes.
  - destruct queue as [|nodeId queue].
    { rewrite bfs_nil in Hrun. injection Hrun as <- _.
      now apply reach_invariant_end with executedNodes. }
    rewrite bfs_step in Hrun.
    destruct (decide (nodeId ∈ executedNodes)) as [Hin|Hnew].
    { eapply IH; [|exact Hrun]. eapply reach_invariant_skip; eauto. }
    destruct (find_node nodes nodeId) as [node|] eqn:Hfind.
    2: { eapply IH; [|exact Hrun]. eapply reach_invariant_skip; eauto. }
    destruct (executeNode _ _ node tenantId leadId context w) as [r w1|e w1|];
      [|discriminate|discriminate].
    eapply IH; [|exact Hrun]. eapply reach_invariant_run; eauto.
Qed.

End Reach.


(** *** The states of a pass *)

Section Reaching.

Variable StringToNumber : string -> option Z.
Variable rejects : Call -> World -> option string.
Variables (nodes : list Node) (edges : list Edge).
Variables (tenantId : string) (leadId : option string) (context : JsVal).
Variable start : string.
Variable w0 : World.

Local Abbreviation reaches :=
  (pass_reaches StringToNumber rejects nodes edges tenantId leadId context start w0).

(** A state of the pass is reached with the workflow and execution
    tables as the pass found them. *)
Lemma pass_reaches_frame queue executedNodes results w :
  reaches queue executedNodes results w -> pass_frame w0 w.
Proof.
  induction 1 as [|nodeId queue executedNodes results w _ IH _
                  |nodeId queue executedNodes results w node r w' _ IH _ _ Hrun].
  - apply pass_frame_refl.
  - exact IH.
  - apply (pass_frame_trans _ _ _ IH). apply (node_frame_pass node).
    pose proof (executeNode_frame StringToNumber rejects node tenantId leadId
                  context w) as Hframe.
    now rewrite Hrun in Hframe.
Qed.


(** With a bound above the number of edges, the loop comes to every
    state of the pass with enough iterations left. *)
Lemma pass_reaches_bfs fuel queue executedNodes results w :
  (length edges < fuel)%nat ->
  reaches queue executedNodes results w ->
  exists fuel',
    (length queue + length (pending_edges edges executedNodes) <= fuel')%nat /\
    bfs StringToNumber rejects fuel nodes edges tenantId leadId context
        [start] ∅ [] w0
    = bfs StringToNumber rejects fuel' nodes edges tenantId leadId context
          queue executedNodes results w.
Proof.
  intros Hfuel.
  induction 1 as [|nodeId queue executedNodes results w _ IH Hskip
                  |nodeId queue executedNodes results w node r w' _ IH Hnew Hfind Hrun].
  - exists fuel. split; [|reflexivity].
    unfold pending_edges. cbn [length].
    apply Nat.le_trans with (1 + length edges)%nat; [|lia].
    apply le_n_S, List.filter_length_le.
  - destruct IH as (fuel' & Hle & Heq). cbn [length] in Hle.
    destruct fuel' as [|fuel']; [lia|].
    exists fuel'. split; [lia|]. rewrite Heq, bfs_step.
    destruct (decide (nodeId ∈ executedNodes)) as [_|Hnew]; [reflexivity|].
    destruct Hskip as [Hin|Hnone]; [contradiction|]. now rewrite Hnone.
  - destruct IH as (fuel' & Hle & Heq). cbn [length] in Hle.
    destruct fuel' as [|fuel']; [lia|].
    exists fuel'. rewrite push_targets_all. split.
    + rewrite length_app, length_map.
      pose proof (pending_edges_executed StringToNumber edges nodeId
                    executedNodes Hnew).
      lia.
    + rewrite Heq, bfs_step.
      destruct (decide (nodeId ∈ executedNodes)); [contradiction|].
      now rewrite Hfind, Hrun.
Qed.


End Reaching.


(** ** Properties of the engine *)

Ltac run_monad :=
  repeat first
    [ progress unfold bind, logger, modify, prop, addJob, run_statement,
                      db_update_leads, sleep, external, get_world, ret, throw
    | progress cbn ].

(** *** Traversal *)

(** C2. One traversal pass executes each node at most once and its loop
    terminates, on every graph, cyclic or not: with a bound on the
    iterations above the number of edges the pass never runs out of
    fuel and its outcome does not depend on the bound; the node ids of
    the returned [results] are pairwise distinct, and so are the nodes
    the pass logged as executed, whether the pass returned or threw. *)
Theorem C2_pass_executes_each_node_once
    (StringToNumber : string -> option Z)
    (rejects : Call -> World -> option string)
    (fuel : nat) (nodes : list Node) (edges : list Edge) (executionId : nat)
    (tenantId : string) (leadId : option string) (context : JsVal) (w : World) :
  (length edges < fuel)%nat ->
  let pass := executeNodes StringToNumber rejects fuel nodes edges executionId
                           tenantId leadId context w in
  pass <> OutOfFuel /\
  pass = executeNodes StringToNumber rejects (S (length edges)) nodes edges
                      executionId tenantId leadId context w /\
  (forall results w', pass = Ok results w' -> NoDup (map nodeId results)) /\
  (forall w', world_of pass = Some w' ->
     exists new, log w' = (log w ++ new)%list /\ NoDup (executed_ids new)).
Proof.
  intros Hfuel pass.
  split; [apply executeNodes_fuel_enough; assumption|].
  split; [apply executeNodes_fuel_mono; [apply Nat.lt_succ_diag_r | assumption]|].
  pose proof (executeNodes_trace StringToNumber rejects fuel nodes edges
                executionId tenantId leadId context w) as Htrace.
  fold pass in Htrace.
  split.
  - intros results w' Hpass. rewrite Hpass in Htrace.
    destruct Htrace as (_ & new & _ & Hnodup & _ & Hres). now rewrite Hres.
  - intros w' Hworld.
    destruct pass as [res w1|e w1|]; cbn in Hworld; [| |discriminate];
      injection Hworld as ->;
      destruct Htrace as (_ & new & Hlog & Hnodup & _); eauto.
Qed.

Lemma C2_pass_executes_each_node_once_witness :
  (length cyclic_edges < 5)%nat /\
  executeNodes no_numeric_strings reliable 5 cyclic_nodes cyclic_edges 0
               "tenant-1" (Some "lead-1") (JObj []) (sample_world [])
    <> OutOfFuel /\
  forall results w',
    executeNodes no_numeric_strings reliable 5 cyclic_nodes cyclic_edges 0
                 "tenant-1" (Some "lead-1") (JObj []) (sample_world [])
      = Ok results w' ->
    NoDup (map nodeId results).
Proof.
  assert (Hfuel : (length cyclic_edges < 5)%nat) by (cbn; lia).
  split; [exact Hfuel|].
  pose proof (C2_pass_executes_each_node_once no_numeric_strings reliable 5
                cyclic_nodes cyclic_edges 0 "tenant-1" (Some "lead-1")
                (JObj []) (sample_world []) Hfuel) as (H1 & _ & H3 & _).
  split; assumption.
Defined.



(** C7 (amended). Evaluating an edge condition never throws, and it
    matches whatever the condition says: [evaluateCondition] returns
    [true] for every condition and every result, so the loop queues the
    target of every outgoing edge, guarded or not. *)
Theorem C7_conditions_always_match
    (cond : JsVal) (result : JsVal) (outgoing : list Edge) (queue : list string) :
  evaluateCondition cond result = true /\
  push_targets outgoing result queue = (queue ++ map target outgoing)%list.
Proof.
  split; [reflexivity | apply push_targets_all].
Qed.

(** C7, as stated, fails: the edge below is guarded by a condition on
    [context.score], which the context [{}] does not have; the
    condition evaluates to [true] and the pass executes the edge's
    target. *)
Lemma C7_counterexample :
  evaluateCondition (JStr "context.score > 50") (flag "triggered") <> false /\
  exists w',
    executeNodes no_numeric_strings reliable 2 [trigger_node; end_node]
                 guarded_edges 0 "tenant-1" (Some "lead-1") (JObj [])
                 (sample_world [])
    = Ok [{| nodeId := "n1"; result := flag "triggered" |};
          {| nodeId := "n3"; result := flag "ended" |}] w'.
Proof.
  split; [discriminate|]. eexists. vm_compute. reflexivity.
Qed.

(** *** Delay nodes *)

(** C1 (amended). Executing a delay node configured with [delayMs = D]
    (an integer no larger than 2147483647, the longest delay a timer
    takes) does not suspend the Execution: the execution table is
    untouched, so the Execution keeps the status it has, ['running'];
    the worker waits in line, for 1000 ms when [D] is 0 and for
    [max 1 D] ms otherwise, and goes on to return [{ delayed: true }]
    no earlier than [D] ms after the node started. *)
Theorem C1_delay_waits_inline
    (StringToNumber : string -> option Z)
    (rejects : Call -> World -> option string)
    (node : Node) (tenantId : string) (leadId : option string)
    (context : JsVal) (fs : list (string * JsVal)) (D : Z) (w : World) :
  type node = "delay" ->
  data node = JObj fs ->
  assoc_get "delayMs" fs = JNum D ->
  D <= 2147483647 ->
  exists w',
    executeNode StringToNumber rejects node tenantId leadId context w
      = Ok (JObj [("delayed", JBool true)]) w' /\
    workflow_executions w' = workflow_executions w /\
    clock w' = clock w + (if D =? 0 then 1000 else Z.max 1 D) /\
    clock w + D <= clock w'.
Proof.
  intros Htype Hdata Hdelay Hmax.
  unfold executeNode. rewrite Htype, Hdata. cbn.
  unfold bind, logger, modify, prop, sleep, ret. cbn. rewrite Hdelay.
  eexists. split; [reflexivity|]. cbn. split; [reflexivity|].
  assert (Hms : timer_duration StringToNumber (js_or (JNum D) (JNum 1000))
                = if D =? 0 then 1000 else Z.max 1 D).
  { unfold js_or, timer_duration. cbn.
    destruct (Z.eqb_spec D 0) as [->|Hnz]; cbn; [reflexivity|].
    destruct (Z.leb_spec 1 D) as [Hle|Hlt]; cbn.
    - apply Z.leb_le in Hmax. rewrite Hmax. lia.
    - lia. }
  rewrite Hms. split; [reflexivity|].
  destruct (Z.eqb_spec D 0); lia.
Qed.

Lemma C1_delay_waits_inline_witness :
  exists w',
    executeNode no_numeric_strings reliable delay_node "tenant-1"
                (Some "lead-1") (JObj []) running_world
      = Ok (JObj [("delayed", JBool true)]) w' /\
    workflow_executions w' = workflow_executions running_world /\
    clock w' = clock running_world + (if 5000 =? 0 then 1000 else Z.max 1 5000) /\
    clock running_world + 5000 <= clock w'.
Proof.
  apply (C1_delay_waits_inline no_numeric_strings reliable delay_node
           "tenant-1" (Some "lead-1") (JObj []) [("delayMs", JNum 5000)] 5000
           running_world).
  - reflexivity.
  - reflexivity.
  - reflexivity.
  - lia.
Defined.

(** C1, as stated, fails: after the delay node of a running Execution
    has been executed, the Execution is still ['running'], not
    ['suspended']. *)
Lemma C1_counterexample :
  exists w',
    executeNode no_numeric_strings reliable delay_node "tenant-1"
                (Some "lead-1") (JObj []) running_world
      = Ok (JObj [("delayed", JBool true)]) w' /\
    map ex_status (workflow_executions w') = ["running"] /\
    ~ (forall row, row ∈ workflow_executions w' -> ex_status row = "suspended").
Proof.
  eexists. split; [vm_compute; reflexivity|]. split; [reflexivity|].
  intros H. specialize (H _ (list_elem_of_here _ _)). discriminate H.
Qed.

(** The welcome workflow runs in one handler invocation: both messages
    are queued, the hour of the delay passes inside the invocation, and
    the Execution is ['completed'] with one result per node. *)
Example welcome_workflow_run :
  exists results w',
    worker_handler no_numeric_strings reliable sample_syntax_error 5 sample_job
                   (sample_world [welcome_workflow]) = Ok (0%nat, results) w' /\
    map nodeId results = ["n1"; "n4"; "n7"; "n8"; "n3"] /\
    map ex_status (workflow_executions w') = ["completed"] /\
    map job_name (jobs w') = ["send-message"; "send-message"] /\
    clock w' = clock (sample_world [welcome_workflow]) + 3600000.
Proof.
  eexists. eexists. split; [vm_compute; reflexivity|]. repeat split.
Qed.

(** A delay beyond the range of a timer is cut to one millisecond:
    thirty days configured, one millisecond waited. *)
Example delay_beyond_timer_range :
  exists r w',
    executeNode no_numeric_strings reliable month_delay_node "tenant-1"
                (Some "lead-1") (JObj []) running_world = Ok r w' /\
    clock w' = clock running_world + 1.
Proof.
  eexists. eexists. split; vm_compute; reflexivity.
Qed.

(** *** Failures *)

(** C3 (amended). When the executor of a node throws in the pass of a
    job (the workflow found with its graph stored as JSON text, the
    database accepting the select and the insert), the error is not
    caught per node: the handler ends in the world in which the
    executor threw, with one more log line, ['Workflow execution
    failed'], and throws the same error to the job queue.  No further
    node is executed and nothing is queued or written afterwards, so
    the engine retries nothing.  The Execution record is not marked:
    the execution table is the one the job found plus the row it
    inserted, which keeps status ['running'] and empty
    [node_results]. *)
Theorem C3_throw_leaves_execution_running
    (StringToNumber : string -> option Z)
    (rejects : Call -> World -> option string)
    (syntax_error : string -> string)
    (fuel : nat) (job : JobData) (workflow : WorkflowRow) (w : World)
    (triggerNode node : Node) (nodeId : string) (queue : list string)
    (executedNodes : gset string) (results : list ResultEntry)
    (wn : World) (e : string) (wn' : World) :
  (forall w0, rejects (CallSelectWorkflow (jd_workflowId job) (jd_tenantId job)) w0
              = None) ->
  (forall w0, rejects (CallInsertExecution (jd_workflowId job) (jd_tenantId job)
                                           (jd_leadId job)) w0 = None) ->
  List.find (fun r => String.eqb (wf_id r) (jd_workflowId job)
                      && String.eqb (wf_tenant_id r) (jd_tenantId job))
            (workflows w) = Some workflow ->
  wf_nodes_stored workflow = AsText ->
  wf_edges_stored workflow = AsText ->
  (length (wf_edges workflow) < fuel)%nat ->
  List.find (fun n => String.eqb (type n) "trigger") (wf_nodes workflow)
    = Some triggerNode ->
  pass_reaches StringToNumber rejects (wf_nodes workflow) (wf_edges workflow)
               (jd_tenantId job) (jd_leadId job) (jd_triggerData job)
               (id triggerNode) (started_world job w)
               (nodeId :: queue) executedNodes results wn ->
  nodeId ∉ executedNodes ->
  find_node (wf_nodes workflow) nodeId = Some node ->
  executeNode StringToNumber rejects node (jd_tenantId job) (jd_leadId job)
              (jd_triggerData job) wn = Throw e wn' ->
  let w' := set_log (log wn' ++ [LogWorkflowFailed e (jd_workflowId job)]) wn' in
  worker_handler StringToNumber rejects syntax_error fuel job w = Throw e w' /\
  workflow_executions w'
    = (workflow_executions w ++ [inserted_row job w])%list /\
  map ex_status (workflow_executions w')
    = (map ex_status (workflow_executions w) ++ ["running"])%list /\
  map ex_node_results (workflow_executions w')
    = (map ex_node_results (workflow_executions w) ++ [[]])%list /\
  exists extra,
    log w' = (log wn ++ LogExecutingNode (type node) (id node) :: extra
              ++ [LogWorkflowFailed e (jd_workflowId job)])%list /\
    executed_ids extra = [].
Proof.
  intros Hselect Hinsert Hfind Hnodes Hedges Hfuel Htrigger Hreach Hnew Hnode
         Hthrow w'.
  assert (Hpass : executeNodes StringToNumber rejects fuel (wf_nodes workflow)
                    (wf_edges workflow) (next_id w) (jd_tenantId job)
                    (jd_leadId job) (jd_triggerData job) (started_world job w)
                  = Throw e wn').
  { unfold executeNodes. rewrite Htrigger.
    destruct (pass_reaches_bfs _ _ _ _ _ _ _ _ _ fuel _ _ _ _ Hfuel Hreach)
      as (fuel' & Hle & ->).
    cbn [length] in Hle. destruct fuel' as [|fuel']; [lia|].
    rewrite bfs_step.
    destruct (decide (nodeId ∈ executedNodes)); [contradiction|].
    now rewrite Hnode, Hthrow. }
  split.
  { rewrite (worker_handler_started _ _ _ _ _ workflow _ Hselect Hinsert Hfind
               Hnodes Hedges).
    now rewrite Hpass. }
  pose proof (pass_reaches_frame _ _ _ _ _ _ _ _ _ _ _ _ _ Hreach)
    as (_ & Hrows & _).
  pose proof (executeNode_frame StringToNumber rejects node (jd_tenantId job)
                (jd_leadId job) (jd_triggerData job) wn) as Hframe.
  rewrite Hthrow in Hframe.
  destruct Hframe as (_ & Hrows' & _ & _ & _ & extra & Hlog & Hextra).
  assert (Htable : workflow_executions w'
                   = (workflow_executions w ++ [inserted_row job w])%list).
  { unfold w'. cbn [workflow_executions set_log]. rewrite Hrows', Hrows.
    reflexivity. }
  split; [exact Htable|].
  split; [rewrite Htable, map_app; reflexivity|].
  split; [rewrite Htable, map_app; reflexivity|].
  exists extra. split; [|exact Hextra].
  unfold w'. cbn [log set_log]. rewrite Hlog, <- app_assoc. reflexivity.
Qed.

Lemma C3_throw_leaves_execution_running_witness :
  exists w',
    worker_handler no_numeric_strings reliable sample_syntax_error 2 sample_job
                   (sample_world [failing_workflow])
      = Throw "Cannot read properties of undefined (reading 'channel')" w' /\
    workflow_executions w'
      = [inserted_row sample_job (sample_world [failing_workflow])] /\
    map ex_status (workflow_executions w') = ["running"].
Proof.
  assert (Htrigger :
    executeNode no_numeric_strings reliable trigger_node "tenant-1" (Some "lead-1")
                JUndefined (started_world sample_job (sample_world [failing_workflow]))
    = Ok (flag "triggered")
         (set_log (log (started_world sample_job (sample_world [failing_workflow]))
                   ++ [LogExecutingNode "trigger" "n1"])
                  (started_world sample_job (sample_world [failing_workflow]))))
    by reflexivity.
  pose proof (reaches_run no_numeric_strings reliable (wf_nodes failing_workflow)
                (wf_edges failing_workflow) "tenant-1" (Some "lead-1") JUndefined
                "n1" (started_world sample_job (sample_world [failing_workflow]))
                "n1" [] ∅ [] _ trigger_node _ _
                (reaches_start _ _ _ _ _ _ _ _ _)
                (not_elem_of_empty "n1") eq_refl Htrigger) as Hreach.
  assert (Hthrow : exists wn',
    executeNode no_numeric_strings reliable broken_send_node "tenant-1"
                (Some "lead-1") JUndefined
                (set_log (log (started_world sample_job
                                 (sample_world [failing_workflow]))
                          ++ [LogExecutingNode "trigger" "n1"])
                         (started_world sample_job (sample_world [failing_workflow])))
    = Throw "Cannot read properties of undefined (reading 'channel')" wn')
    by (eexists; reflexivity).
  destruct Hthrow as (wn' & Hthrow).
  assert (Hnew : "n5" ∉ ({["n1"]} ∪ ∅ : gset string)).
  { apply not_elem_of_union. split; [|apply not_elem_of_empty].
    apply not_elem_of_singleton. discriminate. }
  destruct (C3_throw_leaves_execution_running no_numeric_strings reliable
              sample_syntax_error 2 sample_job failing_workflow
              (sample_world [failing_workflow]) trigger_node broken_send_node
              "n5" [] ({["n1"]} ∪ ∅) [{| nodeId := "n1"; result := flag "triggered" |}]
              _ "Cannot read properties of undefined (reading 'channel')" wn'
              (fun _ => eq_refl) (fun _ => eq_refl) eq_refl eq_refl eq_refl
              (le_n 2) eq_refl Hreach Hnew eq_refl Hthrow)
    as (Hrun & Htable & Hstatus & _).
  eexists. split; [exact Hrun|]. split; [exact Htable | exact Hstatus].
Defined.

(** C3, as stated, fails: the send node below has no [data], its
    executor throws a [TypeError]; afterwards the Execution is
    ['running'], not ['failed'], and its [node_results] are empty. *)
Lemma C3_counterexample :
  exists w',
    worker_handler no_numeric_strings reliable sample_syntax_error 2 sample_job
                   (sample_world [failing_workflow])
      = Throw "Cannot read properties of undefined (reading 'channel')" w' /\
    map ex_status (workflow_executions w') = ["running"] /\
    map ex_node_results (workflow_executions w') = [[]] /\
    ~ (forall row, row ∈ workflow_executions w' -> ex_status row = "failed").
Proof.
  eexists. split; [vm_compute; reflexivity|].
  split; [reflexivity|]. split; [reflexivity|].
  intros H. specialize (H _ (list_elem_of_here _ _)). discriminate H.
Qed.

(** *** Triggering a workflow *)




(** A workflow as the create route stores it for a graph sent as arrays
    never runs: the job throws the [SyntaxError] of [JSON.parse] and
    inserts no Execution. *)
Example array_columns_do_not_parse :
  worker_handler no_numeric_strings reliable sample_syntax_error 5 sample_job
                 (sample_world [stored_as_arrays welcome_workflow])
  = Throw "Unexpected token o in JSON at position 1"
      (set_log [LogExecutingWorkflow "wf-1" (Some "lead-1");
                LogWorkflowFailed "Unexpected token o in JSON at position 1" "wf-1"]
               (sample_world [stored_as_arrays welcome_workflow])).
Proof. reflexivity. Qed.

(** *** Activation *)

(** C5 (amended). Activation validates nothing: unless the database
    call itself fails, activating a workflow replies with success and
    sets the status of every workflow with that id and tenant to
    ['active'], with or without a dangling edge in its graph. *)
Theorem C5_activation_validates_nothing
    (rejects : Call -> World -> option string)
    (workflowId tenantId : string) (w : World) :
  rejects (CallActivateWorkflow workflowId tenantId) w = None ->
  exists w',
    activate_route rejects workflowId tenantId w
      = Ok {| statusCode := 200;
              body := JObj [("success", JBool true);
                            ("data", JObj [("message", JStr "Workflow activated")])] |}
           w' /\
    forall r, r ∈ workflows w ->
              wf_id r = workflowId -> wf_tenant_id r = tenantId ->
              activate_row r ∈ workflows w' /\
              wf_status (activate_row r) = "active" /\
              wf_nodes (activate_row r) = wf_nodes r /\
              wf_edges (activate_row r) = wf_edges r.
Proof.
  intros Hup. unfold activate_route, bind, external, modify, ret. rewrite Hup.
  eexists. split; [reflexivity|]. cbn.
  intros r Hin Hid Htenant. split; [|repeat split].
  apply list_elem_of_fmap. exists r. split; [|exact Hin].
  rewrite Hid, Htenant, !String.eqb_refl. reflexivity.
Qed.

Lemma C5_activation_validates_nothing_witness :
  exists w',
    activate_route reliable "wf-1" "tenant-1" (sample_world [dangling_workflow])
      = Ok {| statusCode := 200;
              body := JObj [("success", JBool true);
                            ("data", JObj [("message", JStr "Workflow activated")])] |}
           w' /\
    forall r, r ∈ workflows (sample_world [dangling_workflow]) ->
              wf_id r = "wf-1" -> wf_tenant_id r = "tenant-1" ->
              activate_row r ∈ workflows w' /\
              wf_status (activate_row r) = "active" /\
              wf_nodes (activate_row r) = wf_nodes r /\
              wf_edges (activate_row r) = wf_edges r.
Proof.
  apply (C5_activation_validates_nothing reliable "wf-1" "tenant-1"
           (sample_world [dangling_workflow])).
  reflexivity.
Defined.

(** C5, as stated, fails: [dangling_workflow] has an edge to the node
    id "ghost", which none of its nodes has; activating it succeeds and
    leaves it ['active']. *)
Lemma C5_counterexample :
  dangling_edge (wf_nodes dangling_workflow) (wf_edges dangling_workflow) = true /\
  exists reply w',
    activate_route reliable "wf-1" "tenant-1" (sample_world [dangling_workflow])
      = Ok reply w' /\
    statusCode reply = 200 /\
    assoc_get "success" (match body reply with JObj fs => fs | _ => [] end)
      = JBool true /\
    map wf_status (workflows w') = ["active"].
Proof.
  split; [reflexivity|].
  eexists. eexists. split; [vm_compute; reflexivity|].
  repeat split.
Qed.

(** *** Sending and the rate limit *)

(** C6 (amended). The executors of [send_message], [send_email] and
    [webhook] nodes do not consult the rate limit: in every world,
    whatever the reputation map and the message table hold, a node
    with a [data] object adds its job to the [messages] queue (unless
    the queue itself rejects it) and returns [{ sent: true }] (or
    [{ webhookSent: true }]); the Execution and the reputation map are
    left as they are. *)
Theorem C6_send_nodes_dispatch_unconditionally
    (StringToNumber : string -> option Z)
    (rejects : Call -> World -> option string)
    (node : Node) (tenantId : string) (leadId : option string)
    (context : JsVal) (fs : list (string * JsVal)) (w : World) :
  In (type node) ["send_message"; "send_email"; "webhook"] ->
  data node = JObj fs ->
  (forall jobName payload w0,
     rejects (CallQueueAdd "messages" jobName payload) w0 = None) ->
  exists job w',
    executeNode StringToNumber rejects node tenantId leadId context w
      = Ok (flag (if String.eqb (type node) "webhook" then "webhookSent" else "sent"))
           w' /\
    jobs w' = (jobs w ++ [job])%list /\
    job_queue job = "messages" /\
    job_name job = (if String.eqb (type node) "webhook" then "send-webhook"
                    else "send-message") /\
    workflow_executions w' = workflow_executions w /\
    reputationScores w' = reputationScores w.
Proof.
  intros Htype Hdata Hqueue.
  unfold executeNode. rewrite Hdata.
  destruct Htype as [<-|[<-|[<-|[]]]];
    run_monad; rewrite Hqueue; run_monad;
    eexists; eexists; (split; [reflexivity|]); cbn; repeat split.
Qed.

Lemma C6_send_nodes_dispatch_unconditionally_witness :
  exists job w',
    executeNode no_numeric_strings reliable send_node "tenant-1" (Some "lead-1")
                (JObj []) throttled_world
      = Ok (flag (if String.eqb (type send_node) "webhook" then "webhookSent"
                  else "sent")) w' /\
    jobs w' = (jobs throttled_world ++ [job])%list /\
    job_queue job = "messages" /\
    job_name job = (if String.eqb (type send_node) "webhook" then "send-webhook"
                    else "send-message") /\
    workflow_executions w' = workflow_executions throttled_world /\
    reputationScores w' = reputationScores throttled_world.
Proof.
  apply (C6_send_nodes_dispatch_unconditionally no_numeric_strings reliable
           send_node "tenant-1" (Some "lead-1") (JObj [])
           [("channel", JStr "whatsapp"); ("content", JStr "Welcome")]
           throttled_world).
  - cbn. tauto.
  - reflexivity.
  - reflexivity.
Defined.

(** C6, as stated, fails: in [throttled_world] the rate limit answers
    [allowed: false] for (tenant-1, whatsapp), yet the send node
    dispatches its message and returns [{ sent: true }]; nothing is
    suspended or retried later. *)
Lemma C6_counterexample :
  (exists w0,
     checkRateLimit reliable "tenant-1" "whatsapp" throttled_world
       = Ok {| allowed := false; retryAfter := Some 3600 |} w0) /\
  exists w',
    executeNode no_numeric_strings reliable send_node "tenant-1" (Some "lead-1")
                (JObj []) throttled_world
      = Ok (JObj [("sent", JBool true)]) w' /\
    map (fun j => (job_queue j, job_name j)) (jobs w')
      = [("messages", "send-message")] /\
    jobs throttled_world = [].
Proof.
  split.
  - eexists. vm_compute. reflexivity.
  - eexists. split; [vm_compute; reflexivity|]. split; reflexivity.
Qed.

(** *** The execute entry point *)

(** C8 (amended). [execute] returns as soon as the job is on the
    [workflows] queue, and its result is the record
    [{ jobId, status: 'queued' }]: it has a [status] field and the id
    of the job, and no [executionId] field; no Execution exists yet for
    the call. *)
Theorem C8_execute_returns_the_job_id
    (rejects : Call -> World -> option string)
    (workflowId : string) (data : list (string * JsVal)) (w : World) :
  (forall payload w0,
     rejects (CallQueueAdd "workflows" "execute-workflow" payload) w0 = None) ->
  exists job w' r,
    execute rejects workflowId data w = Ok r w' /\
    r = JObj [("jobId", JNum (Z.of_nat (job_id job))); ("status", JStr "queued")] /\
    has_field "status" r = true /\
    has_field "executionId" r = false /\
    jobs w' = (jobs w ++ [job])%list /\
    job_queue job = "workflows" /\
    job_name job = "execute-workflow" /\
    job_id job = next_id w /\
    workflow_executions w' = workflow_executions w.
Proof.
  intros Hqueue.
  unfold execute. run_monad. rewrite Hqueue. run_monad.
  exists {| job_id := next_id w;
            job_queue := "workflows";
            job_name := "execute-workflow";
            job_data := JObj (spread [("workflowId", JStr workflowId)] data);
            job_attempts := defaultJobOptions_attempts |}.
  eexists. eexists. split; [reflexivity|]. cbn. repeat split.
Qed.

Lemma C8_execute_returns_the_job_id_witness :
  exists job w' r,
    execute reliable "wf-1" [("tenantId", JStr "tenant-1"); ("leadId", JStr "lead-1")]
            (sample_world []) = Ok r w' /\
    r = JObj [("jobId", JNum (Z.of_nat (job_id job))); ("status", JStr "queued")] /\
    has_field "status" r = true /\
    has_field "executionId" r = false /\
    jobs w' = (jobs (sample_world []) ++ [job])%list /\
    job_queue job = "workflows" /\
    job_name job = "execute-workflow" /\
    job_id job = next_id (sample_world []) /\
    workflow_executions w' = workflow_executions (sample_world []).
Proof.
  apply (C8_execute_returns_the_job_id reliable "wf-1"
           [("tenantId", JStr "tenant-1"); ("leadId", JStr "lead-1")]
           (sample_world [])).
  reflexivity.
Defined.

(** C8, as stated, fails: the record [execute] returns has no
    [executionId] field. *)
Lemma C8_counterexample :
  exists w',
    execute reliable "wf-1" [("tenantId", JStr "tenant-1"); ("leadId", JStr "lead-1")]
            (sample_world [])
      = Ok (JObj [("jobId", JNum 0); ("status", JStr "queued")]) w' /\
    has_field "executionId" (JObj [("jobId", JNum 0); ("status", JStr "queued")])
      = false.
Proof.
  eexists. split; [vm_compute; reflexivity | reflexivity].
Qed.

(** *** Reputation scores *)

Lemma calculateScore_bounds fround now reputation :
  (0 <= calculateScore fround now reputation)%Q /\
  (calculateScore fround now reputation <= 100)%Q.
Proof.
  unfold calculateScore. cbv zeta.
  match goal with |- context [Qmin 100 ?s] => generalize s end.
  intros s. split.
  - apply Q.le_max_l.
  - apply Q.max_lub; [discriminate | apply Q.le_min_l].
Qed.

Lemma recordMessage_invariant fround tenantId channel success w :
  scores_bounded (reputationScores w) ->
  well_counted (reputationScores w) ->
  exists w',
    recordMessage fround tenantId channel success w = Ok tt w' /\
    scores_bounded (reputationScores w') /\
    well_counted (reputationScores w').
Proof.
  intros Hscores Hcounts. unfold recordMessage, bind, get_world, modify.
  destruct (reputationScores w !! reputation_key tenantId channel)
    as [existing|] eqn:Hget;
    (eexists; split; [reflexivity|]); cbn; split.
  - intros key r Hkey.
    apply lookup_insert_Some in Hkey as [[_ <-]|[_ Hkey]];
      [apply calculateScore_bounds | exact (Hscores _ _ Hkey)].
  - intros key r Hkey.
    apply lookup_insert_Some in Hkey as [[_ <-]|[_ Hkey]];
      [|exact (Hcounts _ _ Hkey)].
    cbn. destruct (Hcounts _ _ Hget) as (H1 & H2 & H3).
    destruct success; lia.
  - intros key r Hkey.
    apply lookup_insert_Some in Hkey as [[_ <-]|[_ Hkey]];
      [|exact (Hscores _ _ Hkey)].
    cbn. destruct success; split; discriminate.
  - intros key r Hkey.
    apply lookup_insert_Some in Hkey as [[_ <-]|[_ Hkey]];
      [|exact (Hcounts _ _ Hkey)].
    cbn. destruct success; lia.
Qed.

Lemma recordMessages_invariant fround calls : forall w,
  scores_bounded (reputationScores w) ->
  well_counted (reputationScores w) ->
  exists w',
    recordMessages fround calls w = Ok tt w' /\
    scores_bounded (reputationScores w') /\
    well_counted (reputationScores w').
Proof.
  induction calls as [|[elapsed [[tenantId channel] success]] rest IH];
    intros w Hscores Hcounts.
  - exists w. split; [reflexivity | split; assumption].
  - cbn [recordMessages]. unfold bind at 1. unfold modify at 1.
    destruct (recordMessage_invariant fround tenantId channel success
                (set_clock (clock w + elapsed) w) Hscores Hcounts)
      as (w1 & Hrun & Hscores1 & Hcounts1).
    unfold bind at 1. rewrite Hrun.
    apply IH; assumption.
Qed.

(** C9. For every sequence of [recordMessage] calls on a fresh service,
    however much time passes between them, every stored score lies in
    [[0, 100]] (and every entry has counted at least one message, so
    the failure rate is a quotient by a positive number); an entry that
    is new starts at 100 after a success and at 90 after a failure, and
    every score [calculateScore] computes is clamped into [[0, 100]]. *)
Theorem C9_scores_stay_in_range
    (fround : Q -> Q)
    (calls : list (Z * (string * string * bool))) (w : World)
    (tenantId channel : string) (success : bool)
    (now : Z) (reputation : ReputationScore) :
  (exists w',
     recordMessages fround calls (fresh_service w) = Ok tt w' /\
     scores_bounded (reputationScores w') /\
     well_counted (reputationScores w')) /\
  (reputationScores w !! reputation_key tenantId channel = None ->
   exists w' r,
     recordMessage fround tenantId channel success w = Ok tt w' /\
     reputationScores w' !! reputation_key tenantId channel = Some r /\
     score r = (if success then 100 else 90)%Q) /\
  (0 <= calculateScore fround now reputation)%Q /\
  (calculateScore fround now reputation <= 100)%Q.
Proof.
  split; [|split; [|apply calculateScore_bounds]].
  - apply recordMessages_invariant; intros key r Hkey; cbn in Hkey;
      rewrite lookup_empty in Hkey; discriminate.
  - intros Hnew. unfold recordMessage, bind, get_world, modify. rewrite Hnew.
    eexists. eexists. split; [reflexivity|]. cbn.
    split; [apply lookup_insert_eq | reflexivity].
Qed.

Lemma C9_scores_stay_in_range_witness :
  (exists w',
     recordMessages exact [(0, ("tenant-1", "sms", false)); (5, ("tenant-1", "sms", false));
                     (2000, ("tenant-1", "sms", true))]
                    (fresh_service throttled_world) = Ok tt w' /\
     scores_bounded (reputationScores w') /\
     well_counted (reputationScores w')) /\
  (exists w' r,
     recordMessage exact "tenant-1" "sms" false throttled_world = Ok tt w' /\
     reputationScores w' !! reputation_key "tenant-1" "sms" = Some r /\
     score r = 90%Q).
Proof.
  pose proof (C9_scores_stay_in_range exact
                [(0, ("tenant-1", "sms", false)); (5, ("tenant-1", "sms", false));
                 (2000, ("tenant-1", "sms", true))]
                throttled_world "tenant-1" "sms" false 0
                {| rs_tenantId := "tenant-1"; rs_channel := "sms"; score := 100%Q;
                   messagesSent := 1; messagesFailed := 0; lastMessageAt := 0 |})
    as (Hrun & Hnew & _).
  split; [exact Hrun|].
  apply Hnew. vm_compute. reflexivity.
Defined.

(** ** Further properties *)

(** *** What a pass executes *)


(** X1. When a pass returns, the nodes it has executed are exactly the
    node ids reachable from the trigger node along edges whose targets
    exist: nothing unreachable runs, and nothing reachable is skipped.
    An edge to an id that names no node is passed over in silence. *)
Theorem X1_pass_executes_the_reachable_nodes
    (StringToNumber : string -> option Z)
    (rejects : Call -> World -> option string)
    (fuel : nat) (nodes : list Node) (edges : list Edge) (executionId : nat)
    (tenantId : string) (leadId : option string) (context : JsVal)
    (w : World) (results : list ResultEntry) (w' : World) :
  executeNodes StringToNumber rejects fuel nodes edges executionId
               tenantId leadId context w = Ok results w' ->
  exists triggerNode,
    List.find (fun n => String.eqb (type n) "trigger") nodes = Some triggerNode /\
    forall x, In x (map nodeId results)
              <-> reachable nodes edges (id triggerNode) x.
Proof.
  unfold executeNodes.
  destruct (List.find _ nodes) as [triggerNode|] eqn:Htrigger; [|discriminate].
  intros Hrun. exists triggerNode. split; [reflexivity|].
  assert (Hstart : find_node nodes (id triggerNode) <> None).
  { apply find_some in Htrigger as (Hin & _). unfold find_node.
    intros Hnone. apply (find_none _ _ Hnone) in Hin.
    now rewrite String.eqb_refl in Hin. }
  eapply bfs_reach; [exact Hstart | | exact Hrun].
  split; [|split; [|split; [|split]]].
  - intros x. cbn. split; [intros Hx; now apply not_elem_of_empty in Hx | tauto].
  - intros x [<-|[]]. right. now apply reachable_start.
  - intros x Hx. now apply not_elem_of_empty in Hx.
  - intros e _ Hsrc. now apply not_elem_of_empty in Hsrc.
  - left. now left.
Qed.

Lemma X1_pass_executes_the_reachable_nodes_witness :
  exists triggerNode,
    List.find (fun n => String.eqb (type n) "trigger") (wf_nodes dangling_workflow)
      = Some triggerNode /\
    forall x,
      In x (map nodeId [{| nodeId := "n1"; result := flag "triggered" |};
                        {| nodeId := "n3"; result := flag "ended" |}])
      <-> reachable (wf_nodes dangling_workflow) (wf_edges dangling_workflow)
                    (id triggerNode) x.
Proof.
  apply (X1_pass_executes_the_reachable_nodes no_numeric_strings reliable 3
           (wf_nodes dangling_workflow) (wf_edges dangling_workflow) 0
           "tenant-1" (Some "lead-1") (JObj []) (sample_world [])
           _ (set_log [LogExecutingNode "trigger" "n1"; LogExecutingNode "end" "n3"]
                      (sample_world []))).
  vm_compute. reflexivity.
Defined.

(** *** Node executors *)

Lemma node_kind_reads_data t :
  match node_kind t with
  | KTrigger | KAiAgent | KEnd | KDefault => True
  | _ => In t data_reading_types
  end.
Proof.
  unfold node_kind.
  repeat match goal with
  | |- context [String.eqb t ?s] =>
      destruct (String.eqb_spec t s) as [->|_]; [cbn; tauto|]
  end.
  exact I.
Qed.

(** X2. An executor that reads [node.data] throws a [TypeError] when
    the node has no [data] ([undefined] or [null]), before it has any
    effect: nothing is queued or written, only the debug line is
    logged.  The other executors (trigger, ai_agent, end, and the
    default case) never look at [data] and return whatever it is. *)
Theorem X2_missing_data_throws_before_any_effect
    (StringToNumber : string -> option Z)
    (rejects : Call -> World -> option string)
    (node : Node) (tenantId : string) (leadId : option string)
    (context : JsVal) (w : World) :
  let logged := set_log (log w ++ [LogExecutingNode (type node) (id node)]) w in
  (In (type node) data_reading_types ->
   data node = JUndefined \/ data node = JNull ->
   exists e,
     executeNode StringToNumber rejects node tenantId leadId context w
       = Throw e logged) /\
  (~ In (type node) data_reading_types ->
   exists r,
     executeNode StringToNumber rejects node tenantId leadId context w
       = Ok r logged).
Proof.
  intros logged. subst logged. split.
  - intros Htype Hdata. unfold executeNode.
    cbn in Htype.
    destruct Htype as [<-|[<-|[<-|[<-|[<-|[<-|[<-|[<-|[<-|[]]]]]]]]]];
      destruct Hdata as [-> | ->]; run_monad; eexists; reflexivity.
  - intros Htype. unfold executeNode.
    pose proof (node_kind_reads_data (type node)) as Hkind.
    destruct (node_kind (type node)); try contradiction;
      run_monad; eexists; reflexivity.
Qed.

Lemma X2_missing_data_throws_before_any_effect_witness :
  (exists e,
     executeNode no_numeric_strings reliable broken_send_node "tenant-1"
                 (Some "lead-1") (JObj []) (sample_world [])
       = Throw e (set_log [LogExecutingNode "send_message" "n5"] (sample_world []))) /\
  (exists r,
     executeNode no_numeric_strings reliable
                 {| id := "n9"; type := "ai_agent"; data := JUndefined |}
                 "tenant-1" (Some "lead-1") (JObj []) (sample_world [])
       = Ok r (set_log [LogExecutingNode "ai_agent" "n9"] (sample_world []))).
Proof.
  split.
  - apply (X2_missing_data_throws_before_any_effect no_numeric_strings reliable
             broken_send_node "tenant-1" (Some "lead-1") (JObj []) (sample_world [])).
    + cbn. tauto.
    + left. reflexivity.
  - apply (X2_missing_data_throws_before_any_effect no_numeric_strings reliable
             {| id := "n9"; type := "ai_agent"; data := JUndefined |}
             "tenant-1" (Some "lead-1") (JObj []) (sample_world [])).
    cbn. intuition discriminate.
Defined.



(** *** The worker handler *)

(** X3. When a job returns, and the execution ids in the table are
    distinct from the one about to be generated, the table has gained
    exactly one row and kept all others as they were: the new row is
    the job's Execution, ['completed'], holding the returned [results]
    as [node_results], started at the time the job began and completed
    at the time it ended; the returned results name no node twice. *)
Theorem X3_returning_run_completes_its_execution
    (StringToNumber : string -> option Z)
    (rejects : Call -> World -> option string)
    (syntax_error : string -> string)
    (fuel : nat) (job : JobData) (w : World)
    (executionId : nat) (results : list ResultEntry) (w' : World) :
  worker_handler StringToNumber rejects syntax_error fuel job w = Ok (executionId, results) w' ->
  (forall r, In r (workflow_executions w) -> ex_id r <> next_id w) ->
  exists row,
    workflow_executions w' = (workflow_executions w ++ [row])%list /\
    ex_id row = executionId /\
    ex_workflow_id row = jd_workflowId job /\
    ex_lead_id row = jd_leadId job /\
    ex_status row = "completed" /\
    ex_node_results row = results /\
    ex_started_at row = clock w /\
    ex_completed_at row = Some (clock w') /\
    NoDup (map nodeId results).
Proof.
  intros Hrun Hfresh.
  pose proof (worker_handler_executions StringToNumber rejects syntax_error fuel job w) as H.
  rewrite Hrun in H. destruct H as (-> & Hrows & Hnodup).
  rewrite map_app in Hrows. cbn in Hrows. rewrite Nat.eqb_refl in Hrows.
  rewrite (map_ext_in _ (fun r => r)), map_id in Hrows.
  - eexists. split; [exact Hrows|]. cbn. repeat split. exact Hnodup.
  - intros r Hin. destruct (Nat.eqb_spec (ex_id r) (next_id w)) as [Heq|_];
      [|reflexivity].
    exfalso. exact (Hfresh r Hin Heq).
Qed.

Lemma X3_returning_run_completes_its_execution_witness :
  exists results w' row,
    worker_handler no_numeric_strings reliable sample_syntax_error 5 sample_job
                   (sample_world [welcome_workflow]) = Ok (0%nat, results) w' /\
    workflow_executions w' = [row] /\
    ex_status row = "completed" /\
    ex_node_results row = results.
Proof.
  assert (Hrun : exists results w',
    worker_handler no_numeric_strings reliable sample_syntax_error 5 sample_job
                   (sample_world [welcome_workflow]) = Ok (0%nat, results) w')
    by (eexists; eexists; vm_compute; reflexivity).
  destruct Hrun as (results & w' & Hrun).
  destruct (X3_returning_run_completes_its_execution no_numeric_strings reliable
              sample_syntax_error 5 sample_job (sample_world [welcome_workflow]) 0 results w' Hrun)
    as (row & Hrows & _ & _ & _ & Hstatus & Hresults & _).
  - intros r [].
  - exists results, w', row. repeat split; assumption.
Defined.

(** X4. A workflow without a trigger node, its graph stored as JSON
    text, is found out only when it runs: the job throws ['No trigger
    node found'] after it has inserted its Execution, which is left in
    the table, ['running'], with nothing queued and nothing written
    elsewhere. *)
Theorem X4_no_trigger_node_leaves_a_running_execution
    (StringToNumber : string -> option Z)
    (rejects : Call -> World -> option string)
    (syntax_error : string -> string)
    (fuel : nat) (job : JobData) (workflow : WorkflowRow) (w : World) :
  (forall w0, rejects (CallSelectWorkflow (jd_workflowId job) (jd_tenantId job)) w0
              = None) ->
  (forall w0, rejects (CallInsertExecution (jd_workflowId job) (jd_tenantId job)
                                           (jd_leadId job)) w0 = None) ->
  List.find (fun r => String.eqb (wf_id r) (jd_workflowId job)
                      && String.eqb (wf_tenant_id r) (jd_tenantId job))
            (workflows w) = Some workflow ->
  wf_nodes_stored workflow = AsText ->
  wf_edges_stored workflow = AsText ->
  List.find (fun n => String.eqb (type n) "trigger") (wf_nodes workflow) = None ->
  exists w',
    worker_handler StringToNumber rejects syntax_error fuel job w
      = Throw "No trigger node found" w' /\
    workflow_executions w' = (workflow_executions w ++ [inserted_row job w])%list /\
    jobs w' = jobs w /\
    issued w' = issued w /\
    clock w' = clock w.
Proof.
  intros Hselect Hinsert Hfind Hnodes Hedges Htrigger.
  unfold worker_handler, try_catch, select_workflow, insert_execution, executeNodes,
         JSON_parse.
  run_monad. rewrite Hselect. run_monad. rewrite Hfind. run_monad.
  rewrite Hnodes, Hedges. run_monad.
  rewrite Hinsert. run_monad. rewrite Htrigger. run_monad.
  eexists. split; [reflexivity|]. cbn. repeat split.
Qed.

Lemma X4_no_trigger_node_leaves_a_running_execution_witness :
  exists w',
    worker_handler no_numeric_strings reliable sample_syntax_error 2 sample_job
                   (sample_world [sample_workflow [end_node] []])
      = Throw "No trigger node found" w' /\
    workflow_executions w'
      = (workflow_executions (sample_world [sample_workflow [end_node] []])
         ++ [inserted_row sample_job (sample_world [sample_workflow [end_node] []])])%list /\
    jobs w' = jobs (sample_world [sample_workflow [end_node] []]) /\
    issued w' = issued (sample_world [sample_workflow [end_node] []]) /\
    clock w' = clock (sample_world [sample_workflow [end_node] []]).
Proof.
  apply (X4_no_trigger_node_leaves_a_running_execution no_numeric_strings reliable
           sample_syntax_error 2 sample_job (sample_workflow [end_node] [])
           (sample_world [sample_workflow [end_node] []])).
  - reflexivity.
  - reflexivity.
  - reflexivity.
  - reflexivity.
  - reflexivity.
  - reflexivity.
Defined.

(** X5. A job for a workflow id that the tenant does not have throws
    ['Workflow not found'] and leaves no trace but the two log lines:
    no Execution is inserted, nothing is queued. *)
Theorem X5_unknown_workflow_inserts_nothing
    (StringToNumber : string -> option Z)
    (rejects : Call -> World -> option string)
    (syntax_error : string -> string)
    (fuel : nat) (job : JobData) (w : World) :
  (forall w0, rejects (CallSelectWorkflow (jd_workflowId job) (jd_tenantId job)) w0
              = None) ->
  List.find (fun r => String.eqb (wf_id r) (jd_workflowId job)
                      && String.eqb (wf_tenant_id r) (jd_tenantId job))
            (workflows w) = None ->
  worker_handler StringToNumber rejects syntax_error fuel job w
    = Throw "Workflow not found"
        (set_log (log w ++ [LogExecutingWorkflow (jd_workflowId job) (jd_leadId job);
                            LogWorkflowFailed "Workflow not found" (jd_workflowId job)])
                 w).
Proof.
  intros Hselect Hfind.
  unfold worker_handler, try_catch, select_workflow.
  run_monad. rewrite Hselect. run_monad. rewrite Hfind. run_monad.
  rewrite <- app_assoc. reflexivity.
Qed.

Lemma X5_unknown_workflow_inserts_nothing_witness :
  worker_handler no_numeric_strings reliable sample_syntax_error 2 sample_job (sample_world [])
    = Throw "Workflow not found"
        (set_log (log (sample_world [])
                  ++ [LogExecutingWorkflow (jd_workflowId sample_job)
                                           (jd_leadId sample_job);
                      LogWorkflowFailed "Workflow not found"
                                        (jd_workflowId sample_job)])
                 (sample_world [])).
Proof.
  apply (X5_unknown_workflow_inserts_nothing no_numeric_strings reliable
           sample_syntax_error 2
           sample_job (sample_world [])).
  - reflexivity.
  - reflexivity.
Defined.

(** *** The payload of [execute] *)

Lemma assoc_get_set_eq k v fs : assoc_get k (assoc_set k v fs) = v.
Proof.
  induction fs as [|[k' v'] rest IH]; cbn.
  - now rewrite String.eqb_refl.
  - destruct (String.eqb_spec k k') as [->|Hne]; cbn.
    + now rewrite String.eqb_refl.
    + destruct (String.eqb_spec k k'); [contradiction | exact IH].
Qed.

Lemma assoc_get_set_ne k k' v fs :
  k <> k' -> assoc_get k (assoc_set k' v fs) = assoc_get k fs.
Proof.
  intros Hne. induction fs as [|[k0 v0] rest IH]; cbn.
  - destruct (String.eqb_spec k k'); [contradiction | reflexivity].
  - destruct (String.eqb_spec k' k0) as [->|Hne0]; cbn.
    + destruct (String.eqb_spec k k0); [contradiction | reflexivity].
    + destruct (String.eqb_spec k k0); [reflexivity | exact IH].
Qed.

Lemma spread_get_outside k extra : forall base,
  ~ In k (map fst extra) ->
  assoc_get k (spread base extra) = assoc_get k base.
Proof.
  unfold spread.
  induction extra as [|[k' v'] rest IH]; intros base Hout; cbn; [reflexivity|].
  cbn in Hout. rewrite IH by tauto.
  apply assoc_get_set_ne. intros ->. tauto.
Qed.

Lemma spread_get_inside k v extra : forall base,
  NoDup (map fst extra) -> In (k, v) extra ->
  assoc_get k (spread base extra) = v.
Proof.
  unfold spread.
  induction extra as [|[k' v'] rest IH]; intros base Hnodup Hin; [destruct Hin|].
  cbn in Hnodup. apply NoDup_cons in Hnodup as (Hfresh & Hnodup).
  cbn. destruct Hin as [Heq|Hin].
  - injection Heq as -> ->.
    fold (spread (assoc_set k v base) rest).
    rewrite spread_get_outside.
    + apply assoc_get_set_eq.
    + intros Hin. apply Hfresh, list_elem_of_In, Hin.
  - now apply IH.
Qed.

(** X6. The job that [execute] queues carries every field of [data]
    unchanged, and the [workflowId] argument unless [data] has a field
    of that name, which then replaces it: a caller's [data.workflowId]
    decides which workflow runs. *)
Theorem X6_execute_payload
    (rejects : Call -> World -> option string)
    (workflowId : string) (data : list (string * JsVal)) (w : World) :
  (forall payload w0,
     rejects (CallQueueAdd "workflows" "execute-workflow" payload) w0 = None) ->
  NoDup (map fst data) ->
  exists r w' job fs,
    execute rejects workflowId data w = Ok r w' /\
    jobs w' = (jobs w ++ [job])%list /\
    job_data job = JObj fs /\
    (forall k v, In (k, v) data -> assoc_get k fs = v) /\
    (~ In "workflowId" (map fst data) -> assoc_get "workflowId" fs = JStr workflowId).
Proof.
  intros Hqueue Hnodup.
  unfold execute. run_monad. rewrite Hqueue. run_monad.
  eexists. eexists. eexists. eexists.
  split; [reflexivity|]. cbn. split; [reflexivity|]. split; [reflexivity|].
  split.
  - intros k v Hin. now apply spread_get_inside.
  - intros Hout. rewrite spread_get_outside by exact Hout. reflexivity.
Qed.

Lemma X6_execute_payload_witness :
  exists r w' job fs,
    execute reliable "wf-1" [("tenantId", JStr "tenant-1"); ("workflowId", JStr "wf-2")]
            (sample_world []) = Ok r w' /\
    jobs w' = (jobs (sample_world []) ++ [job])%list /\
    job_data job = JObj fs /\
    (forall k v, In (k, v) [("tenantId", JStr "tenant-1"); ("workflowId", JStr "wf-2")] ->
                 assoc_get k fs = v) /\
    (~ In "workflowId" (map fst [("tenantId", JStr "tenant-1");
                                 ("workflowId", JStr "wf-2")]) ->
     assoc_get "workflowId" fs = JStr "wf-1").
Proof.
  apply (X6_execute_payload reliable "wf-1"
           [("tenantId", JStr "tenant-1"); ("workflowId", JStr "wf-2")]
           (sample_world [])).
  - reflexivity.
  - cbn. apply NoDup_cons. split; [|apply NoDup_singleton].
    intros Hin. apply list_elem_of_singleton in Hin. discriminate.
Defined.

(** *** The reputation map *)

Section Rounding.

Variable fround : Q -> Q.
Hypothesis fround_ok : rounds_to_nearest fround.






End Rounding.

Lemma exact_rounds_to_nearest : rounds_to_nearest exact.
Proof.
  split; [intros p q H; exact H | intros n; apply Qeq_refl].
Qed.





(** The counts of the entries, for a sequence run from any map. *)
Lemma recordMessages_counts fround calls : forall w,
  exists w',
    recordMessages fround calls w = Ok tt w' /\
    forall key,
      let n := Z.of_nat (length (calls_for key calls)) in
      let f := Z.of_nat (length (failures (calls_for key calls))) in
      match reputationScores w' !! key, reputationScores w !! key with
      | Some r', Some r =>
          messagesSent r' = messagesSent r + n /\
          messagesFailed r' = messagesFailed r + f
      | Some r', None => messagesSent r' = n /\ messagesFailed r' = f /\ 0 < n
      | None, Some _ => False
      | None, None => n = 0
      end.
Proof.
  induction calls as [|[elapsed [[tenantId channel] success]] rest IH]; intros w.
  - exists w. split; [reflexivity|]. intros key. cbn.
    destruct (reputationScores w !! key); [lia | reflexivity].
  - cbn [recordMessages]. unfold bind at 1. unfold modify at 1.
    unfold bind at 1.
    set (w0 := set_clock (clock w + elapsed) w).
    assert (Hfirst : exists w1,
      recordMessage fround tenantId channel success w0 = Ok tt w1 /\
      forall key,
        match reputationScores w1 !! key, reputationScores w !! key with
        | Some r', Some r =>
            if String.eqb (reputation_key tenantId channel) key
            then messagesSent r' = messagesSent r + 1 /\
                 messagesFailed r' = messagesFailed r + (if success then 0 else 1)
            else r' = r
        | Some r', None =>
            String.eqb (reputation_key tenantId channel) key = true /\
            messagesSent r' = 1 /\
            messagesFailed r' = (if success then 0 else 1)
        | None, Some _ => False
        | None, None => String.eqb (reputation_key tenantId channel) key = false
        end).
    { unfold recordMessage, bind, get_world, modify.
      change (reputationScores w0) with (reputationScores w).
      destruct (reputationScores w !! reputation_key tenantId channel)
        as [existing|] eqn:Hget;
        (eexists; split; [reflexivity|]); cbn; intros key;
        destruct (String.eqb_spec (reputation_key tenantId channel) key)
          as [<-|Hne].
      - rewrite lookup_insert_eq, Hget. cbn. destruct success; split; lia.
      - rewrite lookup_insert_ne by exact Hne.
        destruct (reputationScores w !! key); [reflexivity | exact I || reflexivity].
      - rewrite lookup_insert_eq, Hget. cbn. destruct success; repeat split.
      - rewrite lookup_insert_ne by exact Hne.
        destruct (reputationScores w !! key); reflexivity. }
    destruct Hfirst as (w1 & Hrun1 & Hstep). rewrite Hrun1.
    destruct (IH w1) as (w' & Hrest & Hcounts).
    exists w'. split; [exact Hrest|]. intros key.
    specialize (Hcounts key). specialize (Hstep key).
    unfold calls_for, failures in *. cbn [List.filter fst snd] in *.
    destruct (String.eqb (reputation_key tenantId channel) key) eqn:Hkey;
      cbn [length List.filter snd negb] in *;
      destruct (reputationScores w' !! key) as [r'|];
      destruct (reputationScores w1 !! key) as [r1|];
      destruct (reputationScores w !! key) as [r|];
      cbn zeta in *; try contradiction; try discriminate.
    all: try (destruct Hstep as (Hs1 & Hs2)).
    all: try (destruct Hs2 as (Hs2 & Hs3)).
    all: try (destruct Hcounts as (Hc1 & Hc2)).
    all: try (destruct Hc2 as (Hc2 & Hc3)).
    all: try subst r1.
    all: destruct success; cbn [negb length List.filter] in *;
      repeat split; try lia; try assumption.
Qed.

(** X10. After any messages recorded on a fresh service, the map has
    an entry for a key exactly when some call fell on that key, and the
    entry's [messagesSent] and [messagesFailed] are the number of those
    calls and the number of them that failed. *)
Theorem X10_entries_count_their_calls
    (fround : Q -> Q) (calls : list (Z * (string * string * bool))) (w : World)
    (key : string) :
  exists w',
    recordMessages fround calls (fresh_service w) = Ok tt w' /\
    match reputationScores w' !! key with
    | Some r =>
        calls_for key calls <> [] /\
        messagesSent r = Z.of_nat (length (calls_for key calls)) /\
        messagesFailed r = Z.of_nat (length (failures (calls_for key calls)))
    | None => calls_for key calls = []
    end.
Proof.
  destruct (recordMessages_counts fround calls (fresh_service w))
    as (w' & Hrun & Hcounts).
  exists w'. split; [exact Hrun|].
  specialize (Hcounts key). cbn zeta in Hcounts.
  change (reputationScores (fresh_service w)) with (∅ : gmap string ReputationScore)
    in Hcounts.
  rewrite lookup_empty in Hcounts.
  destruct (reputationScores w' !! key) as [r|].
  - destruct Hcounts as (Hsent & Hfailed & Hpos).
    split; [|split; assumption].
    intros Hnil. rewrite Hnil in Hpos. cbn in Hpos. lia.
  - destruct (calls_for key calls); [reflexivity | cbn in Hcounts; lia].
Qed.

(** *** Routes *)

(** X11. Activation is scoped to one workflow of one tenant: rows with
    another id or another tenant are left exactly as they are, the
    execution table and the queues are not touched, and when no row has
    that id and tenant the table is unchanged and the reply is a
    success all the same. *)
Theorem X11_activation_is_scoped
    (rejects : Call -> World -> option string)
    (workflowId tenantId : string) (w : World) :
  rejects (CallActivateWorkflow workflowId tenantId) w = None ->
  exists reply w',
    activate_route rejects workflowId tenantId w = Ok reply w' /\
    statusCode reply = 200 /\
    length (workflows w') = length (workflows w) /\
    (forall i r, nth_error (workflows w) i = Some r ->
                 wf_id r <> workflowId \/ wf_tenant_id r <> tenantId ->
                 nth_error (workflows w') i = Some r) /\
    ((forall r, In r (workflows w) ->
                wf_id r <> workflowId \/ wf_tenant_id r <> tenantId) ->
     workflows w' = workflows w) /\
    workflow_executions w' = workflow_executions w /\
    jobs w' = jobs w.
Proof.
  intros Hup. unfold activate_route, bind, external, modify, ret. rewrite Hup.
  eexists. eexists. split; [reflexivity|]. cbn.
  assert (Hother : forall r, wf_id r <> workflowId \/ wf_tenant_id r <> tenantId ->
            (if String.eqb (wf_id r) workflowId && String.eqb (wf_tenant_id r) tenantId
             then activate_row r else r) = r).
  { intros r Hne.
    destruct (String.eqb_spec (wf_id r) workflowId);
      destruct (String.eqb_spec (wf_tenant_id r) tenantId); cbn;
      try reflexivity.
    destruct Hne; contradiction. }
  split; [reflexivity|]. split; [apply length_map|]. split; [|split; [|split; reflexivity]].
  - intros i r Hnth Hne. rewrite nth_error_map, Hnth. cbn. now rewrite Hother.
  - intros Hnone. rewrite <- (map_id (workflows w)) at 2.
    apply map_ext_in. intros r Hin. apply Hother, Hnone, Hin.
Qed.

Lemma X11_activation_is_scoped_witness :
  exists reply w',
    activate_route reliable "wf-9" "tenant-1" (sample_world [dangling_workflow])
      = Ok reply w' /\
    statusCode reply = 200 /\
    workflows w' = workflows (sample_world [dangling_workflow]).
Proof.
  destruct (X11_activation_is_scoped reliable "wf-9" "tenant-1"
              (sample_world [dangling_workflow]))
    as (reply & w' & Hrun & Hcode & _ & _ & Hnone & _).
  - reflexivity.
  - exists reply, w'. split; [exact Hrun|]. split; [exact Hcode|].
    apply Hnone. intros r [<-|[]]. left. discriminate.
Defined.

Lemma find_filter_negb {A} (p q : A -> bool) (l : list A) :
  (forall x, p x = true -> q x = false) ->
  List.find p (List.filter (fun x => negb (q x)) l) = List.find p l.
Proof.
  intros Hpq. induction l as [|x l IH]; [reflexivity|]. cbn.
  destruct (q x) eqn:Hq; cbn.
  - destruct (p x) eqn:Hp; [|exact IH].
    rewrite (Hpq x Hp) in Hq. discriminate.
  - destruct (p x); [reflexivity | exact IH].
Qed.

Lemma find_filter_negb_same {A} (q : A -> bool) (l : list A) :
  List.find q (List.filter (fun x => negb (q x)) l) = None.
Proof.
  induction l as [|x l IH]; [reflexivity|]. cbn.
  destruct (q x) eqn:Hq; cbn; [exact IH|]. now rewrite Hq.
Qed.

(** X12. Deleting a workflow and reading it back: after [DELETE /:id],
    [GET /:id] for the same id and tenant replies 404, while every
    other (id, tenant) reads back exactly what it read before; deleting
    an id the tenant does not have is a success that changes no
    reading. *)
Theorem X12_deleted_workflow_reads_404
    (route_rejects : RouteCall -> World -> option string)
    (workflowId tenantId : string) (w : World) :
  (forall c w0, route_rejects c w0 = None) ->
  exists reply w',
    delete_route route_rejects workflowId tenantId w = Ok reply w' /\
    statusCode reply = 200 /\
    get_route route_rejects workflowId tenantId w'
      = Ok (ReplyNotFound "NOT_FOUND" "Workflow not found") w' /\
    forall workflowId' tenantId',
      workflowId' <> workflowId \/ tenantId' <> tenantId ->
      exists r,
        get_route route_rejects workflowId' tenantId' w = Ok r w /\
        get_route route_rejects workflowId' tenantId' w' = Ok r w'.
Proof.
  intros Hup.
  unfold delete_route, get_route, bind, route_external, modify, get_world, ret.
  rewrite !Hup. eexists. eexists. split; [reflexivity|]. cbn.
  split; [reflexivity|]. rewrite !Hup. cbn [workflows set_workflows]. split.
  - now rewrite (find_filter_negb_same
                   (fun r => String.eqb (wf_id r) workflowId
                             && String.eqb (wf_tenant_id r) tenantId)).
  - intros workflowId' tenantId' Hne. rewrite !Hup. cbn [workflows set_workflows].
    rewrite (find_filter_negb
               (fun r => String.eqb (wf_id r) workflowId'
                         && String.eqb (wf_tenant_id r) tenantId')
               (fun r => String.eqb (wf_id r) workflowId
                         && String.eqb (wf_tenant_id r) tenantId)).
    + destruct (List.find _ (workflows w)); eexists; split; reflexivity.
    + intros r Hr. apply andb_prop in Hr as (Hid & Htenant).
      apply String.eqb_eq in Hid, Htenant.
      destruct (String.eqb_spec (wf_id r) workflowId);
        destruct (String.eqb_spec (wf_tenant_id r) tenantId); cbn;
        try reflexivity.
      destruct Hne; congruence.
Qed.

Lemma X12_deleted_workflow_reads_404_witness :
  exists reply w',
    delete_route (fun _ _ => None) "wf-1" "tenant-1" (sample_world [welcome_workflow])
      = Ok reply w' /\
    get_route (fun _ _ => None) "wf-1" "tenant-1" w'
      = Ok (ReplyNotFound "NOT_FOUND" "Workflow not found") w'.
Proof.
  destruct (X12_deleted_workflow_reads_404 (fun _ _ => None) "wf-1" "tenant-1"
              (sample_world [welcome_workflow]))
    as (reply & w' & Hdel & _ & Hget & _).
  - reflexivity.
  - exists reply, w'. split; assumption.
Defined.

(** X13. The public trigger route queues a job only for a workflow of
    the tenant that is ['active']: otherwise it replies 404 and changes
    nothing.  When it does queue the job, the reply's [status] is
    ['queued'] and its [executionId] is [undefined] (the record that
    [execute] returns has no [id]); the job carries the body's [data]
    as [triggerData], and no Execution exists yet. *)
Theorem X13_trigger_route
    (rejects : Call -> World -> option string)
    (route_rejects : RouteCall -> World -> option string)
    (workflowId tenantId : string) (leadId data : JsVal) (w : World) :
  (forall w0, route_rejects (RouteSelectActiveWorkflow workflowId tenantId) w0 = None) ->
  (forall payload w0,
     rejects (CallQueueAdd "workflows" "execute-workflow" payload) w0 = None) ->
  match List.find (fun r => String.eqb (wf_id r) workflowId
                            && String.eqb (wf_tenant_id r) tenantId
                            && String.eqb (wf_status r) "active")
                  (workflows w) with
  | None =>
      exists body,
        trigger_route rejects route_rejects workflowId tenantId leadId data w
          = Ok {| statusCode := 404; body := body |} w
  | Some _ =>
      exists job w' fs,
        trigger_route rejects route_rejects workflowId tenantId leadId data w
          = Ok {| statusCode := 200;
                  body := JObj [("success", JBool true);
                                ("data", JObj [("executionId", JUndefined);
                                               ("status", JStr "queued")])] |}
               w' /\
        jobs w' = (jobs w ++ [job])%list /\
        job_queue job = "workflows" /\
        job_data job = JObj fs /\
        assoc_get "workflowId" fs = JStr workflowId /\
        assoc_get "triggerData" fs = data /\
        workflow_executions w' = workflow_executions w
  end.
Proof.
  intros Hselect Hqueue.
  destruct (List.find _ (workflows w)) as [workflow|] eqn:Hfind;
    unfold trigger_route, route_external, execute; run_monad;
    rewrite Hselect; run_monad; rewrite Hfind; run_monad.
  - rewrite Hqueue. run_monad.
    eexists. eexists. eexists. split; [reflexivity|]. cbn. repeat split.
  - eexists. reflexivity.
Qed.

Lemma X13_trigger_route_witness :
  exists body,
    trigger_route reliable (fun _ _ => None) "wf-1" "tenant-1" (JStr "lead-1")
                  (JObj []) (sample_world [welcome_workflow])
      = Ok {| statusCode := 404; body := body |} (sample_world [welcome_workflow]).
Proof.
  exact (X13_trigger_route reliable (fun _ _ => None) "wf-1" "tenant-1"
           (JStr "lead-1") (JObj []) (sample_world [welcome_workflow])
           (fun _ => eq_refl) (fun _ _ => eq_refl)).
Defined.

(** X14. The test route looks nothing up: for any workflow id, existing
    or not, active or not, it queues an [execute-workflow] job and
    replies with the job record.  The job carries the body's data under
    [testData] and has no [triggerData], which is the field the worker
    reads. *)
Theorem X14_test_route_checks_nothing
    (rejects : Call -> World -> option string)
    (workflowId tenantId : string) (leadId testData : JsVal) (w : World) :
  (forall payload w0,
     rejects (CallQueueAdd "workflows" "execute-workflow" payload) w0 = None) ->
  exists job w' fs,
    test_route rejects workflowId tenantId leadId testData w
      = Ok {| statusCode := 200;
              body := JObj [("success", JBool true);
                            ("data", JObj [("jobId", JNum (Z.of_nat (job_id job)));
                                           ("status", JStr "queued")])] |}
           w' /\
    jobs w' = (jobs w ++ [job])%list /\
    job_name job = "execute-workflow" /\
    job_data job = JObj fs /\
    assoc_get "workflowId" fs = JStr workflowId /\
    assoc_get "testData" fs = testData /\
    assoc_get "triggerData" fs = JUndefined /\
    workflows w' = workflows w.
Proof.
  intros Hqueue.
  unfold test_route, execute. run_monad. rewrite Hqueue. run_monad.
  eexists {| job_id := next_id w |}. eexists. eexists.
  split; [reflexivity|]. cbn. repeat split.
Qed.

Lemma X14_test_route_checks_nothing_witness :
  exists job w' fs,
    test_route reliable "no-such-workflow" "tenant-1" (JStr "lead-1")
               (JObj [("name", JStr "Ada")]) (sample_world [])
      = Ok {| statusCode := 200;
              body := JObj [("success", JBool true);
                            ("data", JObj [("jobId", JNum (Z.of_nat (job_id job)));
                                           ("status", JStr "queued")])] |}
           w' /\
    jobs w' = (jobs (sample_world []) ++ [job])%list /\
    job_name job = "execute-workflow" /\
    job_data job = JObj fs /\
    assoc_get "workflowId" fs = JStr "no-such-workflow" /\
    assoc_get "testData" fs = JObj [("name", JStr "Ada")] /\
    assoc_get "triggerData" fs = JUndefined /\
    workflows w' = workflows (sample_world []).
Proof.
  apply (X14_test_route_checks_nothing reliable "no-such-workflow" "tenant-1"
           (JStr "lead-1") (JObj [("name", JStr "Ada")]) (sample_world [])).
  reflexivity.
Defined.

(** *** Masking *)

Lemma string_length_append (a b : string) :
  String.length (a ++ b) = (String.length a + String.length b)%nat.
Proof. induction a as [|c a IH]; simpl; [reflexivity | now rewrite IH]. Qed.

Lemma stars_length n : String.length (stars n) = n.
Proof. induction n as [|n IH]; cbn; [reflexivity | now rewrite IH]. Qed.

Lemma string_drop_length n : forall s,
  String.length (string_drop n s) = (String.length s - n)%nat.
Proof.
  induction n as [|n IH]; intros s; cbn; [lia|].
  destruct s as [|c s]; cbn; [reflexivity | apply IH].
Qed.

Lemma get_append (a b : string) i :
  String.get i (a ++ b)
  = if (i <? String.length a)%nat then String.get i a
    else String.get (i - String.length a) b.
Proof.
  revert i. induction a as [|c a IH]; intros i; simpl.
  - now rewrite Nat.sub_0_r.
  - destruct i as [|i]; [reflexivity|]. rewrite IH. reflexivity.
Qed.

Lemma get_stars n i : (i < n)%nat -> String.get i (stars n) = Some "*"%char.
Proof.
  revert i. induction n as [|n IH]; intros i Hi; [lia|].
  destruct i as [|i]; cbn; [reflexivity | apply IH; lia].
Qed.

Lemma get_string_drop n : forall s i,
  (n <= String.length s)%nat ->
  String.get i (string_drop n s) = String.get (n + i) s.
Proof.
  induction n as [|n IH]; intros s i Hn; cbn; [reflexivity|].
  destruct s as [|c s]; cbn in *; [lia|]. apply IH. lia.
Qed.

(** The shape of a masked string: stars up to [hidden], the characters
    of [value] from there on. *)
Lemma masked_shape (value : string) (hidden : nat) :
  (hidden <= String.length value)%nat ->
  let out := (stars hidden ++ string_drop hidden value)%string in
  String.length out = String.length value /\
  forall i,
    ((i < hidden)%nat -> String.get i out = Some "*"%char) /\
    ((hidden <= i)%nat -> String.get i out = String.get i value).
Proof.
  intros Hhidden out. subst out. split.
  - rewrite string_length_append, stars_length, string_drop_length. lia.
  - intros i. rewrite get_append, stars_length. split; intros Hi.
    + apply Nat.ltb_lt in Hi as Hlt. rewrite Hlt. now apply get_stars.
    + destruct (Nat.ltb_spec i hidden); [lia|].
      rewrite get_string_drop by exact Hhidden. f_equal. lia.
Qed.

(** X15. [maskValue] never throws.  A value no longer than
    [visibleChars] (the empty one too) becomes ['****'], whatever its
    length; a longer one keeps its length and its last [visibleChars]
    characters, and every character before them is a star. *)
Theorem X15_maskValue_shows_only_the_tail
    (value : string) (visibleChars : Z) :
  0 < visibleChars ->
  (Z.of_nat (String.length value) <= visibleChars ->
   maskValue value visibleChars = Returned "****") /\
  (visibleChars < Z.of_nat (String.length value) ->
   exists out,
     maskValue value visibleChars = Returned out /\
     String.length out = String.length value /\
     forall i,
       ((Z.of_nat i < Z.of_nat (String.length value) - visibleChars) ->
        String.get i out = Some "*"%char) /\
       ((Z.of_nat (String.length value) - visibleChars <= Z.of_nat i) ->
        String.get i out = String.get i value)).
Proof.
  intros Hvis. unfold maskValue. split.
  - intros Hshort. apply Z.leb_le in Hshort. rewrite Hshort, orb_true_r.
    reflexivity.
  - intros Hlong.
    destruct (String.eqb_spec value "") as [->|_]; [cbn in Hlong; lia|].
    destruct (Z.leb_spec (Z.of_nat (String.length value)) visibleChars); [lia|].
    cbn [orb]. unfold repeat_star, slice_from.
    destruct (Z.ltb_spec (Z.of_nat (String.length value) - visibleChars) 0); [lia|].
    destruct (Z.ltb_spec (- visibleChars) 0); [|lia].
    rewrite Z.max_l by lia.
    replace (Z.of_nat (String.length value) + - visibleChars)
      with (Z.of_nat (String.length value) - visibleChars) by lia.
    set (hidden := Z.to_nat (Z.of_nat (String.length value) - visibleChars)).
    destruct (masked_shape value hidden) as (Hlen & Hget); [lia|].
    eexists. split; [reflexivity|]. split; [exact Hlen|].
    intros i. split; intros Hi; apply Hget; lia.
Qed.

Lemma X15_maskValue_shows_only_the_tail_witness :
  maskValue "Unknown" 6 = Returned "*nknown" /\
  maskValue "abc" 6 = Returned "****".
Proof.
  destruct (X15_maskValue_shows_only_the_tail "abc" 6) as (Hshort & _); [lia|].
  split; [reflexivity|]. apply Hshort. cbn. lia.
Defined.

Lemma digits_only_length s : (String.length (digits_only s) <= String.length s)%nat.
Proof.
  induction s as [|c s IH]; cbn; [lia|].
  destruct (is_digit c); cbn; lia.
Qed.

(** X16. [maskPhone] throws a [RangeError] exactly when the phone has
    four characters or more and fewer than four digits among them.  A
    phone shorter than four characters becomes ['****']; one with at
    least four digits becomes its digits with all but the last four
    replaced by stars. *)
Theorem X16_maskPhone_throws_on_few_digits (phone : string) :
  let digits := digits_only phone in
  ((String.length phone < 4)%nat -> maskPhone phone = Returned "****") /\
  ((4 <= String.length phone)%nat -> (String.length digits < 4)%nat ->
   exists message, maskPhone phone = RangeError message) /\
  ((4 <= String.length digits)%nat ->
   exists out,
     maskPhone phone = Returned out /\
     String.length out = String.length digits /\
     forall i,
       ((i < String.length digits - 4)%nat -> String.get i out = Some "*"%char) /\
       ((String.length digits - 4 <= i)%nat ->
        String.get i out = String.get i digits)).
Proof.
  intros digits. subst digits. unfold maskPhone.
  split; [|split].
  - intros Hshort. apply Nat.ltb_lt in Hshort. rewrite Hshort, orb_true_r.
    reflexivity.
  - intros Hlong Hfew.
    destruct (String.eqb_spec phone "") as [->|_]; [cbn in Hlong; lia|].
    destruct (Nat.ltb_spec (String.length phone) 4); [lia|]. cbn [orb].
    unfold repeat_star.
    destruct (Z.ltb_spec (Z.of_nat (String.length (digits_only phone)) - 4) 0);
      [|lia].
    eexists. reflexivity.
  - intros Hdigits.
    pose proof (digits_only_length phone) as Hle.
    destruct (String.eqb_spec phone "") as [->|_]; [cbn in Hdigits; lia|].
    destruct (Nat.ltb_spec (String.length phone) 4); [lia|]. cbn [orb].
    unfold repeat_star, slice_from.
    destruct (Z.ltb_spec (Z.of_nat (String.length (digits_only phone)) - 4) 0);
      [lia|].
    cbn [Z.ltb Z.compare Z.opp]. rewrite Z.max_l by lia.
    replace (Z.to_nat (Z.of_nat (String.length (digits_only phone)) + -4))
      with (String.length (digits_only phone) - 4)%nat by lia.
    replace (Z.to_nat (Z.of_nat (String.length (digits_only phone)) - 4))
      with (String.length (digits_only phone) - 4)%nat by lia.
    destruct (masked_shape (digits_only phone) (String.length (digits_only phone) - 4))
      as (Hlen & Hget); [lia|].
    eexists. split; [reflexivity|]. split; [exact Hlen|]. exact Hget.
Qed.

Lemma X16_maskPhone_throws_on_few_digits_witness :
  (exists message, maskPhone "ext12" = RangeError message) /\
  maskPhone "+1 (555) 123-4567" = Returned "*******4567".
Proof.
  destruct (X16_maskPhone_throws_on_few_digits "ext12") as (_ & Hthrow & _).
  split; [|reflexivity].
  apply Hthrow; vm_compute; lia.
Defined.

Lemma span_letters_append s : forall run rest,
  span_letters s = (run, rest) -> s = (run ++ rest)%string.
Proof.
  induction s as [|c s IH]; intros run rest Hspan; simpl in Hspan.
  - injection Hspan as <- <-. reflexivity.
  - destruct (is_letter c).
    + destruct (span_letters s) as [run' rest'].
      injection Hspan as <- <-. specialize (IH _ _ eq_refl). subst s.
      reflexivity.
    + injection Hspan as <- <-. reflexivity.
Qed.

Lemma string_append_cons x (a b : string) :
  (String x a ++ b)%string = String x (a ++ b).
Proof. reflexivity. Qed.

Lemma string_append_assoc (a b c : string) :
  ((a ++ b) ++ c)%string = (a ++ (b ++ c))%string.
Proof.
  induction a as [|x a IH]; [reflexivity|].
  now rewrite !string_append_cons, IH.
Qed.

Lemma key_prefix_is_a_prefix key :
  exists rest, key = (key_prefix key ++ rest)%string.
Proof.
  unfold key_prefix.
  destruct (span_letters key) as [run1 rest1] eqn:Hspan1.
  apply span_letters_append in Hspan1.
  destruct run1 as [|c1 run1]; [exists key; reflexivity|].
  destruct rest1 as [|u rest1]; [exists key; reflexivity|].
  destruct (Ascii.eqb_spec u "_"%char) as [->|Hne].
  2: { exists key.
       destruct u as [[] [] [] [] [] [] [] []]; try reflexivity.
       contradiction Hne. reflexivity. }
  destruct (span_letters rest1) as [run2 rest2] eqn:Hspan2.
  apply span_letters_append in Hspan2.
  destruct run2 as [|c2 run2]; [exists key; reflexivity|].
  destruct rest2 as [|v rest2]; [exists key; reflexivity|].
  destruct (Ascii.eqb_spec v "_"%char) as [->|Hne].
  2: { exists key.
       destruct v as [[] [] [] [] [] [] [] []]; try reflexivity.
       contradiction Hne. reflexivity. }
  exists rest2. rewrite Hspan1, Hspan2.
  rewrite ?string_append_assoc, ?string_append_cons, ?string_append_assoc.
  reflexivity.
Qed.

Lemma string_drop_append (a b : string) :
  string_drop (String.length a) (a ++ b) = b.
Proof. induction a as [|c a IH]; [reflexivity | exact IH]. Qed.

(** X17. [maskApiKey] never throws.  A key shorter than eight
    characters becomes ['****'].  Otherwise the provider prefix (the
    text matched by [letters_letters_] at the start, if any) is kept;
    when more than four characters follow it, the masked key has the
    length of the key, shows the prefix and the last four characters,
    and has a star everywhere between; when four or fewer follow, they
    are replaced by ['****']. *)
Theorem X17_maskApiKey_shows_prefix_and_tail (key : string) :
  let prefix := key_prefix key in
  let len := String.length key in
  let p := String.length prefix in
  ((len < 8)%nat -> maskApiKey key = Returned "****") /\
  ((8 <= len)%nat ->
   (p <= len)%nat /\
   ((len - p <= 4)%nat -> maskApiKey key = Returned (prefix ++ "****")) /\
   ((4 < len - p)%nat ->
    exists out,
      maskApiKey key = Returned out /\
      String.length out = len /\
      forall i,
        ((i < p)%nat -> String.get i out = String.get i key) /\
        ((p <= i)%nat -> (i < len - 4)%nat -> String.get i out = Some "*"%char) /\
        ((len - 4 <= i)%nat -> String.get i out = String.get i key))).
Proof.
  intros prefix len p. subst prefix len p. unfold maskApiKey. split.
  - intros Hshort. apply Nat.ltb_lt in Hshort. now rewrite Hshort, orb_true_r.
  - intros Hlong.
    destruct (String.eqb_spec key "") as [->|_]; [cbn in Hlong; lia|].
    destruct (Nat.ltb_spec (String.length key) 8); [lia|]. cbn [orb].
    destruct (key_prefix_is_a_prefix key) as (rest & Hkey).
    set (prefix := key_prefix key) in *.
    assert (Hlen : String.length key = (String.length prefix + String.length rest)%nat).
    { rewrite Hkey at 1. apply string_length_append. }
    assert (Hremaining : slice_from key (Z.of_nat (String.length prefix)) = rest).
    { unfold slice_from.
      destruct (Z.ltb_spec (Z.of_nat (String.length prefix)) 0); [lia|].
      rewrite Z.min_l by lia. rewrite Nat2Z.id.
      rewrite Hkey at 1. apply string_drop_append. }
    rewrite Hremaining.
    split; [lia|]. split.
    + intros Hfew. destruct (Nat.leb_spec (String.length rest) 4); [reflexivity | lia].
    + intros Hmany. destruct (Nat.leb_spec (String.length rest) 4); [lia|].
      unfold repeat_star, slice_from.
      destruct (Z.ltb_spec (Z.of_nat (String.length rest) - 4) 0); [lia|].
      cbn [Z.ltb Z.compare Z.opp]. rewrite Z.max_l by lia.
      replace (Z.to_nat (Z.of_nat (String.length rest) + -4))
        with (String.length rest - 4)%nat by lia.
      replace (Z.to_nat (Z.of_nat (String.length rest) - 4))
        with (String.length rest - 4)%nat by lia.
      destruct (masked_shape rest (String.length rest - 4)) as (Hshape & Hget); [lia|].
      eexists. split; [reflexivity|]. split.
      * rewrite string_length_append, Hshape. lia.
      * intros i.
        assert (Hk : String.get i key
                     = if (i <? String.length prefix)%nat then String.get i prefix
                       else String.get (i - String.length prefix) rest).
        { rewrite Hkey at 1. apply get_append. }
        rewrite get_append, Hk.
        destruct (Nat.ltb_spec i (String.length prefix)) as [Hin|Hout].
        { split; [reflexivity|]. split; intros; lia. }
        split; [lia|]. split.
        { intros _ Hi. apply Hget. lia. }
        { intros Hi. apply Hget. lia. }
Qed.

Lemma X17_maskApiKey_shows_prefix_and_tail_witness :
  maskApiKey "sk_live_ab" = Returned "sk_live_****" /\
  maskApiKey "short" = Returned "****".
Proof.
  destruct (X17_maskApiKey_shows_prefix_and_tail "sk_live_ab") as (_ & Hlong).
  destruct (X17_maskApiKey_shows_prefix_and_tail "short") as (Hshort & _).
  split.
  - destruct Hlong as (_ & Hfew & _); [vm_compute; lia|].
    apply Hfew. vm_compute. lia.
  - apply Hshort. vm_compute. lia.
Defined.

(** *** Pagination *)







(** Beyond [2 ^ 53] the offset is not the exact product: page
    [2 ^ 53] with seven rows a page gives an offset one short of
    [(2 ^ 53 - 1) * 7]. *)
Example offset_is_rounded :
  pq_params (buildPaginatedQuery "SELECT 1"
               {| po_page := Some (2 ^ 53); po_limit := Some 7;
                  po_orderBy := None; po_orderDirection := None |} [])
  = [Computed (Finite 7); Computed (Finite 63050394783186936)] /\
  (2 ^ 53 - 1) * 7 = 63050394783186937.
Proof. split; vm_compute; reflexivity. Qed.

(** *** Lead scoring *)

Lemma Forall2_map_self {A} (f : A -> A) (l : list A) :
  Forall2 (fun x y => y = f x) l (map f l).
Proof. induction l as [|x l IH]; cbn; constructor; [reflexivity | exact IH]. Qed.

Lemma max_created_at_bound (l : list LeadMessage) (bound t : Z) :
  max_created_at l = Some t ->
  (forall m, In m l -> lm_created_at m <= bound) ->
  t <= bound.
Proof.
  revert t. induction l as [|m rest IH]; intros t Hmax Hall; [discriminate|].
  cbn in Hmax.
  assert (Hm : lm_created_at m <= bound) by (apply Hall; now left).
  destruct (max_created_at rest) as [t'|].
  - injection Hmax as <-.
    assert (t' <= bound) by (apply IH; [reflexivity | intros; apply Hall; now right]).
    lia.
  - injection Hmax as <-. exact Hm.
Qed.

(** X19. When [scoreLead] returns, the total is the sum of its three
    parts and never exceeds 100: the behaviour part is five points per
    message of the lead, capped at 40, the engagement part is at most
    35 and the demographic part is 25.  If no message of the lead is
    dated after [now], the engagement part is not negative and the
    total is at least 25.  The total is stored on the leads with that
    id and tenant and on no other lead. *)
Theorem X19_scoreLead_total_is_at_most_100
    (scoring_rejects : ScoringCall -> ScoringDb -> option string)
    (now : Z) (leadId tenantId : string) (db : ScoringDb)
    (score : LeadScore) (db' : ScoringDb) :
  scoreLead scoring_rejects now leadId tenantId db = (inr score, db') ->
  ls_total score = ls_behavior score + ls_engagement score + ls_demographic score /\
  ls_behavior score
    = Z.min 40 (5 * Z.of_nat (length (messages_of_lead leadId db))) /\
  ls_engagement score <= 35 /\
  ls_demographic score = 25 /\
  ls_total score <= 100 /\
  ((forall m, In m (sd_messages db) -> lm_lead_id m = leadId ->
              lm_created_at m <= now) ->
   0 <= ls_engagement score /\ 25 <= ls_total score) /\
  Forall2 (fun r r' =>
             lead_id r' = lead_id r /\ lead_tenant_id r' = lead_tenant_id r /\
             lead_score_total r'
               = if String.eqb (lead_id r) leadId
                    && String.eqb (lead_tenant_id r) tenantId
                 then ls_total score else lead_score_total r)
          (sd_leads db) (sd_leads db').
Proof.
  unfold scoreLead.
  destruct (scoring_rejects (ScoringSelectActivity leadId) db); [discriminate|].
  set (count := Z.of_nat (length (messages_of_lead leadId db))).
  assert (Hbehavior : number_or (Some count) 0 * 5 = 5 * count).
  { unfold number_or. destruct (Z.eqb_spec count 0); lia. }
  rewrite Hbehavior.
  destruct (scoring_rejects _ db); [discriminate|].
  intros Hrun. injection Hrun as <- <-. cbn.
  assert (Hcount : 0 <= count) by (subst count; lia).
  split; [reflexivity|]. split; [reflexivity|].
  assert (Hengagement :
    match max_created_at (messages_of_lead leadId db) with
    | Some t => Z.min 35 ((now - t) / (1000 * 60 * 60 * 24) * 5)
    | None => 0
    end <= 35).
  { destruct (max_created_at _); lia. }
  split; [exact Hengagement|]. split; [reflexivity|]. split; [lia|]. split.
  - intros Hpast.
    assert (Hnonneg :
      0 <= match max_created_at (messages_of_lead leadId db) with
           | Some t => Z.min 35 ((now - t) / (1000 * 60 * 60 * 24) * 5)
           | None => 0
           end).
    { destruct (max_created_at (messages_of_lead leadId db)) as [t|] eqn:Hmax;
        [|lia].
      assert (t <= now).
      { apply (max_created_at_bound _ now t Hmax). intros m Hin.
        unfold messages_of_lead in Hin. apply filter_In in Hin as (Hin & Hlead).
        apply String.eqb_eq in Hlead. now apply Hpast. }
      assert (0 <= (now - t) / (1000 * 60 * 60 * 24))
        by (apply Z.div_pos; lia).
      lia. }
    lia.
  - eapply Forall2_impl; [apply Forall2_map_self|].
    intros r r' ->. cbn.
    destruct (String.eqb (lead_id r) leadId && String.eqb (lead_tenant_id r) tenantId);
      cbn; repeat split.
Qed.

Lemma X19_scoreLead_total_is_at_most_100_witness :
  exists score db',
    scoreLead (fun _ _ => None) 1700000000000 "lead-1" "tenant-1" sample_scoring_db
      = (inr score, db') /\
    ls_total score <= 100.
Proof.
  assert (Hrun : exists score db',
    scoreLead (fun _ _ => None) 1700000000000 "lead-1" "tenant-1" sample_scoring_db
      = (inr score, db'))
    by (eexists; eexists; reflexivity).
  destruct Hrun as (score & db' & Hrun). exists score, db'.
  split; [exact Hrun|].
  exact (proj1 (proj2 (proj2 (proj2 (proj2
           (X19_scoreLead_total_is_at_most_100 (fun _ _ => None) 1700000000000
              "lead-1" "tenant-1" sample_scoring_db score db' Hrun)))))).
Defined.

(** X20. The engagement part of the score grows with silence: for the
    same tables, scoring a lead later never gives a lower engagement
    part or a lower total, and the behaviour part is the same.  A lead
    whose last message is less than a day old gets no engagement
    points. *)
Theorem X20_scoreLead_rewards_silence
    (scoring_rejects : ScoringCall -> ScoringDb -> option string)
    (now1 now2 : Z) (leadId tenantId : string) (db : ScoringDb)
    (score1 score2 : LeadScore) (db1 db2 : ScoringDb) :
  now1 <= now2 ->
  scoreLead scoring_rejects now1 leadId tenantId db = (inr score1, db1) ->
  scoreLead scoring_rejects now2 leadId tenantId db = (inr score2, db2) ->
  ls_behavior score1 = ls_behavior score2 /\
  ls_engagement score1 <= ls_engagement score2 /\
  ls_total score1 <= ls_total score2 /\
  (forall t, max_created_at (messages_of_lead leadId db) = Some t ->
             0 <= now1 - t < 1000 * 60 * 60 * 24 ->
             ls_engagement score1 = 0).
Proof.
  intros Hlater. unfold scoreLead.
  destruct (scoring_rejects (ScoringSelectActivity leadId) db); [discriminate|].
  destruct (scoring_rejects (ScoringUpdateScore _ leadId tenantId) db);
    [discriminate|].
  destruct (scoring_rejects (ScoringUpdateScore _ leadId tenantId) db);
    [discriminate|].
  intros H1 H2. injection H1 as <- _. injection H2 as <- _. cbn.
  assert (Hmono :
    match max_created_at (messages_of_lead leadId db) with
    | Some t => Z.min 35 ((now1 - t) / (1000 * 60 * 60 * 24) * 5)
    | None => 0
    end
    <= match max_created_at (messages_of_lead leadId db) with
       | Some t => Z.min 35 ((now2 - t) / (1000 * 60 * 60 * 24) * 5)
       | None => 0
       end).
  { destruct (max_created_at _) as [t|]; [|lia].
    assert ((now1 - t) / (1000 * 60 * 60 * 24) <= (now2 - t) / (1000 * 60 * 60 * 24))
      by (apply Z.div_le_mono; lia).
    lia. }
  split; [reflexivity|]. split; [exact Hmono|]. split; [lia|].
  intros t -> Hfresh. rewrite Z.div_small by lia. reflexivity.
Qed.

Lemma X20_scoreLead_rewards_silence_witness :
  exists score1 score2 db1 db2,
    scoreLead (fun _ _ => None) 1700000000000 "lead-1" "tenant-1" sample_scoring_db
      = (inr score1, db1) /\
    scoreLead (fun _ _ => None) 1700600000000 "lead-1" "tenant-1" sample_scoring_db
      = (inr score2, db2) /\
    ls_engagement score1 <= ls_engagement score2 /\
    ls_total score1 <= ls_total score2.
Proof.
  assert (Hrun1 : exists score db',
    scoreLead (fun _ _ => None) 1700000000000 "lead-1" "tenant-1" sample_scoring_db
      = (inr score, db'))
    by (eexists; eexists; reflexivity).
  assert (Hrun2 : exists score db',
    scoreLead (fun _ _ => None) 1700600000000 "lead-1" "tenant-1" sample_scoring_db
      = (inr score, db'))
    by (eexists; eexists; reflexivity).
  destruct Hrun1 as (score1 & db1 & Hrun1). destruct Hrun2 as (score2 & db2 & Hrun2).
  exists score1, score2, db1, db2.
  split; [exact Hrun1|]. split; [exact Hrun2|].
  assert (Hlater : 1700000000000 <= 1700600000000) by lia.
  destruct (X20_scoreLead_rewards_silence (fun _ _ => None)
              1700000000000 1700600000000 "lead-1" "tenant-1" sample_scoring_db
              score1 score2 db1 db2 Hlater Hrun1 Hrun2)
    as (_ & Hengagement & Htotal & _).
  split; assumption.
Defined.

(** *** The message worker *)



(** X22. What a webhook node of a workflow puts on the [messages]
    queue is a job without a [channel]: when the message worker takes
    it, it throws ['Unsupported channel: undefined'], sends and
    broadcasts nothing and marks no message (the job has no
    [messageId]). *)
Theorem X22_webhook_jobs_fail_in_the_message_worker
    (StringToNumber : string -> option Z)
    (rejects : Call -> World -> option string)
    (messaging_rejects : MessagingCall -> Messaging -> option string)
    (node : Node) (tenantId : string) (leadId : option string)
    (context : JsVal) (fs : list (string * JsVal)) (w : World) (st : Messaging) :
  type node = "webhook" ->
  data node = JObj fs ->
  (forall jobName payload w0,
     rejects (CallQueueAdd "messages" jobName payload) w0 = None) ->
  (forall c st0, messaging_rejects c st0 = None) ->
  exists job w' st',
    executeNode StringToNumber rejects node tenantId leadId context w
      = Ok (JObj [("webhookSent", JBool true)]) w' /\
    jobs w' = (jobs w ++ [job])%list /\
    job_queue job = "messages" /\
    message_worker messaging_rejects (job_data job) st
      = (inl "Unsupported channel: undefined", st') /\
    ms_rows st' = ms_rows st /\
    ms_broadcasts st' = ms_broadcasts st.
Proof.
  intros Htype Hdata Hqueue Hup.
  unfold executeNode. rewrite Htype, Hdata. run_monad. rewrite Hqueue. run_monad.
  eexists. eexists. eexists. split; [reflexivity|]. cbn.
  split; [reflexivity|]. split; [reflexivity|].
  unfold message_worker, send_attempt. cbn. rewrite !Hup. cbn. rewrite ?Hup.
  split; [reflexivity|]. cbn. split; [|reflexivity].
  rewrite map_map. rewrite <- (map_id (ms_rows st)) at 2.
  apply map_ext. reflexivity.
Qed.

Lemma X22_webhook_jobs_fail_in_the_message_worker_witness :
  exists job w' st',
    executeNode no_numeric_strings reliable
                {| id := "n10"; type := "webhook";
                   data := JObj [("url", JStr "https://example.com/hook")] |}
                "tenant-1" (Some "lead-1") (JObj []) (sample_world [])
      = Ok (JObj [("webhookSent", JBool true)]) w' /\
    jobs w' = (jobs (sample_world []) ++ [job])%list /\
    job_queue job = "messages" /\
    message_worker (fun _ _ => None) (job_data job)
                   {| ms_clock := 0; ms_rows := []; ms_broadcasts := []; ms_log := [] |}
      = (inl "Unsupported channel: undefined", st') /\
    ms_rows st' = [] /\
    ms_broadcasts st' = [].
Proof.
  apply (X22_webhook_jobs_fail_in_the_message_worker no_numeric_strings reliable
           (fun _ _ => None)
           {| id := "n10"; type := "webhook";
              data := JObj [("url", JStr "https://example.com/hook")] |}
           "tenant-1" (Some "lead-1") (JObj [])
           [("url", JStr "https://example.com/hook")] (sample_world [])
           {| ms_clock := 0; ms_rows := []; ms_broadcasts := []; ms_log := [] |}).
  - reflexivity.
  - reflexivity.
  - reflexivity.
  - reflexivity.
Defined.

(** X23. A job on a supported channel, with the database reachable,
    returns [{ success: true }]; the message rows with the job's
    [messageId] end ['sent'] with [sent_at] set to the time of the
    send, every other row is untouched, and exactly one
    ['message:status'] broadcast is made, to the job's tenant. *)
Theorem X23_supported_channel_marks_the_message_sent
    (messaging_rejects : MessagingCall -> Messaging -> option string)
    (fs : list (string * JsVal)) (line : string) (st : Messaging) :
  (forall c st0, messaging_rejects c st0 = None) ->
  sender_line (assoc_get "channel" fs) = Some line ->
  exists st',
    message_worker messaging_rejects (JObj fs) st
      = (inr (JObj [("success", JBool true)]), st') /\
    ms_broadcasts st'
      = (ms_broadcasts st
         ++ [{| b_tenantId := assoc_get "tenantId" fs;
                b_event := "message:status";
                b_payload := JObj [("messageId", assoc_get "messageId" fs);
                                   ("status", JStr "sent")] |}])%list /\
    Forall2 (fun r r' =>
               if is_message (assoc_get "messageId" fs) r
               then m_id r' = m_id r /\ m_status r' = "sent" /\
                    m_sent_at r' = Some (ms_clock st) /\
                    m_fail_reason r' = m_fail_reason r
               else r' = r)
            (ms_rows st) (ms_rows st').
Proof.
  intros Hup Hchannel.
  unfold message_worker, send_attempt. rewrite !Hup, Hchannel, ?Hup.
  eexists. split; [reflexivity|]. cbn. split; [reflexivity|].
  rewrite map_map.
  eapply Forall2_impl; [apply Forall2_map_self|].
  intros r r' ->. cbn.
  destruct (is_message (assoc_get "messageId" fs) r) eqn:His.
  - cbn. assert (Hsame : is_message (assoc_get "messageId" fs)
                           {| m_id := m_id r; m_status := "sending";
                              m_fail_reason := m_fail_reason r;
                              m_sent_at := m_sent_at r |} = true) by exact His.
    rewrite Hsame. cbn. repeat split.
  - rewrite His. reflexivity.
Qed.

Lemma X23_supported_channel_marks_the_message_sent_witness :
  exists st',
    message_worker (fun _ _ => None)
                   (JObj [("messageId", JStr "m-1"); ("tenantId", JStr "tenant-1");
                          ("channel", JStr "sms")])
                   {| ms_clock := 42;
                      ms_rows := [{| m_id := "m-1"; m_status := "pending";
                                     m_fail_reason := None; m_sent_at := None |}];
                      ms_broadcasts := []; ms_log := [] |}
      = (inr (JObj [("success", JBool true)]), st') /\
    length (ms_broadcasts st') = 1%nat.
Proof.
  destruct (X23_supported_channel_marks_the_message_sent (fun _ _ => None)
              [("messageId", JStr "m-1"); ("tenantId", JStr "tenant-1");
               ("channel", JStr "sms")]
              "Sending SMS"
              {| ms_clock := 42;
                 ms_rows := [{| m_id := "m-1"; m_status := "pending";
                                m_fail_reason := None; m_sent_at := None |}];
                 ms_broadcasts := []; ms_log := [] |})
    as (st' & Hrun & Hbroadcasts & _).
  - reflexivity.
  - reflexivity.
  - exists st'. split; [exact Hrun|]. rewrite Hbroadcasts. reflexivity.
Defined.

(** *** [maskEmail] and [validateConfig] *)

Lemma includes_char_append (c : ascii) (a b : string) :
  includes_char c (a ++ b) = includes_char c a || includes_char c b.
Proof.
  induction a as [|x a IH]; [reflexivity|].
  change (String x a ++ b) with (String x (a ++ b)).
  cbn [includes_char]. rewrite IH. apply orb_assoc.
Qed.

Lemma split_on_ne_nil (c : ascii) (s : string) : split_on c s <> [].
Proof.
  induction s as [|x s IH]; cbn [split_on]; [discriminate|].
  destruct (Ascii.eqb x c); [discriminate|].
  destruct (split_on c s); discriminate.
Qed.

Lemma split_on_absent (c : ascii) (s : string) :
  includes_char c s = false -> split_on c s = [s].
Proof.
  induction s as [|x s IH]; [reflexivity|].
  cbn [includes_char split_on]. intros H.
  apply orb_false_iff in H as [Hx Hs].
  rewrite Hx, (IH Hs). reflexivity.
Qed.

Lemma split_on_first (c : ascii) (a b : string) :
  includes_char c a = false ->
  split_on c (a ++ String c b) = a :: split_on c b.
Proof.
  induction a as [|x a IH]; intros H.
  - change ("" ++ String c b) with (String c b).
    cbn [split_on]. rewrite Ascii.eqb_refl. reflexivity.
  - change (String x a ++ String c b) with (String x (a ++ String c b)).
    cbn [includes_char] in H. apply orb_false_iff in H as [Hx Ha].
    cbn [split_on]. rewrite Hx, (IH Ha). reflexivity.
Qed.

Lemma join_split_on (c : ascii) (s : string) :
  join (String c "") (split_on c s) = s.
Proof.
  induction s as [|x s IH]; [reflexivity|].
  cbn [split_on]. destruct (Ascii.eqb x c) eqn:Hx.
  - apply Ascii.eqb_eq in Hx. subst x.
    pose proof (split_on_ne_nil c s) as Hne.
    destruct (split_on c s) as [|p rest] eqn:Hs; [congruence|].
    change (join (String c "") ("" :: p :: rest))
      with ("" ++ String c "" ++ join (String c "") (p :: rest)).
    rewrite IH. reflexivity.
  - pose proof (split_on_ne_nil c s) as Hne.
    destruct (split_on c s) as [|p rest] eqn:Hs; [congruence|].
    destruct rest as [|q rest].
    + cbn [join] in *. subst p. reflexivity.
    + change (join (String c "") (String x p :: q :: rest))
        with (String x p ++ String c "" ++ join (String c "") (q :: rest)).
      change (join (String c "") (p :: q :: rest))
        with (p ++ String c "" ++ join (String c "") (q :: rest)) in IH.
      rewrite <- IH. reflexivity.
Qed.

Lemma mask_middle_returns (part : string) :
  exists masked,
    mask_middle part = Returned masked /\
    String.length masked = String.length part /\
    forall i, (0 < i)%nat -> (S i < String.length part)%nat ->
              String.get i masked = Some "*"%char.
Proof.
  unfold mask_middle.
  destruct (2 <? String.length part)%nat eqn:Hlong.
  - apply Nat.ltb_lt in Hlong.
    unfold repeat_star.
    destruct (Z.of_nat (String.length part) - 2 <? 0) eqn:Hneg;
      [apply Z.ltb_lt in Hneg; lia|].
    replace (Z.to_nat (Z.of_nat (String.length part) - 2))
      with (String.length part - 2)%nat by lia.
    eexists. split; [reflexivity|].
    destruct part as [|c part]; [cbn in Hlong; lia|].
    assert (Hslice : String.length (slice_from (String c part) (-1)) = 1%nat).
    { unfold slice_from. rewrite string_drop_length.
      cbn [Z.ltb Z.compare]. cbn [String.length] in *. lia. }
    split.
    + rewrite !string_length_append, stars_length, Hslice.
      cbn [String.length] in *. lia.
    + intros i Hi Hlt.
      destruct i as [|i]; [lia|].
      change (String c "" ++ stars (String.length (String c part) - 2)
              ++ slice_from (String c part) (-1))
        with (String c (stars (String.length (String c part) - 2)
                        ++ slice_from (String c part) (-1))).
      cbn [String.get].
      rewrite get_append, stars_length.
      cbn [String.length] in *.
      destruct (i <? S (String.length part) - 2)%nat eqn:Hin;
        [|apply Nat.ltb_ge in Hin; lia].
      apply get_stars. apply Nat.ltb_lt in Hin. exact Hin.
  - apply Nat.ltb_ge in Hlong.
    unfold repeat_star.
    destruct (Z.of_nat (String.length part) <? 0) eqn:Hneg;
      [apply Z.ltb_lt in Hneg; lia|].
    rewrite Nat2Z.id.
    eexists. split; [reflexivity|]. split; [apply stars_length|].
    intros i Hi Hlt. lia.
Qed.

Lemma string_or_nonempty (s : option string) (d : string) :
  d <> "" -> string_or s d <> "".
Proof.
  intros Hd. unfold string_or. destruct s as [v|]; [|exact Hd].
  destruct (String.eqb v "") eqn:Hv; [exact Hd|].
  apply String.eqb_neq in Hv. exact Hv.
Qed.

Lemma truthy_env_or (env : string -> option string) (name default : string) :
  default <> "" -> truthy (env_or env name default) = true.
Proof.
  intros Hd. unfold env_or. cbn [truthy].
  pose proof (string_or_nonempty (env name) default Hd) as Hne.
  destruct (string_or (env name) default) eqn:Hs; [congruence|reflexivity].
Qed.

Lemma env_or_never_reported (env : string -> option string) (name default : string) :
  default <> "" -> default <> placeholder_secret ->
  env name <> Some placeholder_secret ->
  negb (truthy (env_or env name default))
  || match env_or env name default with
     | JStr s => String.eqb s placeholder_secret
     | _ => false
     end = false.
Proof.
  intros Hd Hp Henv. rewrite truthy_env_or by exact Hd.
  unfold env_or. cbn [negb orb].
  apply String.eqb_neq. unfold string_or.
  destruct (env name) as [v|]; [|exact Hp].
  destruct (String.eqb v ""); [exact Hp|].
  intros ->. apply Henv. reflexivity.
Qed.

(** X24. For an address [local@name.tld] (no ['@'] but the one shown,
    no ['.'] in [name]), [maskEmail] returns [l@n.tld]: the top-level
    domain is shown in full, [l] and [n] have the lengths of [local] and
    [name], and every character of them but the first and the last is a
    star. *)
Theorem X24_maskEmail_keeps_the_top_level_domain (local name tld : string) :
  includes_char "@" local = false ->
  includes_char "@" name = false ->
  includes_char "." name = false ->
  includes_char "@" tld = false ->
  exists l n,
    maskEmail (local ++ "@" ++ name ++ "." ++ tld)
    = Returned (l ++ "@" ++ n ++ "." ++ tld) /\
    String.length l = String.length local /\
    String.length n = String.length name /\
    (forall i, (0 < i)%nat -> (S i < String.length local)%nat ->
               String.get i l = Some "*"%char) /\
    (forall i, (0 < i)%nat -> (S i < String.length name)%nat ->
               String.get i n = Some "*"%char).
Proof.
  intros Hlocal Hname Hdot Htld.
  destruct (mask_middle_returns local) as (l & Hl & Hllen & Hlstars).
  destruct (mask_middle_returns name) as (n & Hn & Hnlen & Hnstars).
  exists l, n. repeat split; try assumption.
  unfold maskEmail.
  assert (Hat : includes_char "@" (local ++ "@" ++ name ++ "." ++ tld) = true).
  { rewrite includes_char_append.
    change ("@" ++ name ++ "." ++ tld) with (String "@" (name ++ "." ++ tld)).
    cbn [includes_char]. rewrite Ascii.eqb_refl. cbn [orb]. apply orb_true_r. }
  assert (Hne : String.eqb (local ++ "@" ++ name ++ "." ++ tld) "" = false).
  { apply String.eqb_neq. intros Heq. rewrite Heq in Hat. discriminate. }
  rewrite Hne, Hat. cbn [negb orb].
  change ("@" ++ name ++ "." ++ tld) with (String "@" (name ++ "." ++ tld)).
  rewrite (split_on_first "@" local (name ++ "." ++ tld) Hlocal).
  assert (Hdomain : includes_char "@" (name ++ "." ++ tld) = false).
  { rewrite includes_char_append, Hname.
    change ("." ++ tld) with (String "." tld).
    cbn [includes_char orb]. rewrite Htld. reflexivity. }
  rewrite (split_on_absent "@" _ Hdomain).
  cbn [nth]. rewrite Hl.
  change ("." ++ tld) with (String "." tld).
  rewrite (split_on_first "." name tld Hdot).
  cbn [nth tl]. rewrite Hn.
  rewrite (join_split_on "." tld). reflexivity.
Qed.

Lemma X24_maskEmail_keeps_the_top_level_domain_witness :
  exists l n,
    maskEmail "john.doe@example.co.uk" = Returned (l ++ "@" ++ n ++ "." ++ "co.uk") /\
    String.length l = 8%nat /\ String.length n = 7%nat.
Proof.
  destruct (X24_maskEmail_keeps_the_top_level_domain "john.doe" "example" "co.uk")
    as (l & n & H & Hl & Hn & _); try reflexivity.
  exists l, n. repeat split; assumption.
Defined.

(** X25. [maskEmail] returns for every input: unlike [maskPhone], none
    of its [repeat] counts can be negative. *)
Theorem X25_maskEmail_never_throws (email : string) :
  exists masked, maskEmail email = Returned masked.
Proof.
  unfold maskEmail.
  destruct (String.eqb email "" || negb (includes_char "@" email));
    [eexists; reflexivity|].
  destruct (mask_middle_returns (nth 0 (split_on "@" email) "")) as (l & Hl & _).
  rewrite Hl.
  destruct (mask_middle_returns
              (nth 0 (split_on "." (nth 1 (split_on "@" email) "")) ""))
    as (n & Hn & _).
  rewrite Hn. eexists; reflexivity.
Qed.

(** X26. Unless one of the database or Redis variables is set to the
    placeholder text itself, [validateConfig] reports at most
    [jwtSecret], and reports it exactly when [JWT_SECRET] is unset,
    empty or the placeholder: the other five required keys all have a
    non-empty default, so an unset or empty one is never reported. *)
Theorem X26_validateConfig_reports_only_the_secret (env : string -> option string) :
  (forall name, In name other_required_variables ->
                env name <> Some placeholder_secret) ->
  validateConfig env = if jwt_secret_is_default env then ["jwtSecret"] else [].
Proof.
  intros Hother.
  unfold validateConfig, required_keys. cbn [List.filter].
  change (config_value (config env) "jwtSecret")
    with (env_or env "JWT_SECRET" placeholder_secret).
  change (config_value (config env) "database.host")
    with (env_or env "DB_HOST" "localhost").
  change (config_value (config env) "database.name")
    with (env_or env "DB_NAME" "beecastly").
  change (config_value (config env) "database.user")
    with (env_or env "DB_USER" "postgres").
  change (config_value (config env) "database.password")
    with (env_or env "DB_PASSWORD" "postgres").
  change (config_value (config env) "redis.host")
    with (env_or env "REDIS_HOST" "localhost").
  rewrite (env_or_never_reported env "DB_HOST" "localhost"),
    (env_or_never_reported env "DB_NAME" "beecastly"),
    (env_or_never_reported env "DB_USER" "postgres"),
    (env_or_never_reported env "DB_PASSWORD" "postgres"),
    (env_or_never_reported env "REDIS_HOST" "localhost");
    try discriminate; try (apply Hother; cbn; tauto).
  rewrite truthy_env_or by discriminate.
  unfold env_or, string_or, jwt_secret_is_default. cbn [negb orb].
  destruct (env "JWT_SECRET") as [s|]; [|reflexivity].
  destruct (String.eqb s "") eqn:Hs; [reflexivity|].
  cbn [orb]. reflexivity.
Qed.

Lemma X26_validateConfig_reports_only_the_secret_witness :
  validateConfig sample_env = [].
Proof.
  refine (X26_validateConfig_reports_only_the_secret sample_env _).
  intros name Hin. cbn in Hin.
  destruct Hin as [<-|[<-|[<-|[<-|[<-|[]]]]]]; discriminate.
Defined.

(** *** What a pass queues and writes *)

Section Effects.

Variable StringToNumber : string -> option Z.
Variable rejects : Call -> World -> option string.

Ltac run_cases :=
  repeat first
    [ progress run_monad
    | match goal with
      | |- context [match assoc_get ?k ?fs with _ => _ end] =>
          destruct (assoc_get k fs)
      | |- context [rejects ?c ?w0] => destruct (rejects c w0)
      end ].

Lemma executeNode_effects node tenantId leadId context w :
  match executeNode StringToNumber rejects node tenantId leadId context w with
  | Ok r w' => node_effects r w w'
  | _ => True
  end.
Proof.
  unfold executeNode.
  destruct (node_kind (type node)); destruct (data node);
    run_cases; try exact I;
    unfold node_effects; cbn;
    try match goal with
        | |- context [assoc_get "condition" ?fs] =>
            destruct (assoc_get "condition" fs) as [| |[|]| | |]; cbn
        end;
    (split; [first [reflexivity | eexists; split; reflexivity]
            |first [reflexivity | eexists; reflexivity]]).
Qed.

Lemma count_reports_snoc names results e :
  count_reports names (results ++ [e])
  = (count_reports names results + if reports names (result e) then 1 else 0)%nat.
Proof.
  unfold count_reports. rewrite List.filter_app, length_app. cbn [List.filter].
  destruct (reports names (result e)); reflexivity.
Qed.

Lemma bfs_effects nodes edges tenantId leadId context fuel :
  forall queue executedNodes results w res w',
  bfs StringToNumber rejects fuel nodes edges tenantId leadId context
      queue executedNodes results w = Ok res w' ->
  exists js ss,
    jobs w' = (jobs w ++ js)%list /\
    issued w' = (issued w ++ ss)%list /\
    Forall (fun j => job_queue j = "messages") js /\
    (count_reports sending_reports results + length js
     = count_reports sending_reports res)%nat /\
    (count_reports writing_reports results + length ss
     = count_reports writing_reports res)%nat.
Proof.
  induction fuel as [|fuel IH]; intros queue executedNodes results w res w' Hrun.
  - destruct queue; [|discriminate].
    rewrite bfs_nil in Hrun. injection Hrun as <- <-.
    exists [], []. rewrite !app_nil_r. cbn. repeat split; auto.
  - destruct queue as [|nodeId queue].
    { rewrite bfs_nil in Hrun. injection Hrun as <- <-.
      exists [], []. rewrite !app_nil_r. cbn. repeat split; auto. }
    rewrite bfs_step in Hrun.
    destruct (decide (nodeId ∈ executedNodes)) as [Hin|Hnew];
      [exact (IH _ _ _ _ _ _ Hrun)|].
    destruct (find_node nodes nodeId) as [node|] eqn:Hfind;
      [|exact (IH _ _ _ _ _ _ Hrun)].
    pose proof (executeNode_effects node tenantId leadId context w) as Hnode.
    destruct (executeNode _ _ node tenantId leadId context w) as [r w1|e w1|];
      [|discriminate|discriminate].
    destruct (IH _ _ _ _ _ _ Hrun) as (js & ss & Hjobs & Hissued & Hqueue & Hsent & Hwritten).
    rewrite count_reports_snoc in Hsent, Hwritten. cbn [result] in Hsent, Hwritten.
    destruct Hnode as [Hj Hs].
    assert (Hjs : exists js1, jobs w1 = (jobs w ++ js1)%list /\
                    Forall (fun j => job_queue j = "messages") js1 /\
                    length js1 = if reports sending_reports r then 1%nat else 0%nat).
    { destruct (reports sending_reports r).
      - destruct Hj as (job & Hj & Hq). exists [job]. repeat split; auto.
      - exists []. rewrite app_nil_r. repeat split; auto. }
    assert (Hss : exists ss1, issued w1 = (issued w ++ ss1)%list /\
                    length ss1 = if reports writing_reports r then 1%nat else 0%nat).
    { destruct (reports writing_reports r).
      - destruct Hs as (statement & Hs). exists [statement]. split; auto.
      - exists []. rewrite app_nil_r. split; auto. }
    destruct Hjs as (js1 & Hjobs1 & Hqueue1 & Hlen1).
    destruct Hss as (ss1 & Hissued1 & Hlens1).
    exists (js1 ++ js)%list, (ss1 ++ ss)%list.
    rewrite Hjobs, Hjobs1, Hissued, Hissued1, <- !app_assoc, !length_app.
    repeat split; [apply Forall_app; split; assumption | lia | lia].
Qed.

End Effects.

(** X27. What a returning pass has put on the queues and written is
    what its results report: it has added one job per result that
    reports [sent] or [webhookSent], all of them on the [messages]
    queue, and issued one statement per result that reports [tagged],
    [untagged], [updated] or [created]; the jobs and statements that
    were there before are kept, in front. *)
Theorem X27_pass_effects_match_its_results
    (StringToNumber : string -> option Z)
    (rejects : Call -> World -> option string)
    (fuel : nat) (nodes : list Node) (edges : list Edge) (executionId : nat)
    (tenantId : string) (leadId : option string) (context : JsVal)
    (w : World) (results : list ResultEntry) (w' : World) :
  executeNodes StringToNumber rejects fuel nodes edges executionId
               tenantId leadId context w = Ok results w' ->
  exists js ss,
    jobs w' = (jobs w ++ js)%list /\
    issued w' = (issued w ++ ss)%list /\
    Forall (fun j => job_queue j = "messages") js /\
    length js = count_reports sending_reports results /\
    length ss = count_reports writing_reports results.
Proof.
  unfold executeNodes. intros Hrun.
  destruct (List.find _ nodes) as [triggerNode|]; [|discriminate].
  destruct (bfs_effects _ _ _ _ _ _ _ _ _ _ _ _ _ _ Hrun)
    as (js & ss & Hjobs & Hissued & Hqueue & Hsent & Hwritten).
  exists js, ss. cbn in Hsent, Hwritten. repeat split; assumption.
Qed.

Lemma X27_pass_effects_match_its_results_witness :
  exists results w' js ss,
    executeNodes no_numeric_strings reliable 5 (wf_nodes welcome_workflow)
                 (wf_edges welcome_workflow) 0 "tenant-1" (Some "lead-1") (JObj [])
                 (sample_world []) = Ok results w' /\
    jobs w' = (jobs (sample_world []) ++ js)%list /\
    issued w' = (issued (sample_world []) ++ ss)%list /\
    Forall (fun j => job_queue j = "messages") js /\
    length js = 2%nat /\
    length ss = 0%nat.
Proof.
  assert (H : exists results w',
             executeNodes no_numeric_strings reliable 5 (wf_nodes welcome_workflow)
                          (wf_edges welcome_workflow) 0 "tenant-1" (Some "lead-1")
                          (JObj []) (sample_world []) = Ok results w' /\
             count_reports sending_reports results = 2%nat /\
             count_reports writing_reports results = 0%nat)
    by (eexists; eexists; split; [vm_compute; reflexivity | split; reflexivity]).
  destruct H as (results & w' & Hrun & Hsent & Hwritten).
  destruct (X27_pass_effects_match_its_results _ _ _ _ _ _ _ _ _ _ _ _ Hrun)
    as (js & ss & Hjobs & Hissued & Hqueue & Hjs & Hss).
  exists results, w', js, ss.
  rewrite Hsent in Hjs. rewrite Hwritten in Hss.
  repeat split; assumption.
Defined.

(** *** [PATCH /:id] *)

Lemma filter_find_head {A} (p : A -> bool) (l : list A) (x : A) :
  List.find p l = Some x -> exists rest, List.filter p l = x :: rest.
Proof.
  induction l as [|y l IH]; [discriminate|].
  cbn [List.find List.filter]. destruct (p y).
  - intros [= ->]. eexists; reflexivity.
  - exact IH.
Qed.

Lemma filter_find_none {A} (p : A -> bool) (l : list A) :
  List.find p l = None -> List.filter p l = [].
Proof.
  induction l as [|y l IH]; [reflexivity|].
  cbn [List.find List.filter]. destruct (p y); [discriminate | exact IH].
Qed.

Lemma map_if_none {A} (p : A -> bool) (f : A -> A) (l : list A) :
  List.find p l = None -> map (fun r => if p r then f r else r) l = l.
Proof.
  induction l as [|y l IH]; [reflexivity|].
  cbn [List.find map]. destruct (p y); [discriminate|].
  intros H. now rewrite (IH H).
Qed.

Lemma stringify_field_object JSON_stringify key fs w :
  exists fs',
    stringify_field JSON_stringify key (JObj fs) w = Ok (JObj fs') w /\
    forall k, k <> key -> assoc_get k fs' = assoc_get k fs.
Proof.
  unfold stringify_field, bind, prop, ret.
  destruct (truthy (assoc_get key fs)).
  - eexists. split; [reflexivity|]. intros k Hk. now apply assoc_get_set_ne.
  - eexists. split; [reflexivity|]. reflexivity.
Qed.

(** X28. [PATCH /:id] is not scoped to the caller's tenant: with an
    object as body, the rows with that id are updated whichever tenant
    owns them, the reply is the first of them as updated, and the rows
    with another id are left as they are; only when no row at all has
    the id is the reply 404, the table being unchanged.  What is
    written is the body with [trigger], [nodes] and [edges] serialised:
    every other key goes to the database as sent. *)
Theorem X28_patch_is_not_scoped_to_the_tenant
    (route_rejects : RouteCall -> World -> option string)
    (JSON_stringify : JsVal -> string)
    (set_columns : JsVal -> WorkflowRow -> WorkflowRow)
    (workflowId tenantId : string) (fs : list (string * JsVal)) (w : World) :
  (forall c w0, route_rejects c w0 = None) ->
  exists written reply w',
    patch_route route_rejects JSON_stringify set_columns workflowId tenantId
                (JObj fs) w = Ok reply w' /\
    (forall k, k <> "trigger" -> k <> "nodes" -> k <> "edges" ->
               assoc_get k written = assoc_get k fs) /\
    length (workflows w') = length (workflows w) /\
    (forall i r, nth_error (workflows w) i = Some r ->
                 nth_error (workflows w') i
                 = Some (if String.eqb (wf_id r) workflowId
                         then set_columns (JObj written) r else r)) /\
    match List.find (fun r => String.eqb (wf_id r) workflowId) (workflows w) with
    | Some row => reply = ReplyWorkflow (set_columns (JObj written) row)
    | None => reply = ReplyNotFound "NOT_FOUND" "Workflow not found"
              /\ workflows w' = workflows w
    end.
Proof.
  intros Hup. unfold patch_route.
  destruct (stringify_field_object JSON_stringify "trigger" fs w) as (fs1 & H1 & K1).
  destruct (stringify_field_object JSON_stringify "nodes" fs1 w) as (fs2 & H2 & K2).
  destruct (stringify_field_object JSON_stringify "edges" fs2 w) as (fs3 & H3 & K3).
  unfold bind at 1. rewrite H1.
  unfold bind at 1. rewrite H2.
  unfold bind at 1. rewrite H3.
  unfold bind at 1.
  unfold db_update_workflows, bind, route_external, get_world, modify, ret.
  rewrite Hup.
  exists fs3.
  destruct (List.find (fun r => String.eqb (wf_id r) workflowId) (workflows w))
    as [row|] eqn:Hfind.
  - destruct (filter_find_head _ _ _ Hfind) as (rest & Hfilter).
    rewrite Hfilter. cbn [map hd_error].
    eexists. eexists. split; [reflexivity|].
    cbn [workflows set_workflows].
    split; [intros k Ht Hn He; now rewrite K3, K2, K1 by assumption|].
    split; [apply length_map|].
    split; [|reflexivity].
    intros i r Hi. rewrite nth_error_map, Hi. reflexivity.
  - rewrite (filter_find_none _ _ Hfind). cbn [map hd_error].
    eexists. eexists. split; [reflexivity|].
    cbn [workflows set_workflows].
    split; [intros k Ht Hn He; now rewrite K3, K2, K1 by assumption|].
    split; [apply length_map|].
    split; [|split; [reflexivity|]].
    + intros i r Hi. rewrite nth_error_map, Hi. reflexivity.
    + apply (map_if_none (fun r => String.eqb (wf_id r) workflowId)). exact Hfind.
Qed.

Lemma X28_patch_is_not_scoped_to_the_tenant_witness :
  exists reply w',
    patch_route (fun _ _ => None) (fun _ => "[]") set_status_column
                "wf-1" "another-tenant" (JObj [("status", JStr "active")])
                (sample_world [welcome_workflow]) = Ok reply w' /\
    map wf_tenant_id (workflows (sample_world [welcome_workflow])) = ["tenant-1"] /\
    map wf_status (workflows w') = ["active"].
Proof.
  destruct (X28_patch_is_not_scoped_to_the_tenant
              (fun _ _ => None) (fun _ => "[]") set_status_column
              "wf-1" "another-tenant" [("status", JStr "active")]
              (sample_world [welcome_workflow]))
    as (written & reply & w' & Hrun & _); [reflexivity|].
  exists reply, w'. split; [exact Hrun|].
  vm_compute in Hrun. injection Hrun as _ <-.
  split; reflexivity.
Defined.
